(** * Altair, Vega-Lite v2 API: a shallow embedding of [altair/vegalite/v2/api.py]

    The Python module builds chart specifications out of schema nodes, plain
    dictionaries and strings.  Python values are embedded as the inductive
    type [value]; dictionaries (and the keyword store [_kwds] of a schema
    node) are finite maps with string keys; a function that can raise returns
    a [result]; the one method that assigns to an attribute of a live object
    ([_prepare_data], reached from [to_dict]) runs in a state monad over a
    heap of objects. *)

From stdpp Require Import base strings gmap list.
From Stdlib Require Import ZArith Ascii.
From Stdlib Require Import DecimalString DecimalNat.

(** ** Python values *)

#[warnings="-register-all"]
Inductive value : Type :=
| Undefined
| PyNone
| PyBool (b : bool)
| PyInt (n : Z)
| PyStr (s : string)
| PyList (items : list value)
| PyDict (items : gmap string value)
| Node (cls : string) (args : list value) (kwds : gmap string value)
| DataFrame (columns : list (string * list value)).

Abbreviation dict := (gmap string value).

(** The exceptions the module raises or lets through. *)
Inductive exn : Type :=
| ValueError (msg : string)
| TypeError (msg : string)
| AttributeError (msg : string)
| NotImplementedError (msg : string)
| AssertionError
| StopIteration
| ValidationError
| ExternalError (msg : string).

Inductive result (A : Type) : Type :=
| Ok (a : A)
| Raise (e : exn).
Arguments Ok {A} a.
Arguments Raise {A} e.

#[global] Instance result_ret : MRet result := λ A, Ok.
#[global] Instance result_bind : MBind result :=
  λ A B f m, match m with Ok a => f a | Raise e => Raise e end.
#[global] Instance exn_eq_dec : EqDecision exn.
Proof. solve_decision. Defined.

#[global] Instance result_fmap : FMap result :=
  λ A B f m, match m with Ok a => Ok (f a) | Raise e => Raise e end.

(** [try: ... except jsonschema.ValidationError: handler]. *)
Definition except_ValidationError {A : Type} (body handler : result A) : result A :=
  match body with
  | Raise ValidationError => handler
  | r => r
  end.

(** ** Built-ins *)

(** [val is Undefined]. *)
Definition is_Undefined (v : value) : bool :=
  match v with Undefined => true | _ => false end.

(** [isinstance(v, classes)] for schema classes, by class name. *)
Definition isinstance (v : value) (classes : list string) : bool :=
  match v with
  | Node cls _ _ => bool_decide (cls ∈ classes)
  | _ => false
  end.

(** [isinstance(v, core.SchemaBase)]: every node is one. *)
Definition is_SchemaBase (v : value) : bool :=
  match v with Node _ _ _ => true | _ => false end.

(** [self._kwds] of a schema node. *)
Definition _kwds (self : value) : dict :=
  match self with Node _ _ kwds => kwds | _ => ∅ end.

(** [getattr(obj, attr, Undefined)] on a schema node, and [obj.attr] for an
    attribute that the class of the node declares: [SchemaBase.__getattr__]
    answers from [_kwds]; the generated classes store every declared property,
    [Undefined] when not given, so an absent key reads as [Undefined].  Where
    the code reads an attribute that the class may not declare, the access is
    [Mixin.attribute] below, which can raise. *)
Definition getattr (obj : value) (attr : string) : value :=
  default Undefined (_kwds obj !! attr).

(** [obj.attr = val] on a schema node ([SchemaBase.__setattr__]). *)
Definition setattr (obj : value) (attr : string) (val : value) : value :=
  match obj with
  | Node cls args kwds => Node cls args (<[attr := val]> kwds)
  | _ => obj
  end.

(** [repr(type(v))], as used in messages. *)
Definition type_repr (v : value) : string :=
  match v with
  | Undefined => "<class 'altair.utils.schemapi.UndefinedType'>"
  | PyNone => "<class 'NoneType'>"
  | PyBool _ => "<class 'bool'>"
  | PyInt _ => "<class 'int'>"
  | PyStr _ => "<class 'str'>"
  | PyList _ => "<class 'list'>"
  | PyDict _ => "<class 'dict'>"
  | Node cls _ _ => "<class '" +:+ cls +:+ "'>"
  | DataFrame _ => "<class 'pandas.core.frame.DataFrame'>"
  end.

(** Truth value of an object in [if obj:]. *)
Definition truthy (v : value) : bool :=
  match v with
  | Undefined => true
  | PyNone => false
  | PyBool b => b
  | PyInt n => negb (n =? 0)%Z
  | PyStr s => negb (String.eqb s "")
  | PyList l => negb (bool_decide (length l = 0))
  | PyDict d => negb (bool_decide (size d = 0))
  | Node _ _ _ => true
  | DataFrame _ => true
  end.

(** [d.update(other)]: the entries of [other] win. *)
Definition dict_update (d other : dict) : dict := other ∪ d.

(** ASCII case tests and conversions, for [str.title] and [str.lower]. *)
Definition is_upper (c : ascii) : bool :=
  (65 <=? nat_of_ascii c) && (nat_of_ascii c <=? 90).
Definition is_lower (c : ascii) : bool :=
  (97 <=? nat_of_ascii c) && (nat_of_ascii c <=? 122).
Definition to_upper (c : ascii) : ascii :=
  if is_lower c then ascii_of_nat (nat_of_ascii c - 32) else c.
Definition to_lower (c : ascii) : ascii :=
  if is_upper c then ascii_of_nat (nat_of_ascii c + 32) else c.

(** [s.title()]: in every run of letters the first is upper-cased and the
    others lower-cased; [cased] tells whether the previous character was a
    letter. *)
Fixpoint title_from (cased : bool) (s : string) : string :=
  match s with
  | EmptyString => EmptyString
  | String c rest =>
      let c' :=
        if is_lower c then (if cased then c else to_upper c)
        else if is_upper c then (if cased then to_lower c else c)
        else c in
      String c' (title_from (is_lower c || is_upper c) rest)
  end.
Definition title (s : string) : string := title_from false s.

(** ** The schema object model *)

Definition chart_classes : list string :=
  ["Chart"; "RepeatChart"; "HConcatChart"; "VConcatChart"; "LayerChart"].

(** The source sets [_class_is_valid_at_instantiation = False] on
    [TopLevelMixin], which every chart class inherits, and on
    [core.EncodingWithFacet]; every other class keeps the default. *)
Definition _class_is_valid_at_instantiation (cls : string) : bool :=
  negb (bool_decide (cls ∈ "EncodingWithFacet" :: chart_classes)).

Section SchemaBase.
(** The check of a node of class [cls] against the class's schema. *)
Variable schema_accepts : string → list value → dict → bool.

(** Modelled from the spec: [core.SchemaBase] and the classes generated from
    the schema are not under src/.  A node is built from its named fields;
    a class that is valid at instantiation is checked against its schema
    when it is built, and the construction raises the validation error when
    the check fails. *)
Definition instantiate (cls : string) (args : list value) (kwds : dict)
  : result value :=
  if _class_is_valid_at_instantiation cls && negb (schema_accepts cls args kwds)
  then Raise ValidationError
  else Ok (Node cls args kwds).
End SchemaBase.

(** ** Selections *)

Module SelectionMapping.
Section Methods.
Variable schema_accepts : string → list value → dict → bool.

(** [ref(self, name=None)]. *)
Definition ref (self : value) (name : option string) : result value :=
  let name :=
    match name with
    | None =>
        if bool_decide (size (_kwds self) = 1)
        then fst <$> head (map_to_list (_kwds self))
        else None
    | Some n => Some n
    end in
  match name with
  | Some n =>
      if bool_decide (n ∈ dom (_kwds self))
      then Ok (PyDict {["selection" := PyStr n]})
      else Raise (ValueError ("'" +:+ n +:+
                    "' is not a valid selection name in this mapping"))
  | None =>
      Raise (ValueError "'None' is not a valid selection name in this mapping")
  end.

Definition _get_name (self : value) : result string :=
  if bool_decide (size (_kwds self) ≠ 1)
  then Raise (ValueError "Selection Mapping has more than one name")
  else match map_to_list (_kwds self) with
       | (name, _) :: _ => Ok name
       | [] => Raise StopIteration
       end.

(** [NotImplemented] from a binary operator ends, with no reflected
    operator on the other side, in a [TypeError]. *)
Definition __add__ (self other : value) : result value :=
  if isinstance other ["SelectionMapping"]
  then Ok (match self with
           | Node cls args kwds => Node cls args (dict_update kwds (_kwds other))
           | _ => self
           end)
  else Raise (TypeError "unsupported operand type(s) for +").

(** [__iadd__] updates [self._kwds] in place and returns [self]: the value
    of [self] afterwards. *)
Definition __iadd__ (self other : value) : result value :=
  if isinstance other ["SelectionMapping"]
  then Ok (match self with
           | Node cls args kwds => Node cls args (dict_update kwds (_kwds other))
           | _ => self
           end)
  else Raise (TypeError "unsupported operand type(s) for +=").

Definition __invert__ (self : value) : result value :=
  name ← _get_name self;
  instantiate schema_accepts "SelectionNot" [] {["not" := PyStr name]}.

Definition __and__ (self other : value) : result value :=
  other ← (if isinstance other ["SelectionMapping"]
           then PyStr <$> _get_name other
           else Ok other);
  name ← _get_name self;
  instantiate schema_accepts "SelectionAnd" []
    {["and" := PyList [PyStr name; other]]}.

Definition __or__ (self other : value) : result value :=
  other ← (if isinstance other ["SelectionMapping"]
           then PyStr <$> _get_name other
           else Ok other);
  name ← _get_name self;
  instantiate schema_accepts "SelectionAnd" []
    {["or" := PyList [PyStr name; other]]}.
End Methods.
End SelectionMapping.

(** [repeat(repeater)]: [assert repeater in ['row', 'column']]. *)
Definition repeat (schema_accepts : string → list value → dict → bool)
    (repeater : value) : result value :=
  let ok := match repeater with
            | PyStr s => String.eqb s "row" || String.eqb s "column"
            | _ => false
            end in
  if ok then instantiate schema_accepts "RepeatRef" [] {["repeat" := repeater]}
  else Raise AssertionError.

(** ** Conditions *)

Definition selection_predicates : list string :=
  ["SelectionNot"; "SelectionOr"; "SelectionAnd"; "SelectionOperand"].
Definition test_predicate_classes : list string :=
  ["Predicate"; "LogicalOperandPredicate"; "LogicalNotPredicate";
   "LogicalOrPredicate"; "LogicalAndPredicate"].

Definition is_str (v : value) : bool :=
  match v with PyStr _ => true | _ => false end.

Section Condition.
(** [node.to_dict()], the node's conversion to a plain document. *)
Variable node_to_dict : value → result value.

(** [condition(predicate, if_true, if_false, **kwargs)].  The operands the
    function documents are strings, dictionaries and schema nodes; for any
    other operand [dict.update] and the unpacking into [dict] are taken to
    raise the [TypeError] they raise on [None] or a number.  When the
    predicate is a dictionary the source updates it in place; the model
    returns the updated mapping only. *)
Definition condition (predicate if_true if_false : value) (kwargs : dict)
  : result value :=
  condition ←
    (if isinstance predicate ["SelectionMapping"] then
       name ← SelectionMapping._get_name predicate;
       Ok ({["selection" := PyStr name]} : dict)
     else if isinstance predicate selection_predicates then
       Ok {["selection" := predicate]}
     else if is_str predicate || isinstance predicate test_predicate_classes then
       Ok {["test" := predicate]}
     else match predicate with
          | PyDict d => Ok d
          | _ => Raise (NotImplementedError
                   ("condition predicate of type " +:+ type_repr predicate))
          end);
  if_true ←
    (if is_SchemaBase if_true then node_to_dict if_true
     else if is_str if_true
          then Ok (PyDict (dict_update {["field" := if_true]} kwargs))
          else Ok if_true);
  condition ←
    match if_true with
    | PyDict d => Ok (dict_update condition d)
    | _ => Raise (TypeError "dict.update: argument is not a mapping")
    end;
  match if_false with
  | Node _ _ _ => Ok (setattr if_false "condition" (PyDict condition))
  | PyStr _ =>
      Ok (PyDict (dict_update
                    {["condition" := PyDict condition; "field" := if_false]}
                    kwargs))
  | PyDict d =>
      if bool_decide ("condition" ∈ dom d)
      then Raise (TypeError
             "dict() got multiple values for keyword argument 'condition'")
      else Ok (PyDict (<["condition" := PyDict condition]> d))
  | _ => Raise (TypeError "dict() argument after ** must be a mapping")
  end.
End Condition.

(** ** Deep merge of defaults *)

(** Modelled from the spec: [update_nested] of [altair.utils] is not under
    src/.  The spec has it deep-merge the entries of [update] over
    [original]: an entry of [update] replaces the one of [original], except
    that two mappings under the same key are merged recursively.  The
    recursion is on the value that holds [update]. *)
Fixpoint update_nested_with (update : value) (original : dict) : dict :=
  match update with
  | PyDict u =>
      map_fold
        (λ key val original,
           match val with
           | PyDict _ =>
               match default (PyDict ∅) (original !! key) with
               | PyDict orig_val =>
                   <[key := PyDict (update_nested_with val orig_val)]> original
               | _ => <[key := val]> original
               end
           | _ => <[key := val]> original
           end)
        original u
  | _ => original
  end.

(** [update_nested(original, update, copy=True)]. *)
Definition update_nested (original update : dict) : dict :=
  update_nested_with (PyDict update) original.

(** ** Objects with identity

    [to_dict] copies the chart and lets [_prepare_data] assign to the copy's
    [data] attribute, so charts live in a heap here.  The world also records
    every call that leaves the module: the frames handed to the data
    transformer and the conversions asked of [SchemaBase.to_dict]. *)

Abbreviation loc := positive.

Record conversion : Type := Conversion {
  conv_self : value;
  conv_args : list value;
  conv_kwargs : dict
}.

Record world : Type := World {
  heap : gmap loc value;
  transformed : list value;
  conversions : list conversion
}.

Definition M (A : Type) : Type := world → result A * world.

#[global] Instance M_ret : MRet M := λ A a w, (Ok a, w).
#[global] Instance M_bind : MBind M :=
  λ A B f m w,
    match m w with
    | (Ok a, w') => f a w'
    | (Raise e, w') => (Raise e, w')
    end.
#[global] Instance M_fmap : FMap M :=
  λ A B f m w,
    match m w with
    | (Ok a, w') => (Ok (f a), w')
    | (Raise e, w') => (Raise e, w')
    end.

Definition lift {A : Type} (r : result A) : M A := λ w, (r, w).

(** [try: body except jsonschema.ValidationError: handler]. *)
Definition try_except_ValidationError {A : Type} (body handler : M A) : M A :=
  λ w,
    match body w with
    | (Raise ValidationError, w') => handler w'
    | r => r
    end.

Definition deref (l : loc) : M value :=
  λ w,
    match heap w !! l with
    | Some obj => (Ok obj, w)
    | None => (Raise (ExternalError "no such object"), w)
    end.

Definition assign (l : loc) (obj : value) : M unit :=
  λ w, (Ok (), World (<[l := obj]> (heap w)) (transformed w) (conversions w)).

Definition allocate (obj : value) : M loc :=
  λ w,
    let l := fresh (dom (heap w)) in
    (Ok l, World (<[l := obj]> (heap w)) (transformed w) (conversions w)).

(** [self.copy()]: a deep copy is a new object with the same contents. *)
Definition copy (self : loc) : M loc :=
  obj ← deref self;
  allocate obj.

Definition SCHEMA_URL : string :=
  "https://vega.github.io/schema/vega-lite/v2.json".

Definition is_dict (v : value) : bool :=
  match v with PyDict _ => true | _ => false end.
Definition is_DataFrame (v : value) : bool :=
  match v with DataFrame _ => true | _ => false end.

Module TopLevelMixin.
Section Methods.
Variable schema_accepts : string → list value → dict → bool.
(** [pipe(data, data_transformers.get())], the data pipeline in use. *)
Variable data_transformer : value → result value.
(** [core.SchemaBase.to_dict], the walk of the node tree with validation. *)
Variable SchemaBase_to_dict : value → list value → dict → result dict.

Definition pipe (data : value) : M value :=
  λ w, (data_transformer data,
        World (heap w) (transformed w ++ [data]) (conversions w)).

Definition convert (obj : value) (args : list value) (kwargs : dict) : M dict :=
  λ w, (SchemaBase_to_dict obj args kwargs,
        World (heap w) (transformed w)
              (conversions w ++ [Conversion obj args kwargs])).

(** [super(TopLevelMixin, copy).to_dict] applied to the arguments. *)
Definition super_to_dict (self : loc) (args : list value) (kwargs : dict)
  : M dict :=
  obj ← deref self;
  convert obj args kwargs.

Definition _default_spec_values : dict :=
  {["config" :=
      PyDict {["view" :=
                 PyDict {["width" := PyInt 400; "height" := PyInt 300]}]}]}.

(** [core.UrlData(self.data)]: the class binds its first parameter to [url]. *)
Definition _prepare_data (self : loc) : M unit :=
  obj ← deref self;
  let data := getattr obj "data" in
  if is_dict data
     || isinstance data ["Data"; "InlineData"; "UrlData"; "NamedData"]
  then mret ()
  else if is_DataFrame data then
    data' ← pipe data;
    assign self (setattr obj "data" data')
  else if is_str data then
    data' ← lift (instantiate schema_accepts "UrlData" [] {["url" := data]});
    assign self (setattr obj "data" data')
  else mret ().

Definition to_dict (self : loc) (args : list value) (kwargs : dict) : M dict :=
  copy ← copy self;
  obj ← deref copy;
  let original_data := getattr obj "data" in
  _ ← _prepare_data copy;
  context ← lift (match default (PyDict ∅) (kwargs !! "context") with
                  | PyDict c => Ok c
                  | _ => Raise (AttributeError "context is not a dict")
                  end);
  let is_top_level := default (PyBool true) (context !! "top_level") in
  let context := <["top_level" := PyBool false]> context in
  let context :=
    if is_Undefined original_data then context
    else <["data" := original_data]> context in
  let kwargs := <["context" := PyDict context]> kwargs in
  dct ← try_except_ValidationError
          (Some <$> super_to_dict copy args kwargs) (mret None);
  dct ← match dct with
        | None =>
            let kwargs := <["validate" := PyStr "deep"]> kwargs in
            super_to_dict copy args kwargs
        | Some dct => mret dct
        end;
  if truthy is_top_level then
    let dct :=
      if bool_decide ("$schema" ∈ dom dct) then dct
      else <["$schema" := PyStr SCHEMA_URL]> dct in
    if truthy (PyDict _default_spec_values)
    then mret (update_nested _default_spec_values dct)
    else mret dct
  else mret dct.
End Methods.
End TopLevelMixin.

(** ** Encoding channels *)

Fixpoint lower (s : string) : string :=
  match s with
  | EmptyString => EmptyString
  | String c rest => String (to_lower c) (lower rest)
  end.

(** [s.replace(old, new)] for a non-empty [old]: [skip] counts the characters
    of a matched occurrence still to be dropped. *)
Fixpoint replace_from (skip : nat) (old new s : string) : string :=
  match s with
  | EmptyString => EmptyString
  | String c rest =>
      match skip with
      | S k => replace_from k old new rest
      | O =>
          if String.prefix old s
          then new +:+ replace_from (String.length old - 1) old new rest
          else String c (replace_from 0 old new rest)
      end
  end.
Definition str_replace (old new s : string) : string := replace_from 0 old new s.

(** A loop [for x in l: body(x)] whose body may raise. *)
Fixpoint for_each {A : Type} (body : A → result ()) (l : list A) : result () :=
  match l with
  | [] => Ok ()
  | x :: rest => _ ← body x; for_each body rest
  end.

Module Chart.
Section Methods.
Variable schema_accepts : string → list value → dict → bool.
(** The channel classes that the [channels] module defines, by name. *)
Variable channels : list string.
(** [parse_shorthand] of [altair.utils]. *)
Variable parse_shorthand : value → result dict.
(** [cls.from_dict(obj, validate=False)] for the class named [cls]. *)
Variable from_dict : string → dict → result value.

(** [_get_channels_mapping()]: class name to encoding name. *)
Definition _get_channels_mapping : gmap string string :=
  list_to_map ((λ attr, (attr, lower (str_replace "Value" "" attr))) <$> channels).

(** The source notes that an [obj] that is neither a string nor a schema
    node must be a mapping; anything else is taken to raise the [TypeError]
    of ['field' in obj] on [None] or a number. *)
Definition _wrap_in_channel_class (obj : value) (prop : string) : result value :=
  let clsname := title prop in
  if is_SchemaBase obj then Ok obj
  else
    obj ← match obj with
          | PyStr _ => Ok ({["field" := obj]} : dict)
          | PyDict d => Ok d
          | _ => Raise (TypeError "argument is not iterable")
          end;
    obj ← match obj !! "field" with
          | Some field =>
              shorthand ← parse_shorthand field;
              Ok (dict_update obj shorthand)
          | None => Ok obj
          end;
    let clsname :=
      if bool_decide ("value" ∈ dom obj) then clsname +:+ "Value" else clsname in
    if bool_decide (clsname ∈ channels)
    then except_ValidationError (from_dict clsname obj) (Ok (PyDict obj))
    else Raise (ValueError ("Unrecognized encoding channel '" +:+ prop +:+ "'")).

(** The body of the loop over [kwargs.items()]: [field['condition']] raises
    [KeyError] or [TypeError] (caught) unless [field] is a dictionary or a
    node that holds the key. *)
Definition wrap_item (prop : string) (field : value) : result value :=
  field ←
    match field with
    | PyDict d =>
        match d !! "condition" with
        | Some condition =>
            if is_Undefined condition then Ok field
            else c ← _wrap_in_channel_class condition prop;
                 Ok (PyDict (<["condition" := c]> d))
        | None => Ok field
        end
    | Node cls args kwds =>
        match kwds !! "condition" with
        | Some condition =>
            if is_Undefined condition then Ok field
            else c ← _wrap_in_channel_class condition prop;
                 Ok (Node cls args (<["condition" := c]> kwds))
        | None => Ok field
        end
    | _ => Ok field
    end;
  _wrap_in_channel_class field prop.

(** Positional arguments become keyword arguments by their class. *)
Definition args_to_kwargs (args : list value) (kwargs : dict) : result dict :=
  foldl
    (λ acc arg,
       kwargs ← acc;
       match (match arg with
              | Node cls _ _ => _get_channels_mapping !! cls
              | _ => None
              end) with
       | None => Raise (NotImplementedError
                   ("non-keyword arg of type " +:+ type_repr arg))
       | Some encoding =>
           if bool_decide (encoding ∈ dom kwargs)
           then Raise (ValueError
                  ("encode: encoding " +:+ encoding +:+ " specified twice"))
           else Ok (<[encoding := arg]> kwargs)
       end)
    (Ok kwargs) args.

(** [encode(self, *args, **kwargs)].  The keyword arguments are visited in
    the order of [map_to_list]; the order only decides which exception is
    seen when several entries fail. *)
Definition encode (self : value) (args : list value) (kwargs : dict)
  : result value :=
  kwargs ← args_to_kwargs args kwargs;
  wrapped ← mapM (λ item, w ← wrap_item item.1 item.2; Ok (item.1, w))
                 (map_to_list kwargs);
  let kwargs : dict := list_to_map wrapped in
  let copy := self in
  encoding ←
    match getattr copy "encoding" with
    | Undefined => Ok ∅
    | PyDict d => Ok d
    | Node _ _ kwds => Ok (filter (λ kv, is_Undefined kv.2 = false) kwds)
    | _ => Raise (AttributeError "object has no attribute '_kwds'")
    end;
  encoding ← instantiate schema_accepts "EncodingWithFacet" []
               (dict_update encoding kwargs);
  Ok (setattr copy "encoding" encoding).
End Methods.
End Chart.

(** ** Sub-specifications and compound charts *)

Definition quote : string := String "034" EmptyString.

Definition subspec_err (attr classname : string) : string :=
  "Objects with " +:+ quote +:+ attr +:+ quote +:+ " cannot be used within "
  +:+ classname +:+ ". Consider defining the " +:+ attr
  +:+ " attribute in the " +:+ classname +:+ " object instead.".

Definition toplevel_only : list string :=
  ["autosize"; "background"; "config"; "padding"].

(** [spec.get(attr, Undefined)] outside schema nodes: a dictionary answers
    from its entries, a frame with the column of that name, and nothing else
    has a [get]. *)
Definition subspec_attr (spec : value) (attr : string) : result value :=
  match spec with
  | Node _ _ _ => Ok (getattr spec attr)
  | PyDict d => Ok (default Undefined (d !! attr))
  | DataFrame columns =>
      Ok (default Undefined (PyList <$> (list_to_map columns : gmap string (list value)) !! attr))
  | _ => Raise (AttributeError "object has no attribute 'get'")
  end.

Definition _check_if_valid_subspec (spec : value) (classname : string) : result () :=
  for_each
    (λ attr,
       val ← subspec_attr spec attr;
       if is_Undefined val then Ok ()
       else Raise (ValueError (subspec_err attr classname)))
    toplevel_only.

(** [self.<attr>.append(other)] on a chart's list of children. *)
Definition append_child (self : value) (attr : string) (other : value)
  : result value :=
  match getattr self attr with
  | PyList children => Ok (setattr self attr (PyList (children ++ [other])))
  | _ => Raise (AttributeError "object has no attribute 'append'")
  end.

(** The charts are not valid at instantiation, so building one checks
    nothing beyond [_check_if_valid_subspec]. *)
Module RepeatChart.
Definition __init__ (spec data repeat : value) (kwargs : dict) : result value :=
  _ ← _check_if_valid_subspec spec "RepeatChart";
  Ok (Node "RepeatChart" []
        (<["spec" := spec]> (<["data" := data]> (<["repeat" := repeat]> kwargs)))).
End RepeatChart.

Module HConcatChart.
Definition __init__ (hconcat : list value) (kwargs : dict) : result value :=
  _ ← for_each (λ spec, _check_if_valid_subspec spec "HConcatChart") hconcat;
  Ok (Node "HConcatChart" [] (<["hconcat" := PyList hconcat]> kwargs)).

Definition __ior__ (self other : value) : result value :=
  _ ← _check_if_valid_subspec other "HConcatChart";
  append_child self "hconcat" other.

Definition __or__ (self other : value) : result value :=
  _ ← _check_if_valid_subspec other "HConcatChart";
  let copy := self in
  append_child copy "hconcat" other.
End HConcatChart.

Module VConcatChart.
Definition __init__ (vconcat : list value) (kwargs : dict) : result value :=
  _ ← for_each (λ spec, _check_if_valid_subspec spec "VConcatChart") vconcat;
  Ok (Node "VConcatChart" [] (<["vconcat" := PyList vconcat]> kwargs)).

Definition __iand__ (self other : value) : result value :=
  _ ← _check_if_valid_subspec other "VConcatChart";
  append_child self "vconcat" other.

Definition __and__ (self other : value) : result value :=
  _ ← _check_if_valid_subspec other "VConcatChart";
  let copy := self in
  append_child copy "vconcat" other.
End VConcatChart.

Module LayerChart.
Definition __init__ (layer : list value) (kwargs : dict) : result value :=
  _ ← for_each (λ spec, _check_if_valid_subspec spec "LayerChart") layer;
  Ok (Node "LayerChart" [] (<["layer" := PyList layer]> kwargs)).

Definition __iadd__ (self other : value) : result value :=
  _ ← _check_if_valid_subspec other "LayerChart";
  append_child self "layer" other.

Definition __add__ (self other : value) : result value :=
  _ ← _check_if_valid_subspec other "LayerChart";
  let copy := self in
  append_child copy "layer" other.
End LayerChart.

(** [hconcat], [vconcat] and [layer]: the charts given, in order. *)
Definition hconcat (charts : list value) (kwargs : dict) : result value :=
  HConcatChart.__init__ charts kwargs.
Definition vconcat (charts : list value) (kwargs : dict) : result value :=
  VConcatChart.__init__ charts kwargs.
Definition layer (charts : list value) (kwargs : dict) : result value :=
  LayerChart.__init__ charts kwargs.

(** The operators [+], [&] and [|] on charts: a compound chart has its own
    method, every other chart inherits [TopLevelMixin]'s, which builds the
    compound chart from both operands. *)
Module Operators.
Definition TopLevelMixin__add__ (self other : value) : result value :=
  LayerChart.__init__ [self; other] ∅.
Definition TopLevelMixin__and__ (self other : value) : result value :=
  VConcatChart.__init__ [self; other] ∅.
Definition TopLevelMixin__or__ (self other : value) : result value :=
  HConcatChart.__init__ [self; other] ∅.

Definition add (self other : value) : result value :=
  if isinstance self ["LayerChart"] then LayerChart.__add__ self other
  else TopLevelMixin__add__ self other.
Definition and_ (self other : value) : result value :=
  if isinstance self ["VConcatChart"] then VConcatChart.__and__ self other
  else TopLevelMixin__and__ self other.
Definition or_ (self other : value) : result value :=
  if isinstance self ["HConcatChart"] then HConcatChart.__or__ self other
  else TopLevelMixin__or__ self other.
End Operators.

(** ** Named selections *)

(** [s.zfill(width)] for a string of digits, and ["{0:03d}".format(n)]. *)
Definition zero_pad (width : nat) (s : string) : string :=
  String.concat "" (replicate (width - String.length s) "0") +:+ s.

Definition format_03d (n : nat) : string :=
  zero_pad 3 (NilEmpty.string_of_uint (Nat.to_uint n)).

Definition selector_name (counter : nat) : string := "selector" +:+ format_03d counter.

Section Selections.
Variable schema_accepts : string → list value → dict → bool.

(** [selection(name=None, **kwds)], with the function attribute
    [selection.counter] passed in and out.  A [name] that is neither [None]
    nor a string cannot be a keyword of [SelectionMapping]. *)
Definition selection (name : value) (kwds : dict) (counter : nat)
  : result value * nat :=
  let '(name, counter) :=
    match name with
    | PyNone => (PyStr (selector_name counter), S counter)
    | _ => (name, counter)
    end in
  (def ← instantiate schema_accepts "SelectionDef" [] kwds;
   match name with
   | PyStr name => instantiate schema_accepts "SelectionMapping" [] {[name := def]}
   | _ => Raise (TypeError "keywords must be strings")
   end,
   counter).

(** [selection(type=..., **kwargs)]: a [type] among the keyword arguments is
    given twice; a [name] among them is the parameter [name]. *)
Definition selection_of_type (type : string) (kwargs : dict) (counter : nat)
  : result value * nat :=
  if bool_decide ("type" ∈ dom kwargs)
  then (Raise (TypeError
          "selection() got multiple values for keyword argument 'type'"),
        counter)
  else selection (default PyNone (kwargs !! "name"))
                 (<["type" := PyStr type]> (delete "name" kwargs)) counter.

Definition selection_interval (kwargs : dict) (counter : nat) : result value * nat :=
  selection_of_type "interval" kwargs counter.
Definition selection_multi (kwargs : dict) (counter : nat) : result value * nat :=
  selection_of_type "multi" kwargs counter.
Definition selection_single (kwargs : dict) (counter : nat) : result value * nat :=
  selection_of_type "single" kwargs counter.
End Selections.

(** ** The other methods of the charts *)

(** [obj[key] = val]: [SchemaBase.__setitem__] stores into [_kwds], a
    dictionary stores the entry, nothing else here takes a string key. *)
Definition setitem (obj : value) (key : string) (val : value) : result value :=
  match obj with
  | Node cls args kwds => Ok (Node cls args (<[key := val]> kwds))
  | PyDict d => Ok (PyDict (<[key := val]> d))
  | _ => Raise (TypeError "object does not support item assignment")
  end.

(** [s.split(sep)[-1]]: what follows the last [sep], the whole string when
    it has none. *)
Fixpoint split_last (sep : ascii) (s : string) : option (string * string) :=
  match s with
  | EmptyString => None
  | String c rest =>
      match split_last sep rest with
      | Some (before, after) => Some (String c before, after)
      | None => if Ascii.eqb c sep then Some (EmptyString, rest) else None
      end
  end.

Definition last_segment (sep : ascii) (s : string) : string :=
  match split_last sep s with
  | Some (_, after) => after
  | None => s
  end.

(** What [savechart] asks of the writers outside the module:
    [write_file_or_filename(fp, self.to_json( **kwargs ), mode='w')], the same
    with the JSON inside the HTML template and the options [opt], or
    [save_spec(self.to_dict(), fp, format=format, **kwargs)]. *)
Inductive save_request : Type :=
| WriteJson (fp : value) (kwargs : dict)
| WriteHtml (fp : value) (opt kwargs : dict)
| SaveSpec (fp : value) (format : string) (kwargs : dict).

(** [cls( *args, **kwargs )] binds the positional arguments to the parameters
    of [cls.__init__] in order: a parameter that is also among the keywords
    is given twice, and there cannot be more positional arguments than
    parameters.  (When several parameters are given twice, Python names the
    first in the order of the keywords, the model the first parameter.) *)
Fixpoint bind_positional (names : list string) (args : list value)
    (kwargs : dict) : result dict :=
  match args, names with
  | [], _ => Ok kwargs
  | _ :: _, [] =>
      Raise (TypeError "__init__() takes fewer positional arguments")
  | arg :: args, name :: names =>
      if bool_decide (name ∈ dom kwargs)
      then Raise (TypeError ("__init__() got multiple values for argument '"
                             +:+ name +:+ "'"))
      else kwds ← bind_positional names args kwargs;
           Ok (<[name := arg]> kwds)
  end.

Module Mixin.
Section Methods.
Variable schema_accepts : string → list value → dict → bool.
(** The properties that the class generated from the schema declares, in the
    order of the parameters of its [__init__]. *)
Variable parameters : string → list string.

(** A call [cls( *args, **kwargs )] of a generated class. *)
Definition construct (cls : string) (args : list value) (kwargs : dict)
  : result value :=
  kwds ← bind_positional (parameters cls) args kwargs;
  instantiate schema_accepts cls [] kwds.

(** [obj.attr] by plain attribute access: [SchemaBase.__getattr__] answers
    from [_kwds], which holds every declared property ([Undefined] when not
    given, left out of the store here), and raises [AttributeError] for a
    name that is neither stored nor declared. *)
Definition attribute (obj : value) (attr : string) : result value :=
  match obj with
  | Node cls _ kwds =>
      match kwds !! attr with
      | Some v => Ok v
      | None =>
          if bool_decide (attr ∈ parameters cls) then Ok Undefined
          else Raise (AttributeError ("'" +:+ cls +:+
                        "' object has no attribute '" +:+ attr +:+ "'"))
      end
  | _ => Raise (AttributeError ("object has no attribute '" +:+ attr +:+ "'"))
  end.

(** [savechart(self, fp, format=None, **kwargs)], up to the call of the
    writer; [format] is [None] or a string. *)
Definition savechart (fp : value) (format : option string) (kwargs : dict)
  : result save_request :=
  let format :=
    match fp with
    | PyStr name => Some (last_segment "." name)
    | _ => format
    end in
  match format with
  | None => Raise (ValueError
              "must specify file format: ['png', 'eps', 'html', 'json']")
  | Some format =>
      if String.eqb format "json" then Ok (WriteJson fp kwargs)
      else if String.eqb format "html" then
        let renderer := default (PyStr "canvas") (kwargs !! "renderer") in
        let actions := default (PyBool false) (kwargs !! "actions") in
        let kwargs := delete "actions" (delete "renderer" kwargs) in
        let opt : dict := {["renderer" := renderer; "actions" := actions]} in
        if match renderer with
           | PyStr r => String.eqb r "canvas" || String.eqb r "svg"
           | _ => false
           end
        then Ok (WriteHtml fp opt kwargs)
        else Raise (ValueError "renderer must be 'canvas' or 'svg'")
      else if String.eqb format "png" || String.eqb format "svg"
      then Ok (SaveSpec fp format kwargs)
      else Raise (ValueError ("unrecognized format: '" +:+ format +:+ "'"))
  end.

(** [repeat(self, row=Undefined, column=Undefined, **kwargs)]: [spec] and
    [repeat] among the keyword arguments are given twice, [data] is the
    parameter [data] of [RepeatChart]. *)
Definition repeat (self row column : value) (kwargs : dict) : result value :=
  repeat ← instantiate schema_accepts "Repeat" []
             {["row" := row; "column" := column]};
  if bool_decide ("spec" ∈ dom kwargs) || bool_decide ("repeat" ∈ dom kwargs)
  then Raise (TypeError "__init__() got multiple values for keyword argument")
  else RepeatChart.__init__ self (default Undefined (kwargs !! "data")) repeat
         (delete "data" kwargs).

(** [properties(self, **kwargs)]: [setattr(copy, key, val)] for every item. *)
Definition properties (self : value) (kwargs : dict) : value :=
  let copy := self in
  map_fold (λ key val copy, setattr copy key val) copy kwargs.

(** [_add_transform(self, *transforms)].  The schema has [transform] unset
    or a list; any other value is taken to have no [extend]. *)
Definition _add_transform (self : value) (transforms : list value) : result value :=
  let copy := self in
  match getattr copy "transform" with
  | Undefined => Ok (setattr copy "transform" (PyList transforms))
  | PyList transform =>
      Ok (setattr copy "transform" (PyList (transform ++ transforms)))
  | _ => Raise (AttributeError "object has no attribute 'extend'")
  end.

Definition transform_aggregate (self : value) (args : list value) (kwargs : dict)
  : result value :=
  t ← construct "AggregateTransform" args kwargs;
  _add_transform self [t].

Definition transform_bin (self : value) (args : list value) (kwargs : dict)
  : result value :=
  t ← construct "BinTransform" args kwargs;
  _add_transform self [t].

(** [transform_calculate(self, as_, calculate, **kwargs)]: [as_] or
    [calculate] among the keyword arguments is given twice. *)
Definition transform_calculate (self as_ calculate : value) (kwargs : dict)
  : result value :=
  if bool_decide ("as_" ∈ dom kwargs) || bool_decide ("calculate" ∈ dom kwargs)
  then Raise (TypeError
         "transform_calculate() got multiple values for argument")
  else
    let kwargs := <["as" := as_]> kwargs in
    let kwargs := <["calculate" := calculate]> kwargs in
    t ← construct "CalculateTransform" [] kwargs;
    _add_transform self [t].

(** [transform_filter(self, filter, **kwargs)]: [filter] among the keyword
    arguments is given twice. *)
Definition transform_filter (self filter : value) (kwargs : dict) : result value :=
  if bool_decide ("filter" ∈ dom kwargs)
  then Raise (TypeError "transform_filter() got multiple values for argument")
  else
    let kwargs := <["filter" := filter]> kwargs in
    t ← construct "FilterTransform" [] kwargs;
    _add_transform self [t].

Definition transform_lookup (self : value) (args : list value) (kwargs : dict)
  : result value :=
  t ← construct "LookupTransform" args kwargs;
  _add_transform self [t].

Definition transform_timeunit (self : value) (args : list value) (kwargs : dict)
  : result value :=
  t ← construct "TimeUnitTransform" args kwargs;
  _add_transform self [t].

(** [_set_resolve(self, **kwargs)]: [copy.resolve] is read by plain attribute
    access; then [copy.resolve[key] = val] for every item. *)
Definition _set_resolve (self : value) (kwargs : dict) : result value :=
  let copy := self in
  resolve ← attribute copy "resolve";
  copy ← (if is_Undefined resolve
          then resolve ← construct "Resolve" [] ∅;
               Ok (setattr copy "resolve" resolve)
          else Ok copy);
  resolve ← map_fold (λ key val acc, resolve ← acc; setitem resolve key val)
                     (Ok (getattr copy "resolve")) kwargs;
  Ok (setattr copy "resolve" resolve).

Definition resolve_axis (self : value) (args : list value) (kwargs : dict)
  : result value :=
  axis ← construct "AxisResolveMap" args kwargs;
  _set_resolve self {["axis" := axis]}.

Definition resolve_legend (self : value) (args : list value) (kwargs : dict)
  : result value :=
  legend ← construct "LegendResolveMap" args kwargs;
  _set_resolve self {["legend" := legend]}.

Definition resolve_scale (self : value) (args : list value) (kwargs : dict)
  : result value :=
  scale ← construct "ScaleResolveMap" args kwargs;
  _set_resolve self {["scale" := scale]}.
End Methods.
End Mixin.

(** The methods of [Chart] besides [encode]. *)
Module UnitChart.
Section Methods.
Variable schema_accepts : string → list value → dict → bool.

Definition __init__ (data encoding mark width height : value) (kwargs : dict)
  : value :=
  Node "Chart" []
    (<["data" := data]> (<["encoding" := encoding]> (<["mark" := mark]>
       (<["width" := width]> (<["height" := height]> kwargs))))).

(** [interactive(self, name=None, bind_x=True, bind_y=True)], with
    [selection.counter] passed in and out.  The schema has [selection]
    unset, a mapping or, here, a [SelectionMapping]; on anything else [+=]
    is taken to raise the [TypeError] of an unsupported operand. *)
Definition interactive (self name : value) (bind_x bind_y : bool) (counter : nat)
  : result value * nat :=
  let encodings := (if bind_x then [PyStr "x"] else [])
                   ++ (if bind_y then [PyStr "y"] else []) in
  let copy := self in
  let before :=
    copy ← (if is_Undefined (getattr copy "selection")
            then empty ← instantiate schema_accepts "SelectionMapping" [] ∅;
                 Ok (setattr copy "selection" empty)
            else Ok copy);
    match getattr copy "selection" with
    | PyDict d =>
        mapping ← instantiate schema_accepts "SelectionMapping" [] d;
        Ok (setattr copy "selection" mapping)
    | _ => Ok copy
    end in
  match before with
  | Raise e => (Raise e, counter)
  | Ok copy =>
      let '(added, counter) :=
        selection schema_accepts PyNone
          {["type" := PyStr "interval"; "bind" := PyStr "scales";
            "encodings" := PyList encodings]} counter in
      (added ← added;
       if isinstance (getattr copy "selection") ["SelectionMapping"]
       then merged ← SelectionMapping.__iadd__ (getattr copy "selection") added;
            Ok (setattr copy "selection" merged)
       else Raise (TypeError "unsupported operand type(s) for +="),
       counter)
  end.
End Methods.
End UnitChart.

(** [value(value, **kwargs)] (the type has the name here): a [value] among
    the keyword arguments is given twice. *)
Definition value_ (v : value) (kwargs : dict) : result value :=
  if bool_decide ("value" ∈ dom kwargs)
  then Raise (TypeError "value() got multiple values for argument 'value'")
  else Ok (PyDict (<["value" := v]> kwargs)).

(** ** Documents *)

(** Modelled from the spec: the conversion of a node tree to a plain nested
    document ([core.SchemaBase.to_dict] without validation) is not under
    src/.  A node becomes the mapping of its fields, and a field that holds
    [Undefined] is left out. *)
Fixpoint document (v : value) : value :=
  match v with
  | PyList items => PyList (document <$> items)
  | PyDict items =>
      PyDict (omap (λ x, if is_Undefined x then None else Some (document x)) items)
  | Node _ [] kwds =>
      PyDict (omap (λ x, if is_Undefined x then None else Some (document x)) kwds)
  | Node _ (arg :: _) _ => document arg
  | _ => v
  end.

(** ** Collaborators used in the examples

    Stand-ins for what lives outside the module, to run the model on
    concrete inputs. *)

(** A schema check that knows the three selection predicates: each is an
    object with exactly its own key. *)
Definition sample_schema (cls : string) (args : list value) (kwds : dict) : bool :=
  if String.eqb cls "SelectionNot" then bool_decide (dom kwds = {["not"]})
  else if String.eqb cls "SelectionAnd" then bool_decide (dom kwds = {["and"]})
  else if String.eqb cls "SelectionOr" then bool_decide (dom kwds = {["or"]})
  else true.

(** The shorthand forms [field] and [field:type]. *)
Fixpoint split_last_colon (s : string) : option (string * string) :=
  match s with
  | EmptyString => None
  | String c rest =>
      match split_last_colon rest with
      | Some (field, type) => Some (String c field, type)
      | None => if Ascii.eqb c ":" then Some (EmptyString, rest) else None
      end
  end.

Definition typecodes : gmap string string :=
  list_to_map
    [("Q", "quantitative"); ("N", "nominal"); ("O", "ordinal"); ("T", "temporal");
     ("quantitative", "quantitative"); ("nominal", "nominal");
     ("ordinal", "ordinal"); ("temporal", "temporal")].

Definition sample_parse_shorthand (shorthand : value) : result dict :=
  match shorthand with
  | PyStr s =>
      if String.eqb s "" then Ok ∅
      else match split_last_colon s with
           | Some (field, type) =>
               match typecodes !! type with
               | Some t => Ok {["field" := PyStr field; "type" := PyStr t]}
               | None => Ok {["field" := PyStr s]}
               end
           | None => Ok {["field" := PyStr s]}
           end
  | _ => Raise (TypeError "expected string or bytes-like object")
  end.

Definition sample_channels : list string :=
  ["Color"; "ColorValue"; "Column"; "Detail"; "Opacity"; "OpacityValue";
   "Order"; "Row"; "Shape"; "ShapeValue"; "Size"; "SizeValue"; "Text";
   "TextValue"; "Tooltip"; "X"; "X2"; "Y"; "Y2"].

(** A constructor that accepts every mapping, and one in the manner of the
    channel classes: the classes bound to a field are not validated when they
    are built, the value classes are, and their schema allows [value] and
    [condition] only. *)
Definition lenient_from_dict (cls : string) (obj : dict) : result value :=
  Ok (Node cls [] obj).

Definition value_classes : list string :=
  ["ColorValue"; "OpacityValue"; "ShapeValue"; "SizeValue"; "TextValue"].

Definition value_properties : gset string := list_to_set ["value"; "condition"].

Definition checking_from_dict (cls : string) (obj : dict) : result value :=
  if bool_decide (cls ∈ value_classes)
     && negb (bool_decide (dom obj ⊆ value_properties))
  then Raise ValidationError
  else Ok (Node cls [] obj).

(** The declared properties of a few schema classes: of [Chart] as the
    docstring of the class lists its attributes (after the five parameters of
    [Chart.__init__]), of the layered chart, which has a [resolve], and of
    the classes built from positional arguments in the examples. *)
Definition sample_parameters (cls : string) : list string :=
  if String.eqb cls "Chart"
  then ["data"; "encoding"; "mark"; "width"; "height"; "autosize";
        "background"; "config"; "description"; "name"; "padding";
        "projection"; "selection"; "title"; "transform"]
  else if String.eqb cls "LayerChart"
  then ["layer"; "autosize"; "background"; "config"; "data"; "description";
        "height"; "name"; "padding"; "resolve"; "title"; "transform"; "width"]
  else if String.eqb cls "AxisResolveMap" then ["x"; "y"]
  else if String.eqb cls "ScaleResolveMap"
  then ["color"; "opacity"; "shape"; "size"; "x"; "y"]
  else if String.eqb cls "AggregateTransform" then ["aggregate"; "groupby"]
  else [].

(** Conversions: the document of the node; one that demands a [mark]. *)
Definition sample_node_to_dict (v : value) : result value := Ok (document v).

Definition sample_to_dict (obj : value) (args : list value) (kwargs : dict)
  : result dict :=
  match document obj with
  | PyDict d => Ok d
  | _ => Raise (TypeError "not an object")
  end.

Definition strict_to_dict (obj : value) (args : list value) (kwargs : dict)
  : result dict :=
  if is_Undefined (getattr obj "mark") then Raise ValidationError
  else sample_to_dict obj args kwargs.

(** A data transformer in the manner of [to_values]. *)
Definition sample_transformer (data : value) : result value :=
  match data with
  | DataFrame columns =>
      Ok (PyDict {["values" := PyDict (list_to_map (prod_map id PyList <$> columns))]})
  | _ => Raise (TypeError "not a frame")
  end.

(** ** Inputs of the examples *)

Definition interval : value := Node "SelectionDef" [] {["type" := PyStr "interval"]}.
Definition brush : value := Node "SelectionMapping" [] {["brush" := interval]}.
Definition click : value := Node "SelectionMapping" [] {["click" := interval]}.
Definition brush_and_click : value :=
  Node "SelectionMapping" [] {["brush" := interval; "click" := interval]}.

Definition sales : value := DataFrame [("a", [PyInt 1; PyInt 2])].
Definition sales_chart : value :=
  Node "Chart" [] {["data" := sales; "mark" := PyStr "point"; "width" := PyInt 200]}.
Definition themed_chart : value :=
  Node "Chart" [] {["mark" := PyStr "point";
                    "config" := PyDict {["background" := PyStr "white"]}]}.
Definition plain_chart : value :=
  Node "Chart" [] {["mark" := PyStr "line"; "config" := Undefined]}.
Definition one_chart : world := World {[1%positive := sales_chart]} [] [].

(** ** Vocabulary of the statements *)

(** A call of one of the six [transform_...] methods with its arguments, the
    class of the node it builds, and the positional and keyword arguments it
    builds the node from. *)
Inductive transform_call : Type :=
| CallAggregate (args : list value) (kwargs : dict)
| CallBin (args : list value) (kwargs : dict)
| CallCalculate (as_ calculate : value) (kwargs : dict)
| CallFilter (filter : value) (kwargs : dict)
| CallLookup (args : list value) (kwargs : dict)
| CallTimeUnit (args : list value) (kwargs : dict).

Definition call_transform (schema_accepts : string → list value → dict → bool)
    (parameters : string → list string) (self : value) (call : transform_call)
  : result value :=
  match call with
  | CallAggregate args kwargs =>
      Mixin.transform_aggregate schema_accepts parameters self args kwargs
  | CallBin args kwargs =>
      Mixin.transform_bin schema_accepts parameters self args kwargs
  | CallCalculate as_ calculate kwargs =>
      Mixin.transform_calculate schema_accepts parameters self as_ calculate kwargs
  | CallFilter filter kwargs =>
      Mixin.transform_filter schema_accepts parameters self filter kwargs
  | CallLookup args kwargs =>
      Mixin.transform_lookup schema_accepts parameters self args kwargs
  | CallTimeUnit args kwargs =>
      Mixin.transform_timeunit schema_accepts parameters self args kwargs
  end.

Definition transform_class (call : transform_call) : string :=
  match call with
  | CallAggregate _ _ => "AggregateTransform"
  | CallBin _ _ => "BinTransform"
  | CallCalculate _ _ _ => "CalculateTransform"
  | CallFilter _ _ => "FilterTransform"
  | CallLookup _ _ => "LookupTransform"
  | CallTimeUnit _ _ => "TimeUnitTransform"
  end.

Definition transform_arguments (call : transform_call) : list value * dict :=
  match call with
  | CallCalculate as_ calculate kwargs =>
      ([], <["calculate" := calculate]> (<["as" := as_]> kwargs))
  | CallFilter filter kwargs => ([], <["filter" := filter]> kwargs)
  | CallAggregate args kwargs | CallBin args kwargs
  | CallLookup args kwargs | CallTimeUnit args kwargs => (args, kwargs)
  end.

(** The keyword arguments do not repeat a parameter of the method itself. *)
Definition passable (call : transform_call) : bool :=
  match call with
  | CallCalculate _ _ kwargs =>
      negb (bool_decide ("as_" ∈ dom kwargs))
      && negb (bool_decide ("calculate" ∈ dom kwargs))
  | CallFilter _ kwargs => negb (bool_decide ("filter" ∈ dom kwargs))
  | _ => true
  end.

(** The attributes of the "true" branch of a condition: [{field: s}] for a
    string [s], the mapping itself for a mapping, its document for a node. *)
Inductive branch_attributes (node_to_dict : value → result value)
  : value → dict → Prop :=
| attributes_of_str s :
    branch_attributes node_to_dict (PyStr s) {["field" := PyStr s]}
| attributes_of_dict d :
    branch_attributes node_to_dict (PyDict d) d
| attributes_of_node cls args kwds d :
    node_to_dict (Node cls args kwds) = Ok (PyDict d) →
    branch_attributes node_to_dict (Node cls args kwds) d.

(** What [_wrap_in_channel_class] makes of a mapping before it picks the
    class: the mapping updated with the shorthand parsed from its [field]
    entry, when it has one. *)
Definition expansion (parse_shorthand : value → result dict) (d obj : dict) : Prop :=
  match d !! "field" with
  | Some field =>
      ∃ shorthand, parse_shorthand field = Ok shorthand ∧ obj = dict_update d shorthand
  | None => obj = d
  end.

(** The encoding a chart already has, as [encode] reads it. *)
Definition previous_encoding (self : value) : result dict :=
  match getattr self "encoding" with
  | Undefined => Ok ∅
  | PyDict d => Ok d
  | Node _ _ kwds => Ok (filter (λ kv, is_Undefined kv.2 = false) kwds)
  | _ => Raise (AttributeError "object has no attribute '_kwds'")
  end.

(** The entries of a child specification, and whether it declares [attr]
    (holds a value for it other than [Undefined]). *)
Definition entries (spec : value) : dict :=
  match spec with
  | Node _ _ kwds => kwds
  | PyDict d => d
  | _ => ∅
  end.

Definition is_spec (spec : value) : bool := is_SchemaBase spec || is_dict spec.

Definition declares (spec : value) (attr : string) : bool :=
  negb (is_Undefined (default Undefined (entries spec !! attr))).

Definition offending (spec : value) : Prop :=
  is_spec spec = true ∧ ∃ attr, attr ∈ toplevel_only ∧ declares spec attr = true.

Definition acceptable (spec : value) : Prop :=
  is_spec spec = true ∧ ∀ attr, attr ∈ toplevel_only → declares spec attr = false.

(** The call was refused because of [spec], with the message that names one
    of the top-level-only properties it declares and the class. *)
Definition rejected (r : result value) (classname : string) (spec : value) : Prop :=
  ∃ attr, attr ∈ toplevel_only ∧ declares spec attr = true
          ∧ r = Raise (ValueError (subspec_err attr classname)).

(** The steps of [to_dict] as functions of what they find: the object
    [_prepare_data] leaves behind, the frames it hands to the transformer,
    the context and keyword arguments of the conversion, and the last step
    on the converted document. *)
Definition prepared (schema_accepts : string → list value → dict → bool)
    (data_transformer : value → result value) (obj : value) : result value :=
  let data := getattr obj "data" in
  if is_dict data || isinstance data ["Data"; "InlineData"; "UrlData"; "NamedData"]
  then Ok obj
  else if is_DataFrame data then
    data' ← data_transformer data; Ok (setattr obj "data" data')
  else if is_str data then
    data' ← instantiate schema_accepts "UrlData" [] {["url" := data]};
    Ok (setattr obj "data" data')
  else Ok obj.

Definition frames_of (obj : value) : list value :=
  if is_DataFrame (getattr obj "data") then [getattr obj "data"] else [].

Definition context_of (kwargs : dict) : result dict :=
  match default (PyDict ∅) (kwargs !! "context") with
  | PyDict c => Ok c
  | _ => Raise (AttributeError "context is not a dict")
  end.

Definition conversion_kwargs (obj : value) (kwargs context : dict) : dict :=
  <["context" :=
      PyDict (if is_Undefined (getattr obj "data")
              then <["top_level" := PyBool false]> context
              else <["data" := getattr obj "data"]>
                     (<["top_level" := PyBool false]> context))]> kwargs.

Definition is_top_level (context : dict) : bool :=
  truthy (default (PyBool true) (context !! "top_level")).

Definition with_schema (dct : dict) : dict :=
  if bool_decide ("$schema" ∈ dom dct) then dct
  else <["$schema" := PyStr SCHEMA_URL]> dct.

Definition finalize (top : bool) (dct : dict) : dict :=
  if top then update_nested TopLevelMixin._default_spec_values (with_schema dct)
  else dct.

(** Nesting depth of mappings, the measure for [update_nested]. *)
Fixpoint depth (v : value) : nat :=
  match v with
  | PyDict d => S (map_fold (λ _ x acc, depth x `max` acc) 0 d)
  | _ => 0
  end.

(** The value found by following [path] through nested mappings. *)
Fixpoint lookup_path (path : list string) (v : value) : option value :=
  match path with
  | [] => Some v
  | k :: rest =>
      match v with
      | PyDict d => d !! k ≫= lookup_path rest
      | _ => None
      end
  end.

(** [path] is not blocked in [v]: wherever [v] holds something along the
    path, short of its end, it is a mapping. *)
Fixpoint open_path (path : list string) (v : value) : Prop :=
  match path with
  | [] => True
  | k :: rest =>
      match v with
      | PyDict d =>
          match d !! k with
          | Some v' => rest = [] ∨ open_path rest v'
          | None => True
          end
      | _ => False
      end
  end.

(** * Properties *)

(** ** The schema object model *)

Lemma instantiate_accepted schema_accepts cls args kwds :
  schema_accepts cls args kwds = true →
  instantiate schema_accepts cls args kwds = Ok (Node cls args kwds).
Proof.
  intros Hacc. unfold instantiate. rewrite Hacc.
  by rewrite andb_false_r.
Qed.

Lemma instantiate_inv schema_accepts cls args kwds v :
  instantiate schema_accepts cls args kwds = Ok v → v = Node cls args kwds.
Proof.
  unfold instantiate. by case_match; intros [= <-].
Qed.

Lemma instantiate_unchecked schema_accepts cls args kwds :
  _class_is_valid_at_instantiation cls = false →
  instantiate schema_accepts cls args kwds = Ok (Node cls args kwds).
Proof. intros Hcls. unfold instantiate. by rewrite Hcls. Qed.

(** ** Selections *)

Lemma get_name_singleton cls args name def :
  SelectionMapping._get_name (Node cls args {[name := def]}) = Ok name.
Proof.
  unfold SelectionMapping._get_name. simpl.
  rewrite map_size_singleton, map_to_list_singleton.
  by rewrite bool_decide_false by (intros Hne; by apply Hne).
Qed.

Lemma get_name_not_one self :
  size (_kwds self) ≠ 1 →
  SelectionMapping._get_name self
  = Raise (ValueError "Selection Mapping has more than one name").
Proof.
  intros Hsize. unfold SelectionMapping._get_name.
  by rewrite bool_decide_true.
Qed.

(** C6, as the code has it.  Negating a selection mapping that holds two or
    more names raises the [ValueError] of [_get_name] (the spec's
    AmbiguousSelectionError); negating one that holds exactly one name builds
    the node [SelectionNot] with the single field [not] set to that name, so
    the value is [{not: name}], which the schema accepts or the construction
    fails; [condition] is what wraps such a predicate as
    [{selection: predicate}]. *)
Theorem invert_selection_mapping schema_accepts node_to_dict (kwds : dict) :
  let S := Node "SelectionMapping" [] kwds in
  (2 ≤ size kwds →
   SelectionMapping.__invert__ schema_accepts S
   = Raise (ValueError "Selection Mapping has more than one name"))
  ∧ (∀ name def, kwds = {[name := def]} →
       SelectionMapping.__invert__ schema_accepts S
       = instantiate schema_accepts "SelectionNot" [] {["not" := PyStr name]}
       ∧ (schema_accepts "SelectionNot" [] {["not" := PyStr name]} = true →
          SelectionMapping.__invert__ schema_accepts S
          = Ok (Node "SelectionNot" [] {["not" := PyStr name]}))
       ∧ (∀ negated if_false,
            SelectionMapping.__invert__ schema_accepts S = Ok negated →
            document negated = PyDict {["not" := PyStr name]}
            ∧ condition node_to_dict negated (PyDict ∅) (PyDict if_false) ∅
              = condition node_to_dict (PyDict {["selection" := negated]})
                  (PyDict ∅) (PyDict if_false) ∅)).
Proof.
  intros S. split.
  - intros Hsize. unfold SelectionMapping.__invert__.
    rewrite get_name_not_one; [done | simpl; lia].
  - intros name def ->. unfold SelectionMapping.__invert__, S.
    rewrite get_name_singleton. simpl. split_and!; [done | |].
    + apply instantiate_accepted.
    + intros negated if_false Hneg.
      apply instantiate_inv in Hneg as ->. split; [| done].
      simpl. by rewrite omap_singleton.
Qed.

(** C7 at the code: for single-name mappings [A] and [B] (or a raw operand
    [b]), [A & B] builds [SelectionAnd] with [and = [a, b]]; [A | B] builds
    [SelectionAnd] as well, with the key [or], so what it returns is never a
    [SelectionOr] node. *)
Theorem and_or_selection_mappings schema_accepts (a b : string) (da db raw : value) :
  let A := Node "SelectionMapping" [] {[a := da]} in
  let B := Node "SelectionMapping" [] {[b := db]} in
  SelectionMapping.__and__ schema_accepts A B
  = instantiate schema_accepts "SelectionAnd" [] {["and" := PyList [PyStr a; PyStr b]]}
  ∧ (isinstance raw ["SelectionMapping"] = false →
     SelectionMapping.__and__ schema_accepts A raw
     = instantiate schema_accepts "SelectionAnd" [] {["and" := PyList [PyStr a; raw]]})
  ∧ SelectionMapping.__or__ schema_accepts A B
    = instantiate schema_accepts "SelectionAnd" [] {["or" := PyList [PyStr a; PyStr b]]}
  ∧ (∀ v, SelectionMapping.__or__ schema_accepts A B = Ok v →
          isinstance v ["SelectionOr"] = false
          ∧ v = Node "SelectionAnd" [] {["or" := PyList [PyStr a; PyStr b]]}).
Proof.
  intros A B.
  assert (Hor : SelectionMapping.__or__ schema_accepts A B
    = instantiate schema_accepts "SelectionAnd" []
        {["or" := PyList [PyStr a; PyStr b]]}).
  { unfold SelectionMapping.__or__, A, B. simpl.
    by rewrite !get_name_singleton. }
  split_and!.
  - unfold SelectionMapping.__and__, A, B. simpl.
    by rewrite !get_name_singleton.
  - intros Hraw. unfold SelectionMapping.__and__, A. rewrite Hraw. simpl.
    by rewrite get_name_singleton.
  - done.
  - intros v Hv. rewrite Hor in Hv. by apply instantiate_inv in Hv as ->.
Qed.

(** C10.  [repeat] answers ['row'] and ['column'] with the node
    [RepeatRef(repeat=repeater)], which the schema accepts or the
    construction fails; on every other argument the assertion fails; so a
    node it returns has [repeat] in {'row', 'column'}. *)
Theorem repeat_row_or_column schema_accepts :
  (∀ s, s = "row" ∨ s = "column" →
        repeat schema_accepts (PyStr s)
        = instantiate schema_accepts "RepeatRef" [] {["repeat" := PyStr s]}
        ∧ (schema_accepts "RepeatRef" [] {["repeat" := PyStr s]} = true →
           repeat schema_accepts (PyStr s)
           = Ok (Node "RepeatRef" [] {["repeat" := PyStr s]})))
  ∧ (∀ repeater, repeater ≠ PyStr "row" → repeater ≠ PyStr "column" →
                 repeat schema_accepts repeater = Raise AssertionError)
  ∧ (∀ repeater v, repeat schema_accepts repeater = Ok v →
                   (repeater = PyStr "row" ∨ repeater = PyStr "column")
                   ∧ v = Node "RepeatRef" [] {["repeat" := repeater]}).
Proof.
  assert (Hother : ∀ repeater, repeater ≠ PyStr "row" → repeater ≠ PyStr "column" →
                     repeat schema_accepts repeater = Raise AssertionError).
  { intros repeater Hrow Hcol. unfold repeat.
    destruct repeater as [| | | |s| | | |]; try done.
    destruct (String.eqb_spec s "row") as [->|_]; [done|].
    destruct (String.eqb_spec s "column") as [->|_]; done. }
  split_and!.
  - intros s Hs.
    assert (Hrep : repeat schema_accepts (PyStr s)
      = instantiate schema_accepts "RepeatRef" [] {["repeat" := PyStr s]})
      by (by destruct Hs as [-> | ->]).
    split; [done|]. intros Hacc. rewrite Hrep. by apply instantiate_accepted.
  - done.
  - intros repeater v Hv. unfold repeat in Hv.
    destruct repeater as [| | | |s| | | |]; try done.
    destruct (String.eqb_spec s "row") as [->|_].
    { split; [by left|]. by apply instantiate_inv in Hv. }
    destruct (String.eqb_spec s "column") as [->|_]; [|done].
    split; [by right|]. by apply instantiate_inv in Hv.
Qed.

(** ** Conditions *)

Lemma dict_update_empty (d : dict) : dict_update d ∅ = d.
Proof. unfold dict_update. by rewrite (left_id_L ∅ (∪)). Qed.

Lemma condition_of_selection node_to_dict name def if_true attrs if_false :
  branch_attributes node_to_dict if_true attrs →
  condition node_to_dict (Node "SelectionMapping" [] {[name := def]})
    if_true if_false ∅
  = let cond := PyDict (dict_update {["selection" := PyStr name]} attrs) in
    match if_false with
    | Node _ _ _ => Ok (setattr if_false "condition" cond)
    | PyStr _ => Ok (PyDict {["condition" := cond; "field" := if_false]})
    | PyDict d =>
        if bool_decide ("condition" ∈ dom d)
        then Raise (TypeError
               "dict() got multiple values for keyword argument 'condition'")
        else Ok (PyDict (<["condition" := cond]> d))
    | _ => Raise (TypeError "dict() argument after ** must be a mapping")
    end.
Proof.
  intros Hattrs. unfold condition.
  replace (isinstance (Node "SelectionMapping" [] {[name := def]})
             ["SelectionMapping"]) with true by done.
  rewrite get_name_singleton.
  destruct Hattrs as [s | d | cls args kwds d Hdoc]; simpl.
  - rewrite !dict_update_empty. by destruct if_false.
  - rewrite ?dict_update_empty. by destruct if_false.
  - rewrite Hdoc. simpl. rewrite ?dict_update_empty. by destruct if_false.
Qed.

(** C1, as the code has it.  For a predicate that is a single-name
    selection mapping and a "true" branch with attributes [attrs] (a string,
    a mapping, or a node whose conversion yields a mapping), [condition]
    returns the "false" branch with the entry [condition] added, whose value
    is [{selection: name}] updated with [attrs]: for a string, the mapping
    [{condition, field}]; for a node, a copy with the attribute set; for a
    mapping, the mapping plus the entry, provided the mapping has no
    [condition] key of its own.  In particular
    [condition(S, {field: "a"}, {value: "grey"})] is
    [{condition: {selection: name, field: "a"}, value: "grey"}]. *)
Theorem condition_single_selection node_to_dict (name : string)
    (def if_true : value) (attrs : dict) :
  let S := Node "SelectionMapping" [] {[name := def]} in
  let cond := dict_update {["selection" := PyStr name]} attrs in
  branch_attributes node_to_dict if_true attrs →
  (∀ field,
     condition node_to_dict S if_true (PyStr field) ∅
     = Ok (PyDict {["condition" := PyDict cond; "field" := PyStr field]}))
  ∧ (∀ d, d !! "condition" = None →
          condition node_to_dict S if_true (PyDict d) ∅
          = Ok (PyDict (<["condition" := PyDict cond]> d)))
  ∧ (∀ cls args kwds,
       condition node_to_dict S if_true (Node cls args kwds) ∅
       = Ok (Node cls args (<["condition" := PyDict cond]> kwds)))
  ∧ (∀ k v, attrs !! k = Some v → cond !! k = Some v)
  ∧ (attrs !! "selection" = None → cond !! "selection" = Some (PyStr name))
  ∧ condition node_to_dict S (PyDict {["field" := PyStr "a"]})
      (PyDict {["value" := PyStr "grey"]}) ∅
    = Ok (PyDict {["condition" :=
                     PyDict {["selection" := PyStr name; "field" := PyStr "a"]};
                   "value" := PyStr "grey"]}).
Proof.
  intros S cond Hattrs. split_and!.
  - intros field. unfold S. by rewrite (condition_of_selection _ _ _ _ attrs).
  - intros d Hd. unfold S. rewrite (condition_of_selection _ _ _ _ attrs) by done.
    simpl. rewrite bool_decide_false; [done|].
    by rewrite not_elem_of_dom.
  - intros cls args kwds. unfold S.
    by rewrite (condition_of_selection _ _ _ _ attrs).
  - intros k v Hk. unfold cond, dict_update. by apply lookup_union_Some_l.
  - intros Hsel. unfold cond, dict_update.
    rewrite lookup_union_r by done. by rewrite lookup_singleton_eq.
  - unfold S. rewrite (condition_of_selection _ _ _ _ {["field" := PyStr "a"]})
      by constructor.
    simpl. rewrite bool_decide_false; [|by rewrite not_elem_of_dom].
    reflexivity.
Qed.

(** ** Encoding channels *)

Lemma wrap_mapping channels parse_shorthand from_dict d obj prop :
  expansion parse_shorthand d obj →
  Chart._wrap_in_channel_class channels parse_shorthand from_dict (PyDict d) prop
  = let clsname :=
      if bool_decide ("value" ∈ dom obj) then title prop +:+ "Value"
      else title prop in
    if bool_decide (clsname ∈ channels)
    then except_ValidationError (from_dict clsname obj) (Ok (PyDict obj))
    else Raise (ValueError ("Unrecognized encoding channel '" +:+ prop +:+ "'")).
Proof.
  unfold expansion, Chart._wrap_in_channel_class. simpl.
  destruct (d !! "field") as [field|].
  - by intros (shorthand & -> & ->).
  - by intros ->.
Qed.

Lemma wrap_str channels parse_shorthand from_dict s prop :
  Chart._wrap_in_channel_class channels parse_shorthand from_dict (PyStr s) prop
  = Chart._wrap_in_channel_class channels parse_shorthand from_dict
      (PyDict {["field" := PyStr s]}) prop.
Proof. done. Qed.

Lemma expansion_keeps_keys parse_shorthand d obj k :
  expansion parse_shorthand d obj → is_Some (d !! k) → k ∈ dom obj.
Proof.
  unfold expansion. intros Hexp Hk. apply elem_of_dom.
  destruct (d !! "field") as [field|].
  - destruct Hexp as (shorthand & _ & ->). unfold dict_update.
    rewrite lookup_union. destruct Hk as [v ->].
    by destruct (shorthand !! k).
  - by subst.
Qed.

Lemma encode_single_keyword schema_accepts channels parse_shorthand from_dict
    self prop field :
  Chart.encode schema_accepts channels parse_shorthand from_dict self []
    {[prop := field]}
  = w ← Chart.wrap_item channels parse_shorthand from_dict prop field;
    encoding ← previous_encoding self;
    Ok (setattr self "encoding"
          (Node "EncodingWithFacet" [] (dict_update encoding {[prop := w]}))).
Proof.
  unfold Chart.encode, Chart.args_to_kwargs, previous_encoding. simpl.
  rewrite map_to_list_singleton. simpl.
  destruct (Chart.wrap_item _ _ _ _ _) as [w|e]; simpl; [|done].
  rewrite insert_empty.
  destruct (getattr self "encoding"); simpl; try done;
    by rewrite instantiate_unchecked.
Qed.

(** C2.  In [encode], a keyword argument goes through the loop body, whose
    outcome decides that of [encode]; a string or a mapping without a
    [condition] entry goes straight to [_wrap_in_channel_class].  There a
    string [s] stands for [{field: s}] updated with its parsed shorthand
    (which has no [value] key), and is built by the class named
    [prop.title()]; a mapping that holds [value] is built by the class named
    [prop.title() + "Value"]; the result is what the class builds from the
    mapping, unless that fails validation.  When the [channels] module has
    no class of the name, the call raises
    [ValueError "Unrecognized encoding channel ..."] (the spec's
    UnrecognizedChannelError).  So "x" with "a:Q" is built by [X] from
    [{field: "a", type: "quantitative"}], and "color" with [{value: "red"}]
    by [ColorValue]. *)
Theorem encode_resolves_channel_class schema_accepts channels parse_shorthand
    from_dict (prop : string) :
  let wrap := Chart._wrap_in_channel_class channels parse_shorthand from_dict in
  let unrecognized :=
    Raise (ValueError ("Unrecognized encoding channel '" +:+ prop +:+ "'")) in
  (∀ self field,
     Chart.encode schema_accepts channels parse_shorthand from_dict self []
       {[prop := field]}
     = w ← Chart.wrap_item channels parse_shorthand from_dict prop field;
       encoding ← previous_encoding self;
       Ok (setattr self "encoding"
             (Node "EncodingWithFacet" [] (dict_update encoding {[prop := w]}))))
  ∧ (∀ s, Chart.wrap_item channels parse_shorthand from_dict prop (PyStr s)
        = wrap (PyStr s) prop)
  ∧ (∀ d, d !! "condition" = None →
          Chart.wrap_item channels parse_shorthand from_dict prop (PyDict d)
          = wrap (PyDict d) prop)
  ∧ (∀ s shorthand,
       parse_shorthand (PyStr s) = Ok shorthand →
       shorthand !! "value" = None →
       let obj := dict_update {["field" := PyStr s]} shorthand in
       (title prop ∈ channels →
        wrap (PyStr s) prop
        = except_ValidationError (from_dict (title prop) obj) (Ok (PyDict obj)))
       ∧ (title prop ∉ channels → wrap (PyStr s) prop = unrecognized))
  ∧ (∀ d obj,
       is_Some (d !! "value") →
       expansion parse_shorthand d obj →
       (title prop +:+ "Value" ∈ channels →
        wrap (PyDict d) prop
        = except_ValidationError (from_dict (title prop +:+ "Value") obj)
            (Ok (PyDict obj)))
       ∧ (title prop +:+ "Value" ∉ channels → wrap (PyDict d) prop = unrecognized))
  ∧ (prop = "x" →
     parse_shorthand (PyStr "a:Q")
     = Ok {["field" := PyStr "a"; "type" := PyStr "quantitative"]} →
     "X" ∈ channels →
     ∀ channel,
       from_dict "X" {["field" := PyStr "a"; "type" := PyStr "quantitative"]}
       = Ok channel →
       wrap (PyStr "a:Q") prop = Ok channel)
  ∧ (prop = "color" →
     "ColorValue" ∈ channels →
     ∀ channel,
       from_dict "ColorValue" {["value" := PyStr "red"]} = Ok channel →
       wrap (PyDict {["value" := PyStr "red"]}) prop = Ok channel).
Proof.
  intros wrap unrecognized.
  assert (Hstr : ∀ s shorthand,
    parse_shorthand (PyStr s) = Ok shorthand →
    expansion parse_shorthand {["field" := PyStr s]}
      (dict_update {["field" := PyStr s]} shorthand)).
  { intros s shorthand Hparse. unfold expansion.
    rewrite lookup_singleton_eq. eauto. }
  split_and!.
  - intros self field. apply encode_single_keyword.
  - done.
  - intros d Hd. unfold Chart.wrap_item. by rewrite Hd.
  - intros s shorthand Hparse Hvalue obj.
    assert (Hnot : "value" ∉ dom obj).
    { apply not_elem_of_dom. unfold obj, dict_update.
      by rewrite lookup_union_r. }
    unfold wrap. rewrite wrap_str, (wrap_mapping _ _ _ _ obj) by by apply Hstr.
    simpl. rewrite (bool_decide_false _ Hnot).
    split; intros Hcls.
    + by rewrite bool_decide_true.
    + by rewrite bool_decide_false.
  - intros d obj Hvalue Hexp.
    assert (Hin : "value" ∈ dom obj) by by eapply expansion_keeps_keys.
    unfold wrap. rewrite (wrap_mapping _ _ _ _ obj) by done.
    simpl. rewrite (bool_decide_true _ Hin).
    split; intros Hcls.
    + by rewrite bool_decide_true.
    + by rewrite bool_decide_false.
  - intros -> Hparse Hcls channel Hbuild.
    unfold wrap. rewrite wrap_str.
    rewrite (wrap_mapping _ _ _ _
               {["field" := PyStr "a"; "type" := PyStr "quantitative"]}).
    + cbv zeta.
      rewrite (bool_decide_false ("value" ∈ _)) by by apply not_elem_of_dom.
      change (title "x") with "X".
      rewrite bool_decide_true by done. by rewrite Hbuild.
    + unfold expansion. rewrite lookup_singleton_eq.
      eexists. split; [exact Hparse|]. done.
  - intros -> Hcls channel Hbuild.
    unfold wrap. rewrite (wrap_mapping _ _ _ _ {["value" := PyStr "red"]}) by done.
    cbv zeta.
    rewrite (bool_decide_true ("value" ∈ _)) by (apply elem_of_dom; by eexists).
    change (title "color" +:+ "Value") with "ColorValue".
    rewrite bool_decide_true by done. by rewrite Hbuild.
Qed.

(** C8, as the code has it.  When the class resolved for a mapping fails
    validation in [from_dict], [_wrap_in_channel_class] does not raise: it
    returns the mapping as it stands at that point, that is, updated with
    the shorthand parsed from its [field] entry, and the mapping itself when
    it has no [field] entry.  In [encode] the loop body first replaces a
    [condition] entry of the mapping (one that is not [Undefined]) by what
    the channel resolution makes of that entry, so there the mapping that
    comes back holds the resolved condition; it is the mapping as given only
    when it has neither such a [condition] entry nor a [field] entry. *)
Theorem wrap_falls_back_to_mapping channels parse_shorthand from_dict
    (prop : string) (d : dict) :
  let wrap := Chart._wrap_in_channel_class channels parse_shorthand from_dict in
  let wrap_item := Chart.wrap_item channels parse_shorthand from_dict in
  let clsname (obj : dict) :=
    if bool_decide ("value" ∈ dom obj) then title prop +:+ "Value"
    else title prop in
  let fails (m obj : dict) :=
    expansion parse_shorthand m obj
    ∧ clsname obj ∈ channels
    ∧ from_dict (clsname obj) obj = Raise ValidationError in
  (∀ obj, fails d obj →
     wrap (PyDict d) prop = Ok (PyDict obj)
     ∧ (d !! "field" = None → obj = d)
     ∧ (default Undefined (d !! "condition") = Undefined →
        wrap_item prop (PyDict d) = Ok (PyDict obj)))
  ∧ (∀ c c' obj,
       d !! "condition" = Some c → is_Undefined c = false →
       wrap c prop = Ok c' →
       fails (<["condition" := c']> d) obj →
       wrap_item prop (PyDict d) = Ok (PyDict obj)
       ∧ (d !! "field" = None → obj = <["condition" := c']> d)).
Proof.
  intros wrap wrap_item clsname fails.
  assert (∀ m obj, fails m obj → wrap (PyDict m) prop = Ok (PyDict obj))
    as Hwrap.
  { intros m obj (Hexp & Hcls & Hfail). unfold wrap.
    rewrite (wrap_mapping _ _ _ _ obj) by done. simpl.
    fold (clsname obj). rewrite bool_decide_true by done. by rewrite Hfail. }
  assert (∀ m obj, fails m obj → m !! "field" = None → obj = m) as Hraw.
  { intros m obj (Hexp & _ & _) Hfield. unfold expansion in Hexp.
    by rewrite Hfield in Hexp. }
  split.
  - intros obj Hfails. split_and!.
    + by apply Hwrap.
    + by apply Hraw.
    + intros Hcond. unfold wrap_item, Chart.wrap_item.
      destruct (d !! "condition") as [c|]; simpl in *.
      * subst c. simpl. by apply Hwrap.
      * by apply Hwrap.
  - intros c c' obj Hc Hdefined Hinner Hfails. split.
    + unfold wrap_item, Chart.wrap_item. rewrite Hc, Hdefined.
      fold wrap. rewrite Hinner. simpl. by apply Hwrap.
    + intros Hfield. apply (Hraw _ _ Hfails).
      by rewrite lookup_insert_ne.
Qed.

(** ** Sub-specifications *)

Lemma check_subspec_find spec classname :
  is_spec spec = true →
  _check_if_valid_subspec spec classname
  = match List.find (declares spec) toplevel_only with
    | Some attr => Raise (ValueError (subspec_err attr classname))
    | None => Ok ()
    end.
Proof.
  intros Hspec.
  assert (Hattr : ∀ attr, subspec_attr spec attr
                          = Ok (default Undefined (entries spec !! attr))).
  { by destruct spec. }
  unfold _check_if_valid_subspec, toplevel_only, declares. simpl.
  rewrite !Hattr. simpl.
  repeat match goal with
         | |- context [is_Undefined ?x] => destruct (is_Undefined x); simpl; try done
         end.
Qed.

Lemma check_acceptable spec classname :
  acceptable spec → _check_if_valid_subspec spec classname = Ok ().
Proof.
  intros [Hspec Hnone]. rewrite check_subspec_find by done.
  destruct (List.find _ _) as [attr|] eqn:Hfind; [|done].
  apply find_some in Hfind as [Hin Hdecl].
  apply list_elem_of_In in Hin. by rewrite Hnone in Hdecl.
Qed.

Lemma check_offending spec classname :
  offending spec →
  ∃ attr, attr ∈ toplevel_only ∧ declares spec attr = true
          ∧ _check_if_valid_subspec spec classname
            = Raise (ValueError (subspec_err attr classname)).
Proof.
  intros [Hspec (attr & Hin & Hdecl)]. rewrite check_subspec_find by done.
  destruct (List.find _ _) as [found|] eqn:Hfind.
  - apply find_some in Hfind as [Hfin Hfdecl].
    exists found. by rewrite list_elem_of_In.
  - apply list_elem_of_In in Hin.
    by rewrite (find_none _ _ Hfind attr Hin) in Hdecl.
Qed.

Lemma for_each_acceptable classname specs :
  Forall acceptable specs →
  for_each (λ spec, _check_if_valid_subspec spec classname) specs = Ok ().
Proof.
  induction 1 as [|spec specs Hspec _ IH]; [done|].
  simpl. by rewrite check_acceptable.
Qed.

Lemma for_each_offending classname before child after :
  Forall acceptable before → offending child →
  ∃ attr, attr ∈ toplevel_only ∧ declares child attr = true
          ∧ for_each (λ spec, _check_if_valid_subspec spec classname)
              (before ++ child :: after)
            = Raise (ValueError (subspec_err attr classname)).
Proof.
  intros Hbefore Hchild.
  destruct (check_offending child classname Hchild) as (attr & Hin & Hdecl & Hcheck).
  exists attr. split_and!; [done..|].
  induction Hbefore as [|spec specs Hspec _ IH]; simpl.
  - by rewrite Hcheck.
  - by rewrite check_acceptable.
Qed.

(** C5.  A child that declares one of [autosize], [background], [config],
    [padding] is refused by every compound chart, at construction and by the
    appending and composing operators, with the [ValueError] (the spec's
    SubspecConstraintError) whose message names a property the child
    declares and the class; a child (a node or a mapping) that declares none
    of the four is accepted, and ends up among the children. *)
Theorem subspec_constraint (child : value) :
  (offending child →
   (∀ data repeat kwargs,
      rejected (RepeatChart.__init__ child data repeat kwargs) "RepeatChart" child)
   ∧ (∀ before after kwargs, Forall acceptable before →
        rejected (LayerChart.__init__ (before ++ child :: after) kwargs)
          "LayerChart" child
        ∧ rejected (HConcatChart.__init__ (before ++ child :: after) kwargs)
            "HConcatChart" child
        ∧ rejected (VConcatChart.__init__ (before ++ child :: after) kwargs)
            "VConcatChart" child)
   ∧ (∀ self,
        rejected (LayerChart.__iadd__ self child) "LayerChart" child
        ∧ rejected (LayerChart.__add__ self child) "LayerChart" child
        ∧ rejected (HConcatChart.__ior__ self child) "HConcatChart" child
        ∧ rejected (HConcatChart.__or__ self child) "HConcatChart" child
        ∧ rejected (VConcatChart.__iand__ self child) "VConcatChart" child
        ∧ rejected (VConcatChart.__and__ self child) "VConcatChart" child)
   ∧ (∀ self, acceptable self →
        rejected (Operators.add self child) "LayerChart" child
        ∧ rejected (Operators.and_ self child) "VConcatChart" child
        ∧ rejected (Operators.or_ self child) "HConcatChart" child))
  ∧ (acceptable child →
     (∀ data repeat kwargs,
        RepeatChart.__init__ child data repeat kwargs
        = Ok (Node "RepeatChart" []
                (<["spec" := child]>
                   (<["data" := data]> (<["repeat" := repeat]> kwargs)))))
     ∧ (∀ children kwargs, child ∈ children → Forall acceptable children →
          LayerChart.__init__ children kwargs
          = Ok (Node "LayerChart" [] (<["layer" := PyList children]> kwargs))
          ∧ HConcatChart.__init__ children kwargs
            = Ok (Node "HConcatChart" [] (<["hconcat" := PyList children]> kwargs))
          ∧ VConcatChart.__init__ children kwargs
            = Ok (Node "VConcatChart" [] (<["vconcat" := PyList children]> kwargs)))
     ∧ (∀ self children, getattr self "layer" = PyList children →
          LayerChart.__iadd__ self child
          = Ok (setattr self "layer" (PyList (children ++ [child])))
          ∧ LayerChart.__add__ self child
            = Ok (setattr self "layer" (PyList (children ++ [child]))))
     ∧ (∀ self children, getattr self "hconcat" = PyList children →
          HConcatChart.__ior__ self child
          = Ok (setattr self "hconcat" (PyList (children ++ [child])))
          ∧ HConcatChart.__or__ self child
            = Ok (setattr self "hconcat" (PyList (children ++ [child]))))
     ∧ (∀ self children, getattr self "vconcat" = PyList children →
          VConcatChart.__iand__ self child
          = Ok (setattr self "vconcat" (PyList (children ++ [child])))
          ∧ VConcatChart.__and__ self child
            = Ok (setattr self "vconcat" (PyList (children ++ [child]))))
     ∧ (∀ self, acceptable self →
          Operators.TopLevelMixin__add__ self child
          = Ok (Node "LayerChart" [] {["layer" := PyList [self; child]]})
          ∧ Operators.TopLevelMixin__and__ self child
            = Ok (Node "VConcatChart" [] {["vconcat" := PyList [self; child]]})
          ∧ Operators.TopLevelMixin__or__ self child
            = Ok (Node "HConcatChart" [] {["hconcat" := PyList [self; child]]}))).
Proof.
  split.
  - intros Hoff.
    assert (Hone : ∀ classname (k : () → result value),
      rejected (_check_if_valid_subspec child classname ≫= k) classname child).
    { intros classname k.
      destruct (check_offending child classname Hoff) as (attr & ? & ? & Hcheck).
      exists attr. by rewrite Hcheck. }
    assert (Hmany : ∀ classname before after (k : () → result value),
      Forall acceptable before →
      rejected (for_each (λ spec, _check_if_valid_subspec spec classname)
                  (before ++ child :: after) ≫= k) classname child).
    { intros classname before after k Hbefore.
      destruct (for_each_offending classname before child after Hbefore Hoff)
        as (attr & ? & ? & Hcheck).
      exists attr. by rewrite Hcheck. }
    split_and!.
    + intros data repeat kwargs. apply Hone.
    + intros before after kwargs Hbefore.
      split_and!; by apply Hmany.
    + intros self. split_and!; apply Hone.
    + intros self Hself.
      assert (Hpair : ∀ classname (k : () → result value),
        rejected (for_each (λ spec, _check_if_valid_subspec spec classname)
                    [self; child] ≫= k) classname child).
      { intros classname k. apply (Hmany classname [self] []). by constructor. }
      unfold Operators.add, Operators.and_, Operators.or_.
      split_and!; case_match; first [apply Hone | apply Hpair].
  - intros Hacc. split_and!.
    + intros data repeat kwargs. unfold RepeatChart.__init__.
      by rewrite check_acceptable.
    + intros children kwargs _ Hall.
      unfold LayerChart.__init__, HConcatChart.__init__, VConcatChart.__init__.
      by rewrite !for_each_acceptable.
    + intros self children Hlayer.
      unfold LayerChart.__iadd__, LayerChart.__add__, append_child.
      by rewrite check_acceptable, Hlayer.
    + intros self children Hlayer.
      unfold HConcatChart.__ior__, HConcatChart.__or__, append_child.
      by rewrite check_acceptable, Hlayer.
    + intros self children Hlayer.
      unfold VConcatChart.__iand__, VConcatChart.__and__, append_child.
      by rewrite check_acceptable, Hlayer.
    + intros self Hself.
      unfold Operators.TopLevelMixin__add__, Operators.TopLevelMixin__and__,
        Operators.TopLevelMixin__or__, LayerChart.__init__,
        HConcatChart.__init__, VConcatChart.__init__.
      assert (Hboth : Forall acceptable [self; child])
        by by rewrite !Forall_cons, Forall_nil.
      by rewrite !for_each_acceptable.
Qed.

(** ** Serialization *)

Section Serialization.
Variable schema_accepts : string → list value → dict → bool.
Variable data_transformer : value → result value.
Variable SchemaBase_to_dict : value → list value → dict → result dict.

Local Abbreviation prepare :=
  (TopLevelMixin._prepare_data schema_accepts data_transformer).
Local Abbreviation serialize :=
  (TopLevelMixin.to_dict schema_accepts data_transformer SchemaBase_to_dict).
Local Abbreviation after_prepare := (prepared schema_accepts data_transformer).

Lemma bind_ok {A B : Type} (m : M A) (f : A → M B) w a w' :
  m w = (Ok a, w') → (m ≫= f) w = f a w'.
Proof. intros Hm. unfold mbind, M_bind. by rewrite Hm. Qed.

Lemma bind_raise {A B : Type} (m : M A) (f : A → M B) w e w' :
  m w = (Raise e, w') → (m ≫= f) w = (Raise e, w').
Proof. intros Hm. unfold mbind, M_bind. by rewrite Hm. Qed.

Lemma deref_run l obj w : heap w !! l = Some obj → deref l w = (Ok obj, w).
Proof. intros Hl. unfold deref. by rewrite Hl. Qed.

Lemma copy_run self obj w :
  heap w !! self = Some obj →
  copy self w
  = (Ok (fresh (dom (heap w))),
     World (<[fresh (dom (heap w)) := obj]> (heap w))
           (transformed w) (conversions w)).
Proof.
  intros Hself. unfold copy.
  by rewrite (bind_ok _ _ _ _ _ (deref_run self obj w Hself)).
Qed.

Lemma super_to_dict_run l obj args kwargs w :
  heap w !! l = Some obj →
  TopLevelMixin.super_to_dict SchemaBase_to_dict l args kwargs w
  = (SchemaBase_to_dict obj args kwargs,
     World (heap w) (transformed w)
           (conversions w ++ [Conversion obj args kwargs])).
Proof.
  intros Hl. unfold TopLevelMixin.super_to_dict.
  by rewrite (bind_ok _ _ _ _ _ (deref_run l obj w Hl)).
Qed.

Lemma prepare_data_run l obj w :
  heap w !! l = Some obj →
  prepare l w
  = (match after_prepare obj with Ok _ => Ok () | Raise e => Raise e end,
     World (match after_prepare obj with
            | Ok obj' => <[l := obj']> (heap w)
            | Raise _ => heap w
            end)
           (transformed w ++ frames_of obj) (conversions w)).
Proof.
  intros Hl. destruct w as [h t c]. simpl in Hl.
  unfold TopLevelMixin._prepare_data, prepared, frames_of, deref,
    mbind, M_bind, TopLevelMixin.pipe, assign, lift, mret, M_ret. simpl.
  rewrite Hl.
  destruct (getattr obj "data") as [| | | |s|items|items|cls args kwds|columns] eqn:Hdata;
    simpl; rewrite ?app_nil_r, ?(insert_id _ _ _ Hl); try done.
  - destruct (instantiate _ _ _ _); simpl; by rewrite ?app_nil_r.
  - destruct (bool_decide _); simpl; by rewrite ?(insert_id _ _ _ Hl).
  - destruct (data_transformer _); done.
Qed.

Lemma to_dict_run self obj args kwargs w :
  heap w !! self = Some obj →
  let l := fresh (dom (heap w)) in
  let logged := transformed w ++ frames_of obj in
  serialize self args kwargs w
  = match after_prepare obj with
    | Raise e => (Raise e, World (<[l := obj]> (heap w)) logged (conversions w))
    | Ok obj' =>
        let h := <[l := obj']> (heap w) in
        match context_of kwargs with
        | Raise e => (Raise e, World h logged (conversions w))
        | Ok context =>
            let kw := conversion_kwargs obj kwargs context in
            let kw' := <["validate" := PyStr "deep"]> kw in
            let top := is_top_level context in
            match SchemaBase_to_dict obj' args kw with
            | Ok dct =>
                (Ok (finalize top dct),
                 World h logged (conversions w ++ [Conversion obj' args kw]))
            | Raise ValidationError =>
                (finalize top <$> SchemaBase_to_dict obj' args kw',
                 World h logged
                   (conversions w
                    ++ [Conversion obj' args kw; Conversion obj' args kw']))
            | Raise e =>
                (Raise e,
                 World h logged (conversions w ++ [Conversion obj' args kw]))
            end
        end
    end.
Proof.
  intros Hself l logged. unfold TopLevelMixin.to_dict.
  rewrite (bind_ok _ _ _ _ _ (copy_run self obj w Hself)). fold l.
  set (w1 := World (<[l := obj]> (heap w)) (transformed w) (conversions w)).
  assert (Hl : heap w1 !! l = Some obj) by apply lookup_insert_eq.
  rewrite (bind_ok _ _ _ _ _ (deref_run l obj w1 Hl)).
  pose proof (prepare_data_run l obj w1 Hl) as Hprep.
  simpl in Hprep. fold logged in Hprep.
  destruct (after_prepare obj) as [obj'|e].
  2: { by rewrite (bind_raise _ _ _ _ _ Hprep). }
  rewrite insert_insert_eq in Hprep.
  rewrite (bind_ok _ _ _ _ _ Hprep).
  set (w2 := World (<[l := obj']> (heap w)) logged (conversions w)).
  assert (Hl2 : heap w2 !! l = Some obj') by apply lookup_insert_eq.
  unfold context_of.
  destruct (default (PyDict ∅) (kwargs !! "context"))
    as [| | | | | |context| |]; try done.
  rewrite (bind_ok _ _ _ _ w2 (eq_refl : lift (Ok context) w2 = (Ok context, w2))).
  cbv zeta.
  change (<["context" := _]> kwargs) with (conversion_kwargs obj kwargs context).
  set (kw := conversion_kwargs obj kwargs context).
  pose proof (super_to_dict_run l obj' args kw w2 Hl2) as Hfirst.
  destruct (SchemaBase_to_dict obj' args kw) as [dct|e] eqn:Hres.
  - erewrite bind_ok; last first.
    { unfold try_except_ValidationError, fmap, M_fmap. by rewrite Hfirst. }
    simpl. unfold finalize, with_schema, is_top_level.
    by destruct (truthy _).
  - destruct (decide (e = ValidationError)) as [->|Hne].
    + erewrite bind_ok; last first.
      { unfold try_except_ValidationError, fmap, M_fmap. by rewrite Hfirst. }
      simpl.
      set (w3 := World _ _ _).
      assert (Hl3 : heap w3 !! l = Some obj') by apply lookup_insert_eq.
      pose proof (super_to_dict_run l obj' args
                    (<["validate" := PyStr "deep"]> kw) w3 Hl3) as Hsecond.
      simpl in Hsecond. rewrite <- app_assoc in Hsecond. simpl in Hsecond.
      destruct (SchemaBase_to_dict obj' args (<["validate" := PyStr "deep"]> kw))
        as [dct|e2].
      * rewrite (bind_ok _ _ _ _ _ Hsecond). simpl.
        unfold finalize, with_schema, is_top_level.
        by destruct (truthy _).
      * by rewrite (bind_raise _ _ _ _ _ Hsecond).
    + erewrite bind_raise; last first.
      { unfold try_except_ValidationError, fmap, M_fmap. rewrite Hfirst.
        by destruct e. }
      by destruct e.
Qed.
End Serialization.

(** ** Deep merge *)

Lemma depth_lookup (d : dict) k v : d !! k = Some v → depth v < depth (PyDict d).
Proof.
  simpl. intros Hk. apply Nat.lt_succ_r. revert k v Hk.
  apply (map_fold_weak_ind
           (λ r (m : dict), ∀ k v, m !! k = Some v → depth v ≤ r)).
  - intros k v. by rewrite lookup_empty.
  - intros i x m r Hi IH k v. rewrite lookup_insert.
    case_decide as Hik.
    + intros [= ->]. lia.
    + intros Hk. specialize (IH k v Hk). lia.
Qed.

Lemma update_nested_lookup_raw (original update : dict) k :
  update_nested original update !! k
  = match update !! k with
    | Some (PyDict u) =>
        match original !! k with
        | Some (PyDict o) => Some (PyDict (update_nested o u))
        | None => Some (PyDict (update_nested ∅ u))
        | Some _ => Some (PyDict u)
        end
    | Some v => Some v
    | None => original !! k
    end.
Proof.
  unfold update_nested at 1. simpl. revert k.
  match goal with
  | |- ∀ k, map_fold ?f _ _ !! k = _ =>
      apply (map_fold_weak_ind
               (λ (r m : dict), ∀ k,
                  r !! k = match m !! k with
                           | Some (PyDict u) =>
                               match original !! k with
                               | Some (PyDict o) => Some (PyDict (update_nested o u))
                               | None => Some (PyDict (update_nested ∅ u))
                               | Some _ => Some (PyDict u)
                               end
                           | Some v => Some v
                           | None => original !! k
                           end) f)
  end.
  - intros k. by rewrite lookup_empty.
  - intros i x m r Hi IH k.
    assert (Hri : r !! i = original !! i) by by rewrite IH, Hi.
    destruct (decide (k = i)) as [->|Hne].
    + rewrite lookup_insert_eq.
      destruct x; rewrite ?lookup_insert_eq; try done.
      rewrite Hri. destruct (original !! i) as [[]|]; simpl;
        by rewrite lookup_insert_eq.
    + rewrite lookup_insert_ne by done. rewrite <- IH.
      destruct x; rewrite ?lookup_insert_ne; try done.
      destruct (default (PyDict ∅) (r !! i)); by rewrite lookup_insert_ne.
Qed.

Lemma update_nested_empty_bounded n (update : dict) :
  depth (PyDict update) ≤ n → update_nested ∅ update = update.
Proof.
  revert update. induction n as [|n IH]; intros update Hdepth.
  { simpl in Hdepth. lia. }
  apply map_eq. intros k. rewrite update_nested_lookup_raw, lookup_empty.
  destruct (update !! k) as [v|] eqn:Hk; [|done].
  destruct v; try done. do 2 f_equal. apply IH.
  apply depth_lookup in Hk. lia.
Qed.

Lemma update_nested_empty (update : dict) : update_nested ∅ update = update.
Proof. by apply (update_nested_empty_bounded (depth (PyDict update))). Qed.

Lemma update_nested_lookup (original update : dict) k :
  update_nested original update !! k
  = match update !! k, original !! k with
    | Some (PyDict u), Some (PyDict o) => Some (PyDict (update_nested o u))
    | Some v, _ => Some v
    | None, o => o
    end.
Proof.
  rewrite update_nested_lookup_raw.
  destruct (update !! k) as [[]|]; try done.
  destruct (original !! k) as [[]|]; by rewrite ?update_nested_empty.
Qed.

(** What the update sets explicitly (a value that is not itself a mapping,
    at any depth) is what the merge holds there. *)
Lemma update_nested_keeps_explicit path (original update : dict) v :
  path ≠ [] →
  lookup_path path (PyDict update) = Some v →
  is_dict v = false →
  lookup_path path (PyDict (update_nested original update)) = Some v.
Proof.
  revert original update.
  induction path as [|k rest IH]; intros original update Hne Hlook Hleaf; [done|].
  simpl in *. rewrite update_nested_lookup.
  destruct (update !! k) as [x|] eqn:Hk; [|done]. simpl in Hlook.
  destruct rest as [|k' rest].
  - simpl in *. injection Hlook as ->. by destruct v, (original !! k) as [[]|].
  - destruct x; try done.
    destruct (original !! k) as [[]|]; simpl; try exact Hlook.
    exact (IH _ _ ltac:(done) Hlook Hleaf).
Qed.

(** Where the update leaves a path of the original open and unset, the
    merge holds the original's value. *)
Lemma update_nested_keeps_default path (original update : dict) :
  path ≠ [] →
  open_path path (PyDict update) →
  lookup_path path (PyDict update) = None →
  lookup_path path (PyDict (update_nested original update))
  = lookup_path path (PyDict original).
Proof.
  revert original update.
  induction path as [|k rest IH]; intros original update Hne Hopen Hunset; [done|].
  simpl in *. rewrite update_nested_lookup.
  destruct (update !! k) as [x|] eqn:Hk; [|done]. simpl in Hunset.
  destruct Hopen as [->|Hopen]; [done|].
  destruct rest as [|k' rest]; [done|].
  destruct x; try done.
  destruct (original !! k) as [[]|] eqn:Ho; simpl; try done.
  exact (IH _ _ ltac:(done) Hopen Hunset).
Qed.

Section SerializationClaims.
Variable schema_accepts : string → list value → dict → bool.
Variable data_transformer : value → result value.
Variable SchemaBase_to_dict : value → list value → dict → result dict.

Local Abbreviation prepare :=
  (TopLevelMixin._prepare_data schema_accepts data_transformer).
Local Abbreviation serialize :=
  (TopLevelMixin.to_dict schema_accepts data_transformer SchemaBase_to_dict).
Local Abbreviation after_prepare := (prepared schema_accepts data_transformer).

Lemma to_dict_dangling self args kwargs w :
  heap w !! self = None →
  serialize self args kwargs w = (Raise (ExternalError "no such object"), w).
Proof.
  intros Hself. unfold TopLevelMixin.to_dict, copy.
  assert (Hderef : deref self w = (Raise (ExternalError "no such object"), w)).
  { unfold deref. by rewrite Hself. }
  by rewrite (bind_raise _ _ _ _ _ (bind_raise _ _ _ _ _ Hderef)).
Qed.

(** C3.  One call of [to_dict] on a chart asks [SchemaBase.to_dict] for at
    most two conversions, each of the chart's prepared copy.  When preparing
    the data or reading the context fails, nothing is converted.  Otherwise
    the copy is converted once; if that conversion returns a document or
    raises anything but a validation error, that is the outcome of [to_dict]
    (the document finalized) and there is no second conversion; if it raises
    a validation error, the error is dropped and the same copy is converted
    exactly once more, with the same arguments and [validate='deep'], and
    the outcome of that second conversion is the outcome of [to_dict]: when
    it raises, so does [to_dict]. *)
Theorem to_dict_converts_at_most_twice self obj args kwargs w :
  heap w !! self = Some obj →
  let r := (serialize self args kwargs w).1 in
  let w' := (serialize self args kwargs w).2 in
  (∃ calls, conversions w' = conversions w ++ calls ∧ length calls ≤ 2)
  ∧ (∀ e, after_prepare obj = Raise e →
          r = Raise e ∧ conversions w' = conversions w)
  ∧ (∀ obj', after_prepare obj = Ok obj' →
       (∀ e, context_of kwargs = Raise e →
             r = Raise e ∧ conversions w' = conversions w)
       ∧ ∀ context, context_of kwargs = Ok context →
           let kw := conversion_kwargs obj kwargs context in
           let deep := <["validate" := PyStr "deep"]> kw in
           let top := is_top_level context in
           (∀ dct, SchemaBase_to_dict obj' args kw = Ok dct →
                   r = Ok (finalize top dct)
                   ∧ conversions w' = conversions w ++ [Conversion obj' args kw])
           ∧ (∀ e, SchemaBase_to_dict obj' args kw = Raise e →
                   e ≠ ValidationError →
                   r = Raise e
                   ∧ conversions w' = conversions w ++ [Conversion obj' args kw])
           ∧ (SchemaBase_to_dict obj' args kw = Raise ValidationError →
              conversions w'
              = conversions w
                ++ [Conversion obj' args kw; Conversion obj' args deep]
              ∧ r = finalize top <$> SchemaBase_to_dict obj' args deep
              ∧ ∀ e, SchemaBase_to_dict obj' args deep = Raise e → r = Raise e)).
Proof.
  intros Hself r w'. subst r w'.
  rewrite (to_dict_run _ _ _ self obj) by done. cbv zeta.
  split_and!.
  - destruct (after_prepare obj) as [obj'|e]; simpl.
    2: { exists []. rewrite app_nil_r. split; [done|simpl; lia]. }
    destruct (context_of kwargs) as [context|e]; simpl.
    2: { exists []. rewrite app_nil_r. split; [done|simpl; lia]. }
    destruct (SchemaBase_to_dict obj' args _) as [dct|e].
    + eexists. split; [done|simpl; lia].
    + destruct e; (eexists; split; [done|simpl; lia]).
  - intros e ->. simpl. done.
  - intros obj' ->. split.
    + intros e ->. done.
    + intros context ->. cbv zeta. split_and!.
      * intros dct ->. done.
      * intros e -> Hne. by destruct e.
      * intros ->. simpl. split_and!; [done|done|].
        intros e ->. done.
Qed.

(** C9, as the code has it.  [to_dict] normalizes the data of a copy it
    makes: the instance it is called on is the same object afterwards (its
    [data] still the tabular value), every call hands the frame to the
    transformer again, and the normalized form is stored in the copy.
    [_prepare_data] itself stores the normalized form in the instance it
    is applied to. *)
Theorem to_dict_normalizes_a_copy self obj args kwargs w :
  heap w !! self = Some obj →
  let w' := (serialize self args kwargs w).2 in
  let w'' := (serialize self args kwargs w').2 in
  heap w' !! self = Some obj
  ∧ transformed w' = transformed w ++ frames_of obj
  ∧ transformed w'' = transformed w ++ frames_of obj ++ frames_of obj
  ∧ (∀ columns data',
       getattr obj "data" = DataFrame columns →
       data_transformer (DataFrame columns) = Ok data' →
       frames_of obj = [DataFrame columns]
       ∧ heap w' !! fresh (dom (heap w)) = Some (setattr obj "data" data')
       ∧ heap (prepare self w).2 !! self = Some (setattr obj "data" data')).
Proof.
  intros Hself w' w''.
  assert (Hstep : ∀ w0, heap w0 !! self = Some obj →
    heap (serialize self args kwargs w0).2 !! self = Some obj
    ∧ transformed (serialize self args kwargs w0).2
      = transformed w0 ++ frames_of obj).
  { intros w0 H0.
    assert (Hfresh : fresh (dom (heap w0)) ≠ self).
    { intros Heq. apply (is_fresh (dom (heap w0))).
      rewrite Heq. apply elem_of_dom. by eexists. }
    rewrite (to_dict_run _ _ _ self obj) by done. cbv zeta.
    destruct (after_prepare obj) as [obj'|e]; simpl;
      [|by rewrite lookup_insert_ne].
    destruct (context_of kwargs) as [context|e]; simpl;
      [|by rewrite lookup_insert_ne].
    destruct (SchemaBase_to_dict obj' args _) as [dct|[]]; simpl;
      by rewrite lookup_insert_ne. }
  destruct (Hstep w Hself) as [Hheap Hlog]. fold w' in Hheap, Hlog.
  destruct (Hstep w' Hheap) as [_ Hlog']. fold w'' in Hlog'.
  split_and!; [done|done|by rewrite Hlog', Hlog, <- app_assoc|].
  intros columns data' Hdata Htransform. split_and!.
  - unfold frames_of. by rewrite Hdata.
  - assert (Hprep : after_prepare obj = Ok (setattr obj "data" data')).
    { unfold prepared. rewrite Hdata. simpl. by rewrite Htransform. }
    subst w'. rewrite (to_dict_run _ _ _ self obj) by done. cbv zeta.
    rewrite Hprep.
    destruct (context_of kwargs) as [context|e]; simpl;
      [|by rewrite lookup_insert_eq].
    destruct (SchemaBase_to_dict _ args _) as [dct|[]]; simpl;
      by rewrite lookup_insert_eq.
  - rewrite (prepare_data_run _ _ self obj) by done. simpl.
    unfold prepared. rewrite Hdata. simpl. rewrite Htransform. simpl.
    by rewrite lookup_insert_eq.
Qed.
End SerializationClaims.

Lemma with_schema_lookup (dct : dict) k v :
  dct !! k = Some v → with_schema dct !! k = Some v.
Proof.
  intros Hk. unfold with_schema. case_bool_decide as Hin; [done|].
  rewrite lookup_insert_ne; [done|].
  intros <-. apply Hin, elem_of_dom. by eexists.
Qed.

Lemma with_schema_lookup_ne (dct : dict) k :
  k ≠ "$schema" → with_schema dct !! k = dct !! k.
Proof.
  intros Hk. unfold with_schema. case_bool_decide; [done|].
  by rewrite lookup_insert_ne.
Qed.

Section DefaultsClaim.
Variable schema_accepts : string → list value → dict → bool.
Variable data_transformer : value → result value.
Variable SchemaBase_to_dict : value → list value → dict → result dict.

Local Abbreviation serialize :=
  (TopLevelMixin.to_dict schema_accepts data_transformer SchemaBase_to_dict).
Local Abbreviation after_prepare := (prepared schema_accepts data_transformer).

Lemma prepared_keeps_attributes (cls : string) (kwds : dict) (obj' : value) :
  after_prepare (Node cls [] kwds) = Ok obj' →
  ∃ kwds', obj' = Node cls [] kwds'
           ∧ ∀ k, k ≠ "data" → kwds' !! k = kwds !! k.
Proof.
  unfold prepared.
  destruct (is_dict _ || isinstance _ _); [intros [= <-]; by eexists|].
  destruct (is_DataFrame _).
  { destruct (data_transformer _) as [data'|e]; simpl; [|done].
    intros [= <-]. eexists. split; [reflexivity|].
    intros k Hk. by rewrite lookup_insert_ne. }
  destruct (is_str _); [|intros [= <-]; by eexists].
  destruct (instantiate _ _ _ _) as [data'|e]; simpl; [|done].
  intros [= <-]. eexists. split; [reflexivity|].
  intros k Hk. by rewrite lookup_insert_ne.
Qed.

(** C4.  A top-level [to_dict] of a chart returns the document that the
    conversion of the chart's prepared copy yields (the first conversion,
    or the second when the first fails validation), with [$schema] added
    when absent, deep-merged over the default values
    [{config: {view: {width: 400, height: 300}}}]: every value the
    converted document sets (a [width] of its own, or a [config.view.width]
    of its own) is kept, and where the document leaves [config.view.width]
    or [config.view.height] unset (and has nothing but mappings on the way
    there), the merged document holds the default 400 or 300.  With a
    conversion that yields the document of the node, this is about the
    chart itself: its own [width] or [height] is the result's, and a chart
    that sets no [config] gets the defaults 400 and 300 under
    [config.view]. *)
Theorem to_dict_merges_defaults self obj obj' args kwargs context w converted :
  heap w !! self = Some obj →
  after_prepare obj = Ok obj' →
  context_of kwargs = Ok context →
  is_top_level context = true →
  let kw := conversion_kwargs obj kwargs context in
  SchemaBase_to_dict obj' args kw = Ok converted
  ∨ SchemaBase_to_dict obj' args kw = Raise ValidationError
    ∧ SchemaBase_to_dict obj' args (<["validate" := PyStr "deep"]> kw)
      = Ok converted →
  ∃ dct,
    (serialize self args kwargs w).1 = Ok dct
    ∧ dct = update_nested TopLevelMixin._default_spec_values (with_schema converted)
    ∧ (∀ path v,
         path ≠ [] →
         lookup_path path (PyDict converted) = Some v →
         is_dict v = false →
         lookup_path path (PyDict dct) = Some v)
    ∧ (∀ n, converted !! "width" = Some (PyInt n) → dct !! "width" = Some (PyInt n))
    ∧ (open_path ["config"; "view"; "width"] (PyDict converted) →
       lookup_path ["config"; "view"; "width"] (PyDict converted) = None →
       lookup_path ["config"; "view"; "width"] (PyDict dct) = Some (PyInt 400))
    ∧ (open_path ["config"; "view"; "height"] (PyDict converted) →
       lookup_path ["config"; "view"; "height"] (PyDict converted) = None →
       lookup_path ["config"; "view"; "height"] (PyDict dct) = Some (PyInt 300))
    ∧ (converted !! "config" = None →
       dct !! "config"
       = Some (PyDict {["view" :=
                 PyDict {["width" := PyInt 400; "height" := PyInt 300]}]}))
    ∧ ((∀ o a k d, SchemaBase_to_dict o a k = Ok d → PyDict d = document o) →
       ∀ cls kwds, obj = Node cls [] kwds →
         (∀ n, kwds !! "width" = Some (PyInt n) →
               dct !! "width" = Some (PyInt n))
         ∧ (∀ n, kwds !! "height" = Some (PyInt n) →
                 dct !! "height" = Some (PyInt n))
         ∧ (default Undefined (kwds !! "config") = Undefined →
            lookup_path ["config"; "view"; "width"] (PyDict dct)
            = Some (PyInt 400)
            ∧ lookup_path ["config"; "view"; "height"] (PyDict dct)
              = Some (PyInt 300))).
Proof.
  intros Hself Hprepared Hctx Htop kw Hconverted.
  exists (update_nested TopLevelMixin._default_spec_values (with_schema converted)).
  assert ((serialize self args kwargs w).1
          = Ok (update_nested TopLevelMixin._default_spec_values
                  (with_schema converted))) as Hrun.
  { rewrite (to_dict_run _ _ _ self obj) by done. cbv zeta.
    rewrite Hprepared, Hctx, Htop. fold kw.
    destruct Hconverted as [->|[-> Hdeep]]; [done|]. simpl.
    by rewrite Hdeep. }
  assert (Hexplicit : ∀ path v,
    path ≠ [] →
    lookup_path path (PyDict converted) = Some v →
    is_dict v = false →
    lookup_path path
      (PyDict (update_nested TopLevelMixin._default_spec_values
                 (with_schema converted))) = Some v).
  { intros path v Hne Hlook Hleaf.
    apply update_nested_keeps_explicit; [done| |done].
    destruct path as [|k rest]; [done|]. simpl in *.
    destruct (converted !! k) as [x|] eqn:Hk; [|done].
    by rewrite (with_schema_lookup _ _ _ Hk). }
  assert (Hdefault : ∀ k,
    open_path ["config"; "view"; k] (PyDict converted) →
    lookup_path ["config"; "view"; k] (PyDict converted) = None →
    lookup_path ["config"; "view"; k]
      (PyDict (update_nested TopLevelMixin._default_spec_values
                 (with_schema converted)))
    = lookup_path ["config"; "view"; k]
        (PyDict TopLevelMixin._default_spec_values)).
  { intros k Hopen Hunset.
    apply update_nested_keeps_default; [done| |].
    - simpl in *. by rewrite with_schema_lookup_ne.
    - simpl in *. by rewrite with_schema_lookup_ne. }
  assert (Hown : ∀ k n, converted !! k = Some (PyInt n) →
    update_nested TopLevelMixin._default_spec_values (with_schema converted)
      !! k = Some (PyInt n)).
  { intros k n Hk.
    assert (Hpath : lookup_path [k] (PyDict converted) = Some (PyInt n))
      by (simpl; by rewrite Hk).
    apply (Hexplicit [k] (PyInt n)) in Hpath; [|done..].
    simpl in Hpath.
    by destruct (update_nested _ _ !! k). }
  split_and!.
  - done.
  - done.
  - done.
  - intros n. apply Hown.
  - intros Hopen Hunset. by rewrite Hdefault.
  - intros Hopen Hunset. by rewrite Hdefault.
  - intros Hconfig.
    rewrite update_nested_lookup, with_schema_lookup_ne, Hconfig by done.
    done.
  - intros Hdocument cls kwds ->.
    destruct (prepared_keeps_attributes _ _ _ Hprepared)
      as (kwds' & -> & Hkept).
    assert (Hdoc : ∀ k, converted !! k
      = kwds' !! k ≫= λ x, if is_Undefined x then None else Some (document x)).
    { intros k.
      assert (PyDict converted = document (Node cls [] kwds')) as Heq.
      { destruct Hconverted as [Hc|[_ Hc]]; by apply Hdocument in Hc. }
      simpl in Heq. injection Heq as ->. apply lookup_omap. }
    split_and!.
    + intros n Hwidth. apply Hown.
      by rewrite Hdoc, Hkept, Hwidth.
    + intros n Hheight. apply Hown.
      by rewrite Hdoc, Hkept, Hheight.
    + intros Hconfig.
      assert (converted !! "config" = None) as Hnone.
      { rewrite Hdoc, Hkept by done.
        destruct (kwds !! "config") as [x|]; [|done].
        simpl in Hconfig. by subst x. }
      split; (rewrite Hdefault; [done|simpl; by rewrite Hnone..]).
Qed.
End DefaultsClaim.

(** * Concrete runs *)

Example title_examples :
  title "x" = "X" ∧ title "color" = "Color" ∧ title "x2" = "X2"
  ∧ title "COLOR" = "Color" ∧ title "my_channel" = "My_Channel".
Proof. done. Qed.

Example channels_mapping_example :
  Chart._get_channels_mapping sample_channels !! "ColorValue" = Some "color"
  ∧ Chart._get_channels_mapping sample_channels !! "X2" = Some "x2".
Proof. split; vm_compute; reflexivity. Qed.

Example encode_example :
  Chart.encode sample_schema sample_channels sample_parse_shorthand
    lenient_from_dict plain_chart []
    {["x" := PyStr "a:Q"; "color" := PyDict {["value" := PyStr "red"]}]}
  = Ok (setattr plain_chart "encoding"
          (Node "EncodingWithFacet" []
             {["x" := Node "X" [] {["field" := PyStr "a";
                                    "type" := PyStr "quantitative"]};
               "color" := Node "ColorValue" [] {["value" := PyStr "red"]}]})).
Proof. vm_compute. reflexivity. Qed.

Example or_fails_validation :
  SelectionMapping.__or__ sample_schema brush click = Raise ValidationError
  ∧ SelectionMapping.__or__ (λ _ _ _, true) brush click
    = Ok (Node "SelectionAnd" [] {["or" := PyList [PyStr "brush"; PyStr "click"]]})
  ∧ SelectionMapping.__and__ sample_schema brush click
    = Ok (Node "SelectionAnd" [] {["and" := PyList [PyStr "brush"; PyStr "click"]]}).
Proof. split_and!; vm_compute; reflexivity. Qed.

Example layer_example :
  Operators.add plain_chart sales_chart
  = Ok (Node "LayerChart" [] {["layer" := PyList [plain_chart; sales_chart]]})
  ∧ Operators.add plain_chart themed_chart
    = Raise (ValueError (subspec_err "config" "LayerChart")).
Proof. split; vm_compute; reflexivity. Qed.

Example to_dict_example :
  (TopLevelMixin.to_dict sample_schema sample_transformer sample_to_dict
     1%positive [] ∅ one_chart).1
  = Ok {["$schema" := PyStr SCHEMA_URL;
         "config" := PyDict {["view" := PyDict {["width" := PyInt 400;
                                                 "height" := PyInt 300]}]};
         "data" := PyDict {["values" :=
                     PyDict {["a" := PyList [PyInt 1; PyInt 2]]}]};
         "mark" := PyStr "point";
         "width" := PyInt 200]}.
Proof. vm_compute. reflexivity. Qed.

Example to_dict_retry_example :
  let markless := World {[1%positive := Node "Chart" [] {["width" := PyInt 200]}]} [] [] in
  let run := TopLevelMixin.to_dict sample_schema sample_transformer strict_to_dict
               1%positive [] ∅ markless in
  run.1 = Raise ValidationError
  ∧ conv_kwargs <$> conversions run.2
    = [ {["context" := PyDict {["top_level" := PyBool false]}]};
        {["context" := PyDict {["top_level" := PyBool false]};
          "validate" := PyStr "deep"]} ].
Proof. split; vm_compute; reflexivity. Qed.

(** ** Where the code departs from a claim as written *)

(** C1 as written fails for a "false" branch that is a mapping with a
    [condition] key: the call raises instead of returning a channel. *)
Lemma condition_refuses_conditional_false_branch :
  let if_false :=
    PyDict {["condition" := PyDict {["selection" := PyStr "other";
                                     "value" := PyStr "red"]};
             "value" := PyStr "grey"]} in
  condition sample_node_to_dict brush (PyDict {["field" := PyStr "a"]}) if_false ∅
  = Raise (TypeError "dict() got multiple values for keyword argument 'condition'")
  ∧ ¬ ∃ channel,
        condition sample_node_to_dict brush (PyDict {["field" := PyStr "a"]})
          if_false ∅ = Ok channel.
Proof.
  intros if_false.
  assert (Hrun : condition sample_node_to_dict brush
                   (PyDict {["field" := PyStr "a"]}) if_false ∅
    = Raise (TypeError
        "dict() got multiple values for keyword argument 'condition'"))
    by (vm_compute; reflexivity).
  split; [done|]. intros [channel Hok]. by rewrite Hrun in Hok.
Qed.

(** C6 as written fails on the value returned: negating a one-name mapping
    gives the node whose document is [{not: name}]; neither the node nor
    its document is [{selection: {not: name}}]. *)
Lemma invert_is_not_a_selection_reference :
  ∃ negated,
    SelectionMapping.__invert__ sample_schema brush = Ok negated
    ∧ negated = Node "SelectionNot" [] {["not" := PyStr "brush"]}
    ∧ document negated = PyDict {["not" := PyStr "brush"]}
    ∧ document negated
      ≠ PyDict {["selection" := PyDict {["not" := PyStr "brush"]}]}
    ∧ negated ≠ PyDict {["selection" := PyDict {["not" := PyStr "brush"]}]}.
Proof.
  eexists. split; [vm_compute; reflexivity|].
  split_and!; [done|done| |done].
  intros Heq.
  apply (f_equal (λ v, match v with PyDict d => d !! "not" | _ => None end)) in Heq.
  by vm_compute in Heq.
Qed.

(** C8 as written fails on "unchanged": the mapping that comes back holds
    the parsed shorthand, not the raw [field] string.  The value class
    refuses the mapping, which has entries for a field beside [value]. *)
Lemma wrap_fallback_holds_parsed_shorthand :
  let raw : dict := {["field" := PyStr "a:Q"; "value" := PyStr "red"]} in
  let fallback : dict :=
    {["field" := PyStr "a"; "type" := PyStr "quantitative";
      "value" := PyStr "red"]} in
  checking_from_dict "ColorValue" fallback = Raise ValidationError
  ∧ Chart.wrap_item sample_channels sample_parse_shorthand
      checking_from_dict "color" (PyDict raw)
    = Ok (PyDict fallback)
  ∧ Chart.wrap_item sample_channels sample_parse_shorthand
      checking_from_dict "color" (PyDict raw)
    ≠ Ok (PyDict raw).
Proof.
  intros raw fallback.
  assert (Hrun : Chart.wrap_item sample_channels
                   sample_parse_shorthand checking_from_dict "color" (PyDict raw)
                 = Ok (PyDict fallback))
    by (vm_compute; reflexivity).
  split_and!; [by vm_compute|done|]. rewrite Hrun. intros Heq.
  apply (f_equal (λ r, match r with
                       | Ok (PyDict d) => d !! "type"
                       | _ => None
                       end)) in Heq.
  by vm_compute in Heq.
Qed.

(** C9 as written fails: after [to_dict] the instance's [data] is still the
    frame, and a second [to_dict] hands the frame to the transformer again. *)
Lemma to_dict_does_not_cache_normalization :
  let run :=
    TopLevelMixin.to_dict sample_schema sample_transformer sample_to_dict
      1%positive [] ∅ in
  let w' := (run one_chart).2 in
  let w'' := (run w').2 in
  (∃ dct, (run one_chart).1 = Ok dct)
  ∧ heap w' !! 1%positive = Some sales_chart
  ∧ getattr sales_chart "data" = sales
  ∧ transformed w' = [sales]
  ∧ transformed w'' = [sales; sales].
Proof.
  intros run w' w''. split_and!.
  - eexists. apply to_dict_example.
  - vm_compute. reflexivity.
  - vm_compute. reflexivity.
  - vm_compute. reflexivity.
  - vm_compute. reflexivity.
Qed.

(** ** The statements at concrete inputs *)

Ltac by_compute :=
  match goal with
  | |- ?P => apply (bool_decide_unpack P); vm_compute; exact I
  end.

Lemma condition_single_selection_witness :
  branch_attributes sample_node_to_dict (PyStr "a") {["field" := PyStr "a"]}
  ∧ condition sample_node_to_dict brush (PyStr "a")
      (PyDict {["value" := PyStr "grey"]}) ∅
    = Ok (PyDict (<["condition" :=
                      PyDict (dict_update {["selection" := PyStr "brush"]}
                                {["field" := PyStr "a"]})]>
                    {["value" := PyStr "grey"]})).
Proof.
  split; [constructor|].
  destruct (condition_single_selection sample_node_to_dict "brush" interval
              (PyStr "a") {["field" := PyStr "a"]} (attributes_of_str _ "a"))
    as (_ & Hmapping & _).
  apply Hmapping. reflexivity.
Defined.

Lemma encode_resolves_channel_class_witness :
  Chart._wrap_in_channel_class sample_channels sample_parse_shorthand
    lenient_from_dict (PyStr "a:Q") "x"
  = Ok (Node "X" [] {["field" := PyStr "a"; "type" := PyStr "quantitative"]})
  ∧ Chart._wrap_in_channel_class sample_channels sample_parse_shorthand
      lenient_from_dict (PyDict {["value" := PyStr "red"]}) "color"
    = Ok (Node "ColorValue" [] {["value" := PyStr "red"]}).
Proof.
  destruct (encode_resolves_channel_class sample_schema sample_channels
              sample_parse_shorthand lenient_from_dict "x")
    as (_ & _ & _ & _ & _ & Hx & _).
  destruct (encode_resolves_channel_class sample_schema sample_channels
              sample_parse_shorthand lenient_from_dict "color")
    as (_ & _ & _ & _ & _ & _ & Hcolor).
  split.
  - apply Hx; [reflexivity | reflexivity | by_compute | reflexivity].
  - apply Hcolor; [reflexivity | by_compute | reflexivity].
Defined.

Lemma sample_to_dict_document (obj : value) (args : list value)
    (kwargs d : dict) :
  sample_to_dict obj args kwargs = Ok d → PyDict d = document obj.
Proof.
  unfold sample_to_dict. destruct (document obj); try done. by intros [= ->].
Qed.

Lemma to_dict_merges_defaults_witness :
  ∃ dct,
    (TopLevelMixin.to_dict sample_schema sample_transformer sample_to_dict
       1%positive [] ∅ one_chart).1 = Ok dct
    ∧ dct !! "width" = Some (PyInt 200)
    ∧ lookup_path ["config"; "view"; "width"] (PyDict dct) = Some (PyInt 400)
    ∧ lookup_path ["config"; "view"; "height"] (PyDict dct) = Some (PyInt 300).
Proof.
  pose (obj' := setattr sales_chart "data"
                  (PyDict {["values" :=
                              PyDict {["a" := PyList [PyInt 1; PyInt 2]]}]})).
  pose (converted :=
          match sample_to_dict obj' [] ∅ with Ok d => d | Raise _ => ∅ end).
  assert (Hheap : heap one_chart !! 1%positive = Some sales_chart)
    by reflexivity.
  assert (Hprepared : prepared sample_schema sample_transformer sales_chart
                      = Ok obj') by (vm_compute; reflexivity).
  assert (Hcontext : context_of ∅ = Ok ∅) by reflexivity.
  assert (Htop : is_top_level ∅ = true) by reflexivity.
  assert (Hconverted :
    sample_to_dict obj' [] (conversion_kwargs sales_chart ∅ ∅) = Ok converted)
    by (vm_compute; reflexivity).
  destruct (to_dict_merges_defaults sample_schema sample_transformer
              sample_to_dict 1%positive sales_chart obj' [] ∅ ∅ one_chart
              converted Hheap Hprepared Hcontext Htop (or_introl Hconverted))
    as (dct & Hrun & _ & _ & _ & _ & _ & _ & Hchart).
  exists dct. split; [exact Hrun|].
  destruct (Hchart sample_to_dict_document "Chart" _ eq_refl)
    as (Hwidth & _ & Hdefaults).
  split.
  - apply Hwidth. reflexivity.
  - apply Hdefaults. reflexivity.
Defined.

Lemma to_dict_converts_at_most_twice_witness :
  let markless := Node "Chart" [] {["width" := PyInt 200]} in
  let w := World {[1%positive := markless]} [] [] in
  let run := TopLevelMixin.to_dict sample_schema sample_transformer
               strict_to_dict 1%positive [] ∅ w in
  let kw : dict := {["context" := PyDict {["top_level" := PyBool false]}]} in
  run.1 = Raise ValidationError
  ∧ conversions run.2
    = [Conversion markless [] kw;
       Conversion markless [] (<["validate" := PyStr "deep"]> kw)].
Proof.
  intros markless w run kw.
  assert (Hheap : heap w !! 1%positive = Some markless) by reflexivity.
  destruct (to_dict_converts_at_most_twice sample_schema sample_transformer
              strict_to_dict 1%positive markless [] ∅ w Hheap)
    as (_ & _ & Hprepared).
  destruct (Hprepared markless eq_refl) as [_ Hcontext].
  destruct (Hcontext ∅ eq_refl) as (_ & _ & Hretry).
  destruct (Hretry eq_refl) as (Hlog & _ & Hraise).
  split.
  - apply (Hraise ValidationError). reflexivity.
  - exact Hlog.
Defined.

Lemma subspec_constraint_witness :
  rejected (LayerChart.__init__ [plain_chart; themed_chart] ∅)
    "LayerChart" themed_chart
  ∧ LayerChart.__init__ [plain_chart; sales_chart] ∅
    = Ok (Node "LayerChart" [] {["layer" := PyList [plain_chart; sales_chart]]}).
Proof.
  assert (Hplain : acceptable plain_chart).
  { split; [reflexivity|]. intros attr Hin. unfold toplevel_only in Hin.
    repeat (apply elem_of_cons in Hin as [->|Hin]; [reflexivity|]).
    by apply elem_of_nil in Hin. }
  assert (Hsales : acceptable sales_chart).
  { split; [reflexivity|]. intros attr Hin. unfold toplevel_only in Hin.
    repeat (apply elem_of_cons in Hin as [->|Hin]; [reflexivity|]).
    by apply elem_of_nil in Hin. }
  assert (Hthemed : offending themed_chart).
  { split; [reflexivity|]. exists "config". split; [by_compute | reflexivity]. }
  split.
  - destruct (subspec_constraint themed_chart) as [Hrefuse _].
    destruct (Hrefuse Hthemed) as (_ & Hinit & _).
    apply (Hinit [plain_chart] [] ∅). by apply Forall_cons_2.
  - destruct (subspec_constraint sales_chart) as [_ Haccept].
    destruct (Haccept Hsales) as (_ & Hinit & _).
    apply (Hinit [plain_chart; sales_chart] ∅).
    + apply list_elem_of_further, list_elem_of_here.
    + by repeat apply Forall_cons_2.
Defined.

Lemma invert_selection_mapping_witness :
  SelectionMapping.__invert__ sample_schema brush_and_click
  = Raise (ValueError "Selection Mapping has more than one name")
  ∧ SelectionMapping.__invert__ sample_schema brush
    = Ok (Node "SelectionNot" [] {["not" := PyStr "brush"]}).
Proof.
  split.
  - destruct (invert_selection_mapping sample_schema sample_node_to_dict
                {["brush" := interval; "click" := interval]}) as [Hmany _].
    apply Hmany. vm_compute. lia.
  - destruct (invert_selection_mapping sample_schema sample_node_to_dict
                {["brush" := interval]}) as [_ Hone].
    destruct (Hone "brush" interval eq_refl) as (_ & Haccepted & _).
    apply Haccepted. reflexivity.
Defined.

Lemma wrap_falls_back_to_mapping_witness :
  let raw : dict := {["value" := PyStr "red"; "colour" := PyStr "red"]} in
  let conditional : dict :=
    {["condition" := PyDict {["value" := PyStr "red"]};
      "value" := PyStr "grey"; "colour" := PyStr "red"]} in
  Chart.wrap_item sample_channels sample_parse_shorthand checking_from_dict
    "color" (PyDict raw)
  = Ok (PyDict raw)
  ∧ Chart.wrap_item sample_channels sample_parse_shorthand checking_from_dict
      "color" (PyDict conditional)
    = Ok (PyDict
            (<["condition" := Node "ColorValue" [] {["value" := PyStr "red"]}]>
               conditional)).
Proof.
  intros raw conditional. split.
  - destruct (wrap_falls_back_to_mapping sample_channels sample_parse_shorthand
                checking_from_dict "color" raw) as [Hplain _].
    destruct (Hplain raw) as (_ & _ & Hitem).
    + split_and!; [reflexivity|by_compute|by vm_compute].
    + by apply Hitem.
  - destruct (wrap_falls_back_to_mapping sample_channels sample_parse_shorthand
                checking_from_dict "color" conditional) as [_ Hcond].
    destruct (Hcond (PyDict {["value" := PyStr "red"]})
                (Node "ColorValue" [] {["value" := PyStr "red"]})
                (<["condition" := Node "ColorValue" [] {["value" := PyStr "red"]}]>
                   conditional)) as [Hitem _].
    + reflexivity.
    + reflexivity.
    + by vm_compute.
    + split_and!; [reflexivity|by_compute|by vm_compute].
    + exact Hitem.
Defined.

Lemma to_dict_normalizes_a_copy_witness :
  heap one_chart !! 1%positive = Some sales_chart
  ∧ heap (TopLevelMixin.to_dict sample_schema sample_transformer sample_to_dict
            1%positive [] ∅ one_chart).2 !! 1%positive
    = Some sales_chart.
Proof.
  assert (Hheap : heap one_chart !! 1%positive = Some sales_chart)
    by reflexivity.
  split; [exact Hheap|].
  apply (to_dict_normalizes_a_copy sample_schema sample_transformer
           sample_to_dict 1%positive sales_chart [] ∅ one_chart Hheap).
Defined.

Lemma repeat_row_or_column_witness :
  repeat sample_schema (PyStr "row")
  = Ok (Node "RepeatRef" [] {["repeat" := PyStr "row"]})
  ∧ repeat sample_schema (PyStr "rows") = Raise AssertionError.
Proof.
  destruct (repeat_row_or_column sample_schema) as (Hgood & Hbad & _).
  split.
  - destruct (Hgood "row" (or_introl eq_refl)) as [_ Haccepted].
    apply Haccepted. reflexivity.
  - apply Hbad; discriminate.
Defined.

(** * Further properties of the module *)

(** ** Selection mappings *)

(** X1.  [ref]: a name resolves to [{selection: name}] exactly when the mapping
    holds it, and is refused with a [ValueError] that quotes it otherwise;
    without a name, a mapping of exactly one name answers for that name, and
    any other mapping refuses ['None']. *)
Theorem ref_resolves_names (cls : string) (args : list value) (kwds : dict) :
  let S := Node cls args kwds in
  (∀ n, n ∈ dom kwds →
        SelectionMapping.ref S (Some n) = Ok (PyDict {["selection" := PyStr n]}))
  ∧ (∀ n, n ∉ dom kwds →
          SelectionMapping.ref S (Some n)
          = Raise (ValueError ("'" +:+ n +:+
                     "' is not a valid selection name in this mapping")))
  ∧ (∀ n def, kwds = {[n := def]} →
              SelectionMapping.ref S None = SelectionMapping.ref S (Some n)
              ∧ SelectionMapping.ref S None
                = Ok (PyDict {["selection" := PyStr n]}))
  ∧ (size kwds ≠ 1 →
     SelectionMapping.ref S None
     = Raise (ValueError "'None' is not a valid selection name in this mapping")).
Proof.
  intros S. split_and!.
  - intros n Hn. unfold SelectionMapping.ref. simpl.
    by rewrite bool_decide_true.
  - intros n Hn. unfold SelectionMapping.ref. simpl.
    by rewrite bool_decide_false.
  - intros n def ->. unfold SelectionMapping.ref. simpl.
    rewrite map_size_singleton, map_to_list_singleton. simpl.
    rewrite bool_decide_true; [split; reflexivity|].
    rewrite dom_singleton_L. set_solver.
  - intros Hsize. unfold SelectionMapping.ref. simpl.
    by rewrite (bool_decide_false (size kwds = 1)).
Qed.

Lemma ref_resolves_names_witness :
  SelectionMapping.ref brush_and_click (Some "click")
  = Ok (PyDict {["selection" := PyStr "click"]})
  ∧ SelectionMapping.ref brush None
    = Ok (PyDict {["selection" := PyStr "brush"]})
  ∧ SelectionMapping.ref brush_and_click None
    = Raise (ValueError "'None' is not a valid selection name in this mapping").
Proof.
  split_and!.
  - apply (ref_resolves_names "SelectionMapping" []
             {["brush" := interval; "click" := interval]}).
    by_compute.
  - destruct (ref_resolves_names "SelectionMapping" [] {["brush" := interval]})
      as (_ & _ & Hone & _).
    apply (Hone "brush" interval eq_refl).
  - apply (ref_resolves_names "SelectionMapping" []
             {["brush" := interval; "click" := interval]}).
    vm_compute. discriminate.
Defined.

(** X2.  [+] and [+=] on selection mappings: the result holds the names of both,
    the right operand's definition where both hold a name; adding a mapping
    to itself changes nothing; an operand that is no selection mapping is
    refused; and the sum of two mappings with different names can no longer
    be negated. *)
Theorem add_unions_selections schema_accepts (a b : dict) :
  let A := Node "SelectionMapping" [] a in
  let B := Node "SelectionMapping" [] b in
  (∃ c, SelectionMapping.__add__ A B = Ok (Node "SelectionMapping" [] c)
        ∧ SelectionMapping.__iadd__ A B = Ok (Node "SelectionMapping" [] c)
        ∧ dom c = dom a ∪ dom b
        ∧ (∀ n def, b !! n = Some def → c !! n = Some def)
        ∧ (∀ n, b !! n = None → c !! n = a !! n))
  ∧ SelectionMapping.__add__ A A = Ok A
  ∧ (∀ other, isinstance other ["SelectionMapping"] = false →
              SelectionMapping.__add__ A other
              = Raise (TypeError "unsupported operand type(s) for +"))
  ∧ (∀ n m dn dm, a = {[n := dn]} → b = {[m := dm]} → n ≠ m →
       SelectionMapping.__add__ A B ≫= SelectionMapping.__invert__ schema_accepts
       = Raise (ValueError "Selection Mapping has more than one name")).
Proof.
  intros A B. split_and!.
  - exists (b ∪ a). split_and!; [done|done| | |].
    + by rewrite dom_union_L, (comm_L (∪)).
    + intros n def Hn. by apply lookup_union_Some_l.
    + intros n Hn. by rewrite lookup_union_r.
  - unfold SelectionMapping.__add__, A. simpl. unfold dict_update.
    by rewrite (idemp_L (∪)).
  - intros other Hother. unfold SelectionMapping.__add__. by rewrite Hother.
  - intros n m dn dm -> -> Hne. simpl.
    unfold SelectionMapping.__invert__.
    rewrite get_name_not_one; [done|]. simpl. unfold dict_update.
    rewrite <- insert_union_singleton_l.
    rewrite map_size_insert_None by by rewrite lookup_singleton_ne.
    by rewrite map_size_singleton.
Qed.

Lemma add_unions_selections_witness :
  SelectionMapping.__add__ brush click = Ok brush_and_click
  ∧ SelectionMapping.__add__ brush click
    ≫= SelectionMapping.__invert__ sample_schema
    = Raise (ValueError "Selection Mapping has more than one name")
  ∧ SelectionMapping.__add__ brush (PyStr "click")
    = Raise (TypeError "unsupported operand type(s) for +").
Proof.
  destruct (add_unions_selections sample_schema {["brush" := interval]}
              {["click" := interval]}) as (_ & _ & Hother & Hinvert).
  split_and!.
  - vm_compute. reflexivity.
  - apply (Hinvert "brush" "click" interval interval eq_refl eq_refl).
    discriminate.
  - apply Hother. reflexivity.
Defined.

(** ** Creating selections *)

Lemma concat_zeros (k : nat) :
  String.concat "" (replicate (S k) "0")
  = "0" +:+ String.concat "" (replicate k "0").
Proof. by destruct k. Qed.

Lemma decode_zero_pad (width : nat) (s : string) :
  Nat.of_uint <$> NilEmpty.uint_of_string (zero_pad width s)
  = Nat.of_uint <$> NilEmpty.uint_of_string s.
Proof.
  unfold zero_pad. induction (width - String.length s) as [|k IH]; [done|].
  rewrite concat_zeros. simpl.
  destruct (NilEmpty.uint_of_string _) as [u|]; [|done].
  simpl in *. by rewrite <- IH.
Qed.

Lemma decode_format_03d (n : nat) :
  Nat.of_uint <$> NilEmpty.uint_of_string (format_03d n) = Some n.
Proof.
  unfold format_03d. rewrite decode_zero_pad, NilEmpty.usu. simpl.
  by rewrite DecimalNat.Unsigned.of_to.
Qed.

Lemma selector_name_inj (a b : nat) :
  selector_name a = selector_name b → a = b.
Proof.
  unfold selector_name. simpl. intros [= Heq].
  change (format_03d a = format_03d b) in Heq.
  apply (f_equal (λ s, Nat.of_uint <$> NilEmpty.uint_of_string s)) in Heq.
  cbv beta in Heq. rewrite !decode_format_03d in Heq. by injection Heq.
Qed.

Lemma selection_builds_mapping schema_accepts (kwds : dict) (counter : nat)
    (name S : value) :
  (selection schema_accepts name kwds counter).1 = Ok S →
  ∃ n, (name = PyStr n ∨ name = PyNone ∧ n = selector_name counter)
       ∧ S = Node "SelectionMapping" [] {[n := Node "SelectionDef" [] kwds]}
       ∧ SelectionMapping._get_name S = Ok n
       ∧ SelectionMapping.ref S None = Ok (PyDict {["selection" := PyStr n]}).
Proof.
  intros HS.
  assert (∀ n,
    (def ← instantiate schema_accepts "SelectionDef" [] kwds;
     instantiate schema_accepts "SelectionMapping" [] {[n := def]}) = Ok S →
    S = Node "SelectionMapping" [] {[n := Node "SelectionDef" [] kwds]}
    ∧ SelectionMapping._get_name S = Ok n
    ∧ SelectionMapping.ref S None = Ok (PyDict {["selection" := PyStr n]}))
    as Hbuilt.
  { intros n Hn.
    destruct (instantiate schema_accepts "SelectionDef" [] kwds) as [def|e]
      eqn:Hdef; [|done].
    apply instantiate_inv in Hdef as ->. simpl in Hn.
    apply instantiate_inv in Hn as ->.
    split_and!; [done|apply get_name_singleton|].
    unfold SelectionMapping.ref. simpl.
    rewrite map_size_singleton, map_to_list_singleton. simpl.
    rewrite bool_decide_true; [done|]. rewrite dom_singleton_L. set_solver. }
  unfold selection in HS.
  destruct name; simpl in HS;
    try (destruct (instantiate schema_accepts "SelectionDef" [] kwds);
         discriminate).
  - exists (selector_name counter). split; [by right|]. by apply Hbuilt.
  - exists s. split; [by left|]. by apply Hbuilt.
Qed.

(** X3.  [selection]: different counter values give different automatic names;
    the counter advances by one exactly when no name is given; and whenever
    a selection is built it is a mapping of the one name (given or
    automatic) to the [SelectionDef] of the keywords, which [_get_name] and
    [ref] then answer for. *)
Theorem selection_names_are_fresh schema_accepts (kwds : dict) (counter : nat) :
  (∀ other, selector_name counter = selector_name other → counter = other)
  ∧ (selection schema_accepts PyNone kwds counter).2 = S counter
  ∧ (∀ name, name ≠ PyNone →
             (selection schema_accepts name kwds counter).2 = counter)
  ∧ (∀ name S,
       (selection schema_accepts name kwds counter).1 = Ok S →
       ∃ n, (name = PyStr n ∨ name = PyNone ∧ n = selector_name counter)
            ∧ S = Node "SelectionMapping" []
                    {[n := Node "SelectionDef" [] kwds]}
            ∧ SelectionMapping._get_name S = Ok n
            ∧ SelectionMapping.ref S None
              = Ok (PyDict {["selection" := PyStr n]})).
Proof.
  split_and!.
  - apply selector_name_inj.
  - done.
  - intros name Hname. by destruct name.
  - intros name S. apply selection_builds_mapping.
Qed.

Lemma selection_names_are_fresh_witness :
  (selection sample_schema PyNone {["type" := PyStr "interval"]} 1).2 = 2
  ∧ (selection sample_schema (PyStr "brush") {["type" := PyStr "interval"]} 1).2
    = 1
  ∧ ∃ n, SelectionMapping._get_name brush = Ok n.
Proof.
  destruct (selection_names_are_fresh sample_schema
              {["type" := PyStr "interval"]} 1) as (_ & Hnone & Hstr & Hbuilt).
  split_and!.
  - exact Hnone.
  - by apply Hstr.
  - destruct (Hbuilt (PyStr "brush") brush) as (n & _ & _ & Hname & _).
    + vm_compute. reflexivity.
    + by exists n.
Defined.

(** X4.  [selection_interval], [selection_multi] and [selection_single]: a
    [type] among the keyword arguments is refused with a [TypeError] and the
    counter is left alone; otherwise the definition built carries the
    function's own type, every other keyword as given, and no [name] entry
    (a [name] keyword names the selection instead). *)
Theorem typed_selections schema_accepts (kwargs : dict) (counter : nat) :
  let built type S :=
    ∃ n, S = Node "SelectionMapping" []
               {[n := Node "SelectionDef" []
                        (<["type" := PyStr type]> (delete "name" kwargs))]}
         ∧ (∀ given, kwargs !! "name" = Some (PyStr given) → n = given)
         ∧ (kwargs !! "name" = None → n = selector_name counter) in
  ("type" ∈ dom kwargs →
   let refused :=
     (Raise (TypeError
        "selection() got multiple values for keyword argument 'type'"),
      counter) in
   selection_interval schema_accepts kwargs counter = refused
   ∧ selection_multi schema_accepts kwargs counter = refused
   ∧ selection_single schema_accepts kwargs counter = refused)
  ∧ (∀ S, (selection_interval schema_accepts kwargs counter).1 = Ok S →
          built "interval" S)
  ∧ (∀ S, (selection_multi schema_accepts kwargs counter).1 = Ok S →
          built "multi" S)
  ∧ (∀ S, (selection_single schema_accepts kwargs counter).1 = Ok S →
          built "single" S).
Proof.
  intros built.
  assert (∀ type S,
    (selection_of_type schema_accepts type kwargs counter).1 = Ok S →
    built type S) as Hany.
  { intros type S. unfold selection_of_type. case_bool_decide; [done|].
    intros HS.
    destruct (selection_builds_mapping _ _ _ _ _ HS) as (n & Hn & -> & _).
    exists n.
    split_and!; [done| |].
    - intros given Hgiven. rewrite Hgiven in Hn. simpl in Hn.
      by destruct Hn as [[= ->]|[? _]].
    - intros Hnone. rewrite Hnone in Hn. simpl in Hn.
      by destruct Hn as [?|[_ ->]]. }
  split_and!; [|apply Hany..].
  intros Htype refused.
  unfold selection_interval, selection_multi, selection_single,
    selection_of_type.
  by rewrite bool_decide_true.
Qed.

Lemma typed_selections_witness :
  selection_single sample_schema {["type" := PyStr "multi"]} 1
  = (Raise (TypeError
       "selection() got multiple values for keyword argument 'type'"), 1)
  ∧ ∃ n, brush = Node "SelectionMapping" []
                   {[n := Node "SelectionDef" []
                            (<["type" := PyStr "interval"]>
                               (delete "name" {["name" := PyStr "brush"]}))]}.
Proof.
  split.
  - apply (typed_selections sample_schema {["type" := PyStr "multi"]} 1).
    by_compute.
  - destruct (typed_selections sample_schema {["name" := PyStr "brush"]} 1)
      as (_ & Hinterval & _).
    destruct (Hinterval brush) as (n & Hn & _).
    + vm_compute. reflexivity.
    + by exists n.
Defined.

(** ** Conditions *)

Lemma isinstance_app v classes more :
  isinstance v (classes ++ more) = isinstance v classes || isinstance v more.
Proof.
  destruct v; try done. simpl.
  apply eq_true_iff_eq. rewrite orb_true_iff, !bool_decide_eq_true.
  apply elem_of_app.
Qed.

(** X5.  [condition] examines the predicate first: a predicate that is no
    selection mapping, selection or test predicate, string or dictionary is
    refused with [NotImplementedError] naming its type, and a selection
    mapping that does not hold exactly one name with the [ValueError] of
    [_get_name], whatever the two branches and the keyword arguments are. *)
Theorem condition_refuses_predicate node_to_dict
    (predicate if_true if_false : value) (kwargs : dict) :
  (isinstance predicate
     (["SelectionMapping"] ++ selection_predicates ++ test_predicate_classes)
   = false →
   is_str predicate = false → is_dict predicate = false →
   condition node_to_dict predicate if_true if_false kwargs
   = Raise (NotImplementedError
              ("condition predicate of type " +:+ type_repr predicate)))
  ∧ (isinstance predicate ["SelectionMapping"] = true →
     size (_kwds predicate) ≠ 1 →
     condition node_to_dict predicate if_true if_false kwargs
     = Raise (ValueError "Selection Mapping has more than one name")).
Proof.
  split.
  - rewrite !isinstance_app, !orb_false_iff. intros (Hmap & Hsel & Htest) Hs Hd.
    unfold condition. rewrite Hmap, Hsel, Htest, Hs. simpl.
    by destruct predicate.
  - intros Hmap Hsize. unfold condition. rewrite Hmap.
    by rewrite get_name_not_one.
Qed.

Lemma condition_refuses_predicate_witness :
  condition sample_node_to_dict (PyInt 3) (PyStr "a") (PyStr "b") ∅
  = Raise (NotImplementedError "condition predicate of type <class 'int'>")
  ∧ condition sample_node_to_dict brush_and_click (PyStr "a") (PyStr "b") ∅
    = Raise (ValueError "Selection Mapping has more than one name").
Proof.
  split.
  - by apply (condition_refuses_predicate sample_node_to_dict (PyInt 3)).
  - apply (condition_refuses_predicate sample_node_to_dict brush_and_click);
      [reflexivity|]. vm_compute. discriminate.
Defined.

(** X6.  The keyword arguments of [condition] count only beside a string branch:
    with no string branch they are ignored; with two string branches every
    keyword argument is an entry of the result and also of the condition
    inside it. *)
Theorem condition_keyword_arguments node_to_dict
    (predicate if_true if_false : value) (kwargs : dict) :
  (is_str if_true = false → is_str if_false = false →
   condition node_to_dict predicate if_true if_false kwargs
   = condition node_to_dict predicate if_true if_false ∅)
  ∧ (∀ name def t f,
       predicate = Node "SelectionMapping" [] {[name := def]} →
       if_true = PyStr t → if_false = PyStr f →
       ∃ outer inner,
         condition node_to_dict predicate if_true if_false kwargs
         = Ok (PyDict outer)
         ∧ (kwargs !! "condition" = None →
            outer !! "condition" = Some (PyDict inner))
         ∧ (kwargs !! "selection" = None →
            inner !! "selection" = Some (PyStr name))
         ∧ (∀ k v, kwargs !! k = Some v →
                   outer !! k = Some v ∧ inner !! k = Some v)).
Proof.
  split.
  - intros Ht Hf. unfold condition.
    match goal with |- ?m ≫= _ = _ => destruct m as [c|e]; [|done] end.
    simpl. destruct if_true; try done; simpl;
      try (destruct (node_to_dict _) as [[]|]; simpl; try done);
      by destruct if_false.
  - intros name def t f -> -> ->. unfold condition.
    replace (isinstance (Node "SelectionMapping" [] {[name := def]})
               ["SelectionMapping"]) with true by done.
    rewrite get_name_singleton. simpl.
    eexists _, _. split; [reflexivity|]. unfold dict_update. split_and!.
    + intros Hnone. rewrite lookup_union_r by done.
      by rewrite lookup_insert_eq.
    + intros Hnone. rewrite lookup_union_r.
      * by rewrite lookup_singleton_eq.
      * apply lookup_union_None. split; [done|].
        by rewrite lookup_singleton_ne.
    + intros k v Hk. split.
      * by apply lookup_union_Some_l.
      * apply lookup_union_Some_l. by apply lookup_union_Some_l.
Qed.

Lemma condition_keyword_arguments_witness :
  condition sample_node_to_dict brush (PyDict {["field" := PyStr "a"]})
    (PyDict {["value" := PyStr "grey"]}) {["type" := PyStr "nominal"]}
  = condition sample_node_to_dict brush (PyDict {["field" := PyStr "a"]})
      (PyDict {["value" := PyStr "grey"]}) ∅.
Proof.
  by apply (condition_keyword_arguments sample_node_to_dict brush).
Defined.

(** X7.  What [condition] takes from each kind of predicate, for two mapping
    branches: a string or a test predicate node becomes the entry [test], a
    selection predicate node the entry [selection] (the node itself, not
    converted), and the entries of a dictionary are used as they are; each
    is then updated with the "true" branch and stored under [condition] in
    the "false" branch.  In particular the negation of a one-name selection
    mapping gives [{selection: SelectionNot(not: name)}]. *)
Theorem condition_predicate_kinds schema_accepts node_to_dict
    (d_true d_false kwargs : dict) :
  d_false !! "condition" = None →
  let result entry :=
    Ok (PyDict (<["condition" := PyDict (dict_update entry d_true)]> d_false)) in
  let cond p :=
    condition node_to_dict p (PyDict d_true) (PyDict d_false) kwargs in
  (∀ s, cond (PyStr s) = result {["test" := PyStr s]})
  ∧ (∀ cls args kwds, cls ∈ test_predicate_classes →
       cond (Node cls args kwds) = result {["test" := Node cls args kwds]})
  ∧ (∀ cls args kwds, cls ∈ selection_predicates →
       cond (Node cls args kwds) = result {["selection" := Node cls args kwds]})
  ∧ (∀ d, cond (PyDict d) = result d)
  ∧ (∀ name def,
       schema_accepts "SelectionNot" [] {["not" := PyStr name]} = true →
       SelectionMapping.__invert__ schema_accepts
         (Node "SelectionMapping" [] {[name := def]}) ≫= cond
       = result
           {["selection" := Node "SelectionNot" [] {["not" := PyStr name]}]}).
Proof.
  intros Hfree result cond.
  assert (bool_decide ("condition" ∈ dom d_false) = false) as Hdom.
  { apply bool_decide_eq_false. by rewrite elem_of_dom, Hfree; intros [? ?]. }
  assert (∀ cls args kwds, cls ∈ selection_predicates →
    cond (Node cls args kwds) = result {["selection" := Node cls args kwds]})
    as Hselection.
  { intros cls args kwds Hcls. unfold cond, condition, result. simpl.
    rewrite (bool_decide_true (cls ∈ selection_predicates)) by done.
    rewrite (bool_decide_false (cls ∈ ["SelectionMapping"])).
    - simpl. by rewrite Hdom.
    - intros ->%list_elem_of_singleton. revert Hcls. by_compute. }
  split_and!.
  - intros s. unfold cond, condition, result. simpl. by rewrite Hdom.
  - intros cls args kwds Hcls. unfold cond, condition, result. simpl.
    rewrite (bool_decide_true (cls ∈ test_predicate_classes)) by done.
    rewrite (bool_decide_false (cls ∈ ["SelectionMapping"])),
      (bool_decide_false (cls ∈ selection_predicates)).
    + simpl. by rewrite Hdom.
    + intros Hsel. unfold test_predicate_classes in Hcls.
      rewrite !elem_of_cons, elem_of_nil in Hcls.
      destruct Hcls as [->|[->|[->|[->|[->|[]]]]]]; revert Hsel; by_compute.
    + intros ->%list_elem_of_singleton. revert Hcls. by_compute.
  - exact Hselection.
  - intros d. unfold cond, condition, result. simpl. by rewrite Hdom.
  - intros name def Haccepted. unfold SelectionMapping.__invert__.
    rewrite get_name_singleton. simpl.
    rewrite (instantiate_accepted _ _ _ _ Haccepted). simpl.
    apply Hselection. by_compute.
Qed.

Lemma condition_predicate_kinds_witness :
  condition sample_node_to_dict (PyStr "datum.x > 3")
    (PyDict {["value" := PyStr "red"]}) (PyDict {["value" := PyStr "grey"]}) ∅
  = Ok (PyDict {["condition" := PyDict {["test" := PyStr "datum.x > 3";
                                        "value" := PyStr "red"]};
                "value" := PyStr "grey"]}).
Proof.
  assert (({["value" := PyStr "grey"]} : dict) !! "condition" = None)
    as Hfree by reflexivity.
  destruct (condition_predicate_kinds sample_schema sample_node_to_dict
              {["value" := PyStr "red"]} {["value" := PyStr "grey"]} ∅ Hfree)
    as (Hstr & _).
  rewrite (Hstr "datum.x > 3"). vm_compute. reflexivity.
Defined.

(** ** Encodings *)

Lemma channels_mapping_lookup (channels : list string) (cls : string) :
  Chart._get_channels_mapping channels !! cls
  = if bool_decide (cls ∈ channels)
    then Some (lower (str_replace "Value" "" cls)) else None.
Proof.
  unfold Chart._get_channels_mapping.
  induction channels as [|attr channels IH]; [done|].
  rewrite fmap_cons, list_to_map_cons.
  destruct (decide (attr = cls)) as [->|Hne].
  - rewrite lookup_insert_eq. rewrite bool_decide_true; [done|]. by left.
  - rewrite lookup_insert_ne by done. rewrite IH.
    apply (f_equal (λ b : bool,
             if b then Some (lower (str_replace "Value" "" cls)) else None)).
    apply eq_true_iff_eq. rewrite !bool_decide_eq_true, elem_of_cons.
    split; [by right|]. by intros [?|?].
Qed.

Lemma foldl_raise {A B : Type} (f : result A → B → result A) (l : list B)
    (e : exn) :
  (∀ e b, f (Raise e) b = Raise e) → foldl f (Raise e) l = Raise e.
Proof.
  intros Hf. induction l as [|b l IH]; [done|]. simpl. by rewrite Hf.
Qed.

(** X8.  Positional arguments of [encode]: an argument whose class is no channel
    class is refused with [NotImplementedError]; a channel node stands for
    the keyword named by its class (lower case, without [Value]), so it is
    refused with [ValueError] when that keyword is taken and otherwise the
    call is the one with the node passed under that keyword. *)
Theorem encode_positional schema_accepts channels parse_shorthand from_dict
    (self arg : value) (rest : list value) (kwargs : dict) :
  let encode := Chart.encode schema_accepts channels parse_shorthand from_dict in
  let encoding_of cls := lower (str_replace "Value" "" cls) in
  (isinstance arg channels = false →
   encode self (arg :: rest) kwargs
   = Raise (NotImplementedError ("non-keyword arg of type " +:+ type_repr arg)))
  ∧ (∀ cls args kwds, arg = Node cls args kwds → cls ∈ channels →
       (encoding_of cls ∈ dom kwargs →
        encode self (arg :: rest) kwargs
        = Raise (ValueError ("encode: encoding " +:+ encoding_of cls +:+
                             " specified twice")))
       ∧ (encoding_of cls ∉ dom kwargs →
          encode self (arg :: rest) kwargs
          = encode self rest (<[encoding_of cls := arg]> kwargs))).
Proof.
  intros encode encoding_of. split.
  - intros Harg. unfold encode, Chart.encode, Chart.args_to_kwargs. simpl.
    assert (match arg with
            | Node cls _ _ => Chart._get_channels_mapping channels !! cls
            | _ => None
            end = None) as ->.
    { destruct arg; try done. rewrite channels_mapping_lookup.
      simpl in Harg. by rewrite Harg. }
    by rewrite foldl_raise.
  - intros cls args kwds -> Hcls.
    unfold encode, Chart.encode, Chart.args_to_kwargs. simpl.
    rewrite channels_mapping_lookup, bool_decide_true by done.
    fold (encoding_of cls). split; intros Hdom.
    + rewrite (bool_decide_true (_ ∈ dom kwargs)) by done.
      by rewrite foldl_raise.
    + by rewrite (bool_decide_false (_ ∈ dom kwargs)) by done.
Qed.

Lemma encode_positional_witness :
  let encode :=
    Chart.encode sample_schema sample_channels sample_parse_shorthand
      lenient_from_dict in
  let x := Node "X" [] {["field" := PyStr "a"]} in
  let x_value := Node "XValue" [] {["value" := PyInt 3]} in
  encode plain_chart [brush] ∅
  = Raise (NotImplementedError
             "non-keyword arg of type <class 'SelectionMapping'>")
  ∧ encode plain_chart [x] {["x" := PyStr "b"]}
    = Raise (ValueError "encode: encoding x specified twice")
  ∧ encode plain_chart [x] ∅ = encode plain_chart [] {["x" := x]}.
Proof.
  intros encode x x_value. split_and!.
  - by apply (encode_positional sample_schema sample_channels
                sample_parse_shorthand lenient_from_dict plain_chart brush []).
  - destruct (encode_positional sample_schema sample_channels
                sample_parse_shorthand lenient_from_dict plain_chart x []
                {["x" := PyStr "b"]}) as [_ Hnode].
    apply (Hnode "X" [] {["field" := PyStr "a"]} eq_refl); by_compute.
  - destruct (encode_positional sample_schema sample_channels
                sample_parse_shorthand lenient_from_dict plain_chart x [] ∅)
      as [_ Hnode].
    apply (Hnode "X" [] {["field" := PyStr "a"]} eq_refl); by_compute.
Defined.

(** X9.  A schema node given to [encode] is never checked against the channel
    name: [_wrap_in_channel_class] returns it as it is for every keyword, so
    a node without a [condition] entry is stored under the keyword even when
    the [channels] module has no class of that name; a [condition] entry of
    the node is wrapped for the keyword and stored back into the node. *)
Theorem encode_keeps_nodes schema_accepts channels parse_shorthand from_dict
    (prop cls : string) (args : list value) (kwds : dict) :
  let node := Node cls args kwds in
  let wrap := Chart._wrap_in_channel_class channels parse_shorthand from_dict in
  let wrap_item := Chart.wrap_item channels parse_shorthand from_dict in
  wrap node prop = Ok node
  ∧ (default Undefined (kwds !! "condition") = Undefined →
     wrap_item prop node = Ok node
     ∧ ∀ self,
         Chart.encode schema_accepts channels parse_shorthand from_dict self []
           {[prop := node]}
         = encoding ← previous_encoding self;
           Ok (setattr self "encoding"
                 (Node "EncodingWithFacet" []
                    (dict_update encoding {[prop := node]}))))
  ∧ (∀ c, kwds !! "condition" = Some c → c ≠ Undefined →
          wrap_item prop node
          = c' ← wrap c prop; Ok (Node cls args (<["condition" := c']> kwds))).
Proof.
  intros node wrap wrap_item. split_and!; [done| |].
  - intros Hcond.
    assert (wrap_item prop node = Ok node) as Hitem.
    { unfold wrap_item, Chart.wrap_item. simpl.
      destruct (kwds !! "condition") as [c|]; [|done].
      simpl in Hcond. by subst c. }
    split; [done|]. intros self. rewrite encode_single_keyword.
    fold wrap_item. by rewrite Hitem.
  - intros c Hc Hdefined. unfold wrap_item, Chart.wrap_item. simpl.
    rewrite Hc. unfold wrap.
    destruct c; try done; simpl;
      by destruct (Chart._wrap_in_channel_class channels parse_shorthand
                     from_dict _ prop).
Qed.

Lemma encode_keeps_nodes_witness :
  Chart.encode sample_schema sample_channels sample_parse_shorthand
    lenient_from_dict plain_chart []
    {["nonsense" := Node "X" [] {["field" := PyStr "a"]}]}
  = Ok (setattr plain_chart "encoding"
          (Node "EncodingWithFacet" []
             {["nonsense" := Node "X" [] {["field" := PyStr "a"]}]})).
Proof.
  destruct (encode_keeps_nodes sample_schema sample_channels
              sample_parse_shorthand lenient_from_dict "nonsense" "X" []
              {["field" := PyStr "a"]}) as (_ & Hplain & _).
  destruct (Hplain eq_refl) as [_ Hencode].
  rewrite Hencode. vm_compute. reflexivity.
Defined.

Lemma mapM_items_inv (g : string → value → result value)
    (l l' : list (string * value)) :
  mapM (λ item, w ← g item.1 item.2; Ok (item.1, w)) l = Ok l' →
  Forall2 (λ item item', item'.1 = item.1 ∧ g item.1 item.2 = Ok item'.2) l l'.
Proof.
  revert l'. induction l as [|[k v] l IH]; intros l'; simpl.
  - intros [= <-]. constructor.
  - destruct (g k v) as [w|e] eqn:Hg; simpl; [|done].
    destruct (mapM _ l) as [rest|e]; simpl; [|done].
    intros [= <-]. constructor; [done|]. by apply IH.
Qed.

Lemma mapM_items_raise (g : string → value → result value)
    (l : list (string * value)) (k : string) (v : value) (e : exn) :
  (k, v) ∈ l → g k v = Raise e →
  ∃ e', mapM (λ item, w ← g item.1 item.2; Ok (item.1, w)) l = Raise e'.
Proof.
  intros Hin Hg. induction l as [|[k' v'] l IH]; [by apply elem_of_nil in Hin|].
  simpl. destruct (g k' v') as [w|e'] eqn:Hg'; simpl; [|by eexists].
  apply elem_of_cons in Hin as [[= <- <-]|Hin]; [congruence|].
  destruct (IH Hin) as [e' ->]. by eexists.
Qed.

Lemma wrapped_keys (g : string → value → result value)
    (l l' : list (string * value)) :
  Forall2 (λ item item', item'.1 = item.1 ∧ g item.1 item.2 = Ok item'.2) l l' →
  l'.*1 = l.*1.
Proof.
  induction 1 as [|? ? ? ? [Hk _] _ IH]; [done|].
  by rewrite !fmap_cons, Hk, IH.
Qed.

Lemma wrapped_lookup (g : string → value → result value)
    (l l' : list (string * value)) (k : string) (field : value) :
  Forall2 (λ item item', item'.1 = item.1 ∧ g item.1 item.2 = Ok item'.2) l l' →
  NoDup l.*1 → (k, field) ∈ l →
  ∃ w, g k field = Ok w ∧ (list_to_map l' : dict) !! k = Some w.
Proof.
  induction 1 as [|[k1 v1] [k2 w] l l' [Hk1 Hw] Hrest IH]; intros Hnodup Hk.
  - by apply elem_of_nil in Hk.
  - simpl in Hk1, Hw. subst k2.
    apply NoDup_cons in Hnodup as [Hfresh Hnodup].
    apply elem_of_cons in Hk as [[= <- <-]|Hk].
    + exists w. split; [done|]. simpl. by rewrite lookup_insert_eq.
    + destruct (IH Hnodup Hk) as (w' & Hw' & Hlookup).
      exists w'. split; [done|]. simpl.
      rewrite lookup_insert_ne; [done|]. intros <-.
      apply Hfresh, list_elem_of_fmap. by exists (k1, field).
Qed.

Lemma mapM_items_ok (g : string → value → result value)
    (l : list (string * value)) :
  (∀ k v, (k, v) ∈ l → ∃ w, g k v = Ok w) →
  ∃ l', mapM (λ item, w ← g item.1 item.2; Ok (item.1, w)) l = Ok l'.
Proof.
  induction l as [|[k v] l IH]; intros Hall; [by eexists|].
  destruct (Hall k v) as [w Hw]; [by left|].
  destruct IH as [l' Hl']; [intros k' v' Hin; apply Hall; by right|].
  simpl. rewrite Hw. simpl. rewrite Hl'. by eexists.
Qed.

Lemma encode_ok_inv schema_accepts channels parse_shorthand from_dict
    (self : value) (kwargs : dict) (r : value) :
  Chart.encode schema_accepts channels parse_shorthand from_dict self [] kwargs
  = Ok r →
  ∃ prev enc,
    previous_encoding self = Ok prev
    ∧ r = setattr self "encoding" (Node "EncodingWithFacet" [] enc)
    ∧ (∀ k, kwargs !! k = None → enc !! k = prev !! k)
    ∧ (∀ k field, kwargs !! k = Some field →
         ∃ w, Chart.wrap_item channels parse_shorthand from_dict k field = Ok w
              ∧ enc !! k = Some w).
Proof.
  set (wrap_item := Chart.wrap_item channels parse_shorthand from_dict).
  unfold Chart.encode, Chart.args_to_kwargs. simpl.
  fold wrap_item. fold (previous_encoding self).
  destruct (mapM _ (map_to_list kwargs)) as [wrapped|e] eqn:Hwrapped;
    simpl; [|done].
  apply mapM_items_inv in Hwrapped.
  destruct (previous_encoding self) as [prev|e]; simpl; [|done].
  intros [= <-].
  assert (wrapped.*1 = (map_to_list kwargs).*1) as Hkeys
    by apply (wrapped_keys _ _ _ Hwrapped).
  exists prev, (dict_update prev (list_to_map wrapped)).
  unfold dict_update. split_and!; [done|done| |].
  - intros k Hk. rewrite lookup_union_r; [done|].
    apply not_elem_of_list_to_map_1. rewrite Hkeys.
    intros ((k' & v) & -> & Hin%elem_of_map_to_list)%list_elem_of_fmap.
    simpl in Hk. congruence.
  - intros k field Hk%elem_of_map_to_list.
    destruct (wrapped_lookup _ _ _ _ _ Hwrapped (NoDup_fst_map_to_list _) Hk)
      as (w & Hw & Hlookup).
    exists w. split; [done|]. by apply lookup_union_Some_l.
Qed.

Lemma encode_ok_intro schema_accepts channels parse_shorthand from_dict
    (self : value) (kwargs prev : dict) :
  previous_encoding self = Ok prev →
  (∀ k field, kwargs !! k = Some field →
     ∃ w, Chart.wrap_item channels parse_shorthand from_dict k field = Ok w) →
  ∃ r, Chart.encode schema_accepts channels parse_shorthand from_dict self []
         kwargs = Ok r.
Proof.
  intros Hprev Hall.
  destruct (mapM_items_ok
              (Chart.wrap_item channels parse_shorthand from_dict)
              (map_to_list kwargs)) as [wrapped Hwrapped].
  { intros k v Hin%elem_of_map_to_list. by apply Hall. }
  unfold Chart.encode, Chart.args_to_kwargs. simpl.
  rewrite Hwrapped. simpl. fold (previous_encoding self). rewrite Hprev.
  by eexists.
Qed.

(** X10.  What [encode] does to a chart, for keyword arguments: when it returns,
    the result is the chart with only its [encoding] replaced, and the new
    encoding holds exactly the previous entries and the keywords, each
    keyword with its wrapped value and each other entry as it was; when some
    keyword's value cannot be wrapped, [encode] raises. *)
Theorem encode_updates_encoding schema_accepts channels parse_shorthand
    from_dict (self : value) (kwargs : dict) :
  let encode := Chart.encode schema_accepts channels parse_shorthand from_dict in
  let wrap_item := Chart.wrap_item channels parse_shorthand from_dict in
  (∀ r, encode self [] kwargs = Ok r →
     ∃ prev enc,
       previous_encoding self = Ok prev
       ∧ r = setattr self "encoding" (Node "EncodingWithFacet" [] enc)
       ∧ dom enc = dom prev ∪ dom kwargs
       ∧ (∀ k, kwargs !! k = None → enc !! k = prev !! k)
       ∧ (∀ k field, kwargs !! k = Some field →
                     ∃ w, wrap_item k field = Ok w ∧ enc !! k = Some w)
       ∧ (∀ attr, attr ≠ "encoding" → getattr r attr = getattr self attr))
  ∧ (∀ k field e, kwargs !! k = Some field → wrap_item k field = Raise e →
                  ∃ e', encode self [] kwargs = Raise e').
Proof.
  intros encode wrap_item. split.
  - intros r Hr.
    destruct (encode_ok_inv _ _ _ _ _ _ _ Hr)
      as (prev & enc & Hprev & -> & Hnone & Hsome).
    exists prev, enc. split_and!; [done|done| |done|done|].
    + apply set_eq. intros k. rewrite elem_of_union, !elem_of_dom.
      destruct (kwargs !! k) as [field|] eqn:Hk.
      * destruct (Hsome _ _ Hk) as (w & _ & ->).
        split; [right|]; by eexists.
      * rewrite (Hnone _ Hk). split; [by left|]. by intros [?|[? ?]].
    + intros attr Hattr. unfold getattr.
      destruct self; try done. simpl. by rewrite lookup_insert_ne.
  - intros k field e Hk%elem_of_map_to_list Hwrap.
    unfold encode, Chart.encode, Chart.args_to_kwargs. simpl.
    destruct (mapM_items_raise wrap_item _ _ _ _ Hk Hwrap) as [e' He'].
    fold wrap_item. rewrite He'. by eexists.
Qed.

Lemma encode_updates_encoding_witness :
  let encode :=
    Chart.encode sample_schema sample_channels sample_parse_shorthand
      lenient_from_dict in
  (∀ r, encode plain_chart [] {["x" := PyStr "a:Q"]} = Ok r →
        getattr r "mark" = PyStr "line")
  ∧ ∃ e, encode plain_chart [] {["x" := PyStr "a:Q"; "colour" := PyStr "b"]}
         = Raise e.
Proof.
  intros encode. split.
  - intros r Hr.
    destruct (encode_updates_encoding sample_schema sample_channels
                sample_parse_shorthand lenient_from_dict plain_chart
                {["x" := PyStr "a:Q"]}) as [Hok _].
    destruct (Hok r Hr) as (prev & enc & _ & _ & _ & _ & _ & Hrest).
    by rewrite Hrest.
  - destruct (encode_updates_encoding sample_schema sample_channels
                sample_parse_shorthand lenient_from_dict plain_chart
                {["x" := PyStr "a:Q"; "colour" := PyStr "b"]}) as [_ Hraise].
    apply (Hraise "colour" (PyStr "b")
             (ValueError "Unrecognized encoding channel 'colour'"));
      reflexivity.
Defined.

(** X11.  [value], [condition] and [encode] together, as in
    [encode(color=condition(brush, "Origin:N", value("grey")))]: the
    condition [{selection: name, field: s}] is expanded by the shorthand of
    [s] and built by the channel class of the keyword, and the mapping
    around it, which holds [value], by the value class of the keyword; each
    stays a plain mapping when its class fails validation. *)
Theorem encode_wraps_conditions channels parse_shorthand from_dict node_to_dict
    (prop name s : string) (def v : value) (shorthand : dict) :
  parse_shorthand (PyStr s) = Ok shorthand →
  "value" ∉ dom shorthand →
  title prop ∈ channels → title prop +:+ "Value" ∈ channels →
  let S := Node "SelectionMapping" [] {[name := def]} in
  let inner :=
    dict_update {["selection" := PyStr name; "field" := PyStr s]} shorthand in
  (field ← value_ v ∅;
   c ← condition node_to_dict S (PyStr s) field ∅;
   Chart.wrap_item channels parse_shorthand from_dict prop c)
  = c ← except_ValidationError (from_dict (title prop) inner)
                               (Ok (PyDict inner));
    let outer : dict := {["condition" := c; "value" := v]} in
    except_ValidationError (from_dict (title prop +:+ "Value") outer)
                           (Ok (PyDict outer)).
Proof.
  intros Hshorthand Hvalue Hcls Hvalcls S inner.
  unfold value_. rewrite bool_decide_false by set_solver. simpl.
  unfold S. rewrite (condition_of_selection _ _ _ (PyStr s) {["field" := PyStr s]})
    by constructor.
  simpl. rewrite bool_decide_false.
  2: { rewrite insert_empty, dom_singleton_L. set_solver. }
  simpl. unfold Chart.wrap_item. simpl.
  rewrite lookup_insert_eq. simpl.
  assert (dict_update {["selection" := PyStr name]} {["field" := PyStr s]}
          = ({["selection" := PyStr name; "field" := PyStr s]} : dict)) as ->.
  { unfold dict_update. rewrite <- insert_union_singleton_l.
    by apply insert_insert_ne. }
  rewrite (wrap_mapping _ _ _ _ inner).
  2: { unfold expansion. rewrite lookup_insert_ne by done.
       rewrite lookup_singleton_eq. by exists shorthand. }
  cbv zeta. rewrite (bool_decide_false ("value" ∈ dom inner)).
  2: { apply not_elem_of_dom. unfold inner, dict_update.
       apply lookup_union_None. split; [by apply not_elem_of_dom|].
       rewrite lookup_insert_ne by done. by rewrite lookup_singleton_ne. }
  rewrite (bool_decide_true (title prop ∈ channels)) by done.
  destruct (except_ValidationError _ _) as [c|e]; simpl; [|done].
  rewrite insert_insert_eq.
  rewrite (wrap_mapping _ _ _ _ {["condition" := c; "value" := v]}).
  2: { unfold expansion. rewrite lookup_insert_ne by done.
       rewrite lookup_insert_ne by done. by rewrite lookup_empty. }
  cbv zeta. rewrite (bool_decide_true ("value" ∈ dom _)).
  2: { rewrite !dom_insert_L. set_solver. }
  by rewrite (bool_decide_true (_ ∈ channels)) by done.
Qed.

Lemma encode_wraps_conditions_witness :
  (field ← value_ (PyStr "grey") ∅;
   c ← condition sample_node_to_dict brush (PyStr "Origin:N") field ∅;
   Chart.wrap_item sample_channels sample_parse_shorthand lenient_from_dict
     "color" c)
  = Ok (Node "ColorValue" []
          {["condition" :=
              Node "Color" [] {["selection" := PyStr "brush";
                                "field" := PyStr "Origin";
                                "type" := PyStr "nominal"]};
            "value" := PyStr "grey"]}).
Proof.
  unfold brush.
  rewrite (encode_wraps_conditions sample_channels sample_parse_shorthand
             lenient_from_dict sample_node_to_dict "color" "brush" "Origin:N"
             interval (PyStr "grey")
             {["field" := PyStr "Origin"; "type" := PyStr "nominal"]}).
  - vm_compute. reflexivity.
  - vm_compute. reflexivity.
  - by_compute.
  - by_compute.
  - by_compute.
Defined.

(** ** Properties, transforms and resolutions of a chart *)

Lemma properties_node (cls : string) (args : list value) (kwds kwargs : dict) :
  Mixin.properties (Node cls args kwds) kwargs = Node cls args (kwargs ∪ kwds).
Proof.
  unfold Mixin.properties.
  apply (map_fold_weak_ind
           (λ r (m : dict), r = Node cls args (m ∪ kwds))).
  - by rewrite (left_id_L ∅ (∪)).
  - intros key val m r _ ->. simpl. by rewrite insert_union_l.
Qed.

(** X12.  [properties] on a chart: every keyword becomes the attribute of that
    name, every other attribute stays as it is, and setting properties twice
    is setting them once with the later call's keywords first. *)
Theorem properties_sets_attributes (cls : string) (args : list value)
    (kwds kwargs more : dict) :
  let self := Node cls args kwds in
  (∀ k v, kwargs !! k = Some v → getattr (Mixin.properties self kwargs) k = v)
  ∧ (∀ k, kwargs !! k = None →
          getattr (Mixin.properties self kwargs) k = getattr self k)
  ∧ Mixin.properties (Mixin.properties self kwargs) more
    = Mixin.properties self (more ∪ kwargs)
  ∧ Mixin.properties self ∅ = self.
Proof.
  intros self. unfold self. rewrite !properties_node. split_and!.
  - intros k v Hk. unfold getattr. simpl.
    by rewrite (lookup_union_Some_l _ _ _ _ Hk).
  - intros k Hk. unfold getattr. simpl. by rewrite lookup_union_r.
  - by rewrite (assoc_L (∪)).
  - by rewrite (left_id_L ∅ (∪)).
Qed.

Lemma properties_sets_attributes_witness :
  getattr (Mixin.properties plain_chart {["width" := PyInt 300]}) "width"
  = PyInt 300
  ∧ getattr (Mixin.properties plain_chart {["width" := PyInt 300]}) "mark"
    = PyStr "line".
Proof.
  destruct (properties_sets_attributes "Chart" []
              {["mark" := PyStr "line"; "config" := Undefined]}
              {["width" := PyInt 300]} ∅) as (Hset & Hkept & _).
  unfold plain_chart. split.
  - by apply Hset.
  - by rewrite (Hkept "mark").
Defined.

Lemma add_transform_app (self : value) (first second : list value) :
  (Mixin._add_transform self first ≫= λ copy, Mixin._add_transform copy second)
  = Mixin._add_transform self (first ++ second).
Proof.
  unfold Mixin._add_transform.
  destruct self as [| | | | | | |cls args kwds|]; try done.
  unfold getattr. simpl.
  destruct (kwds !! "transform") as [[]|] eqn:Hold; simpl; try done;
    rewrite lookup_insert_eq; simpl; rewrite insert_insert_eq; try done.
  by rewrite (assoc_L (++)).
Qed.

(** X13.  [_add_transform]: adding transforms in two calls is adding them all in
    one call, in the order given; the attributes other than [transform] are
    those of the chart; and on a chart whose [transform] is unset even a
    call with no transform leaves the empty list there. *)
Theorem add_transform_composes (self : value) (first second : list value) :
  (Mixin._add_transform self first ≫= λ copy, Mixin._add_transform copy second)
  = Mixin._add_transform self (first ++ second)
  ∧ (∀ r attr, Mixin._add_transform self first = Ok r → attr ≠ "transform" →
               getattr r attr = getattr self attr)
  ∧ (∀ r old, Mixin._add_transform self first = Ok r →
              is_SchemaBase self = true →
              getattr self "transform" = PyList old →
              getattr r "transform" = PyList (old ++ first))
  ∧ (∀ r, Mixin._add_transform self [] = Ok r →
          is_SchemaBase self = true →
          getattr self "transform" = Undefined →
          getattr r "transform" = PyList []).
Proof.
  split_and!.
  - apply add_transform_app.
  - intros r attr Hr Hattr. unfold Mixin._add_transform in Hr.
    destruct (getattr self "transform"); try done;
      injection Hr as <-; destruct self; try done;
      unfold getattr; simpl; by rewrite lookup_insert_ne.
  - intros r old Hr Hnode Hold. unfold Mixin._add_transform in Hr.
    rewrite Hold in Hr. injection Hr as <-.
    destruct self; try done. unfold getattr. simpl.
    by rewrite lookup_insert_eq.
  - intros r Hr Hnode Hold. unfold Mixin._add_transform in Hr.
    rewrite Hold in Hr. injection Hr as <-.
    destruct self; try done. unfold getattr. simpl.
    by rewrite lookup_insert_eq.
Qed.

Lemma add_transform_composes_witness :
  getattr (setattr plain_chart "transform" (PyList [PyStr "t"])) "mark"
  = getattr plain_chart "mark"
  ∧ (Mixin._add_transform plain_chart [PyStr "t"]
     ≫= λ copy, Mixin._add_transform copy [PyStr "u"])
    = Mixin._add_transform plain_chart [PyStr "t"; PyStr "u"].
Proof.
  destruct (add_transform_composes plain_chart [PyStr "t"] [PyStr "u"])
    as (Hcompose & Hkept & _).
  split; [|exact Hcompose].
  apply (Hkept _ "mark"); [reflexivity|discriminate].
Defined.

Lemma bind_positional_ok (names : list string) (args : list value)
    (kwargs : dict) :
  length args ≤ length names →
  (∀ name, name ∈ take (length args) names → name ∉ dom kwargs) →
  bind_positional names args kwargs
  = Ok (list_to_map (zip names args) ∪ kwargs).
Proof.
  revert names. induction args as [|arg args IH]; intros names Hlen Hfree.
  - destruct names; simpl; by rewrite (left_id_L ∅ (∪)).
  - destruct names as [|name names]; simpl in *; [lia|].
    rewrite bool_decide_false by (apply Hfree; by left).
    rewrite IH by (try lia; intros n Hn; apply Hfree; by right).
    simpl. by rewrite insert_union_l.
Qed.

Lemma call_transform_passable schema_accepts parameters (self : value)
    (call : transform_call) :
  passable call = true →
  call_transform schema_accepts parameters self call
  = t ← Mixin.construct schema_accepts parameters (transform_class call)
          (transform_arguments call).1 (transform_arguments call).2;
    Mixin._add_transform self [t].
Proof.
  destruct call; simpl; try done.
  - unfold Mixin.transform_calculate.
    intros [Has Hcalculate]%andb_true_iff.
    apply negb_true_iff in Has, Hcalculate. by rewrite Has, Hcalculate.
  - unfold Mixin.transform_filter. intros Hfilter%negb_true_iff.
    by rewrite Hfilter.
Qed.

(** X14.  The six [transform_...] methods: each builds one node of its class
    from its arguments and appends it to the chart's transforms, so two
    calls in a row, of any two of them, leave both nodes in call order after
    the transforms the chart had; when the node cannot be built, the method
    raises that error; a keyword that repeats a parameter of the method
    itself is a [TypeError].  Positional arguments are bound to the declared
    properties of the class in order, and [transform_calculate] stores its
    own [as] over a keyword of that name. *)
Theorem transforms_accumulate schema_accepts parameters (self : value)
    (first second : transform_call) :
  let node call :=
    Mixin.construct schema_accepts parameters (transform_class call)
      (transform_arguments call).1 (transform_arguments call).2 in
  let run := call_transform schema_accepts parameters in
  (passable first = true → passable second = true →
   ∀ t1 t2, node first = Ok t1 → node second = Ok t2 →
     (run self first ≫= λ copy, run copy second)
     = Mixin._add_transform self [t1; t2])
  ∧ (passable first = true →
     ∀ e, node first = Raise e → run self first = Raise e)
  ∧ (passable first = false → ∃ message, run self first = Raise (TypeError message))
  ∧ (∀ args kwargs,
       transform_arguments first = (args, kwargs) →
       let names := parameters (transform_class first) in
       let kwds := list_to_map (zip names args) ∪ kwargs in
       length args ≤ length names →
       (∀ name, name ∈ take (length args) names → name ∉ dom kwargs) →
       schema_accepts (transform_class first) [] kwds = true →
       node first = Ok (Node (transform_class first) [] kwds))
  ∧ (∀ as_ calculate kwargs,
       Mixin.transform_calculate schema_accepts parameters self as_ calculate
         kwargs
       = Mixin.transform_calculate schema_accepts parameters self as_ calculate
           (delete "as" kwargs)).
Proof.
  intros node run. split_and!.
  - intros Hfirst Hsecond t1 t2 Ht1 Ht2. unfold run.
    rewrite (call_transform_passable _ _ _ _ Hfirst). fold (node first).
    rewrite Ht1. simpl.
    change [t1; t2] with ([t1] ++ [t2]).
    rewrite <- (add_transform_app self [t1] [t2]).
    destruct (Mixin._add_transform self [t1]) as [copy|e]; simpl; [|done].
    rewrite (call_transform_passable _ _ _ _ Hsecond). fold (node second).
    by rewrite Ht2.
  - intros Hfirst e He. unfold run.
    rewrite (call_transform_passable _ _ _ _ Hfirst). fold (node first).
    by rewrite He.
  - unfold run. destruct first; simpl; try done.
    + unfold Mixin.transform_calculate.
      intros Hrepeated%andb_false_iff.
      destruct (bool_decide ("as_" ∈ dom kwargs)),
        (bool_decide ("calculate" ∈ dom kwargs)); simpl in *;
        try (by eexists); by destruct Hrepeated.
    + unfold Mixin.transform_filter. intros Hrepeated%negb_false_iff.
      rewrite Hrepeated. by eexists.
  - intros args kwargs Harguments names kwds Hlength Hfree Haccepted.
    unfold node, Mixin.construct. rewrite Harguments. simpl.
    fold names. rewrite bind_positional_ok by done. simpl. fold kwds.
    by apply instantiate_accepted.
  - intros as_ calculate kwargs. unfold Mixin.transform_calculate.
    rewrite dom_delete_L.
    assert (bool_decide ("as_" ∈ dom kwargs ∖ {["as"]})
            = bool_decide ("as_" ∈ dom kwargs)) as ->.
    { apply bool_decide_ext. rewrite elem_of_difference, elem_of_singleton.
      split; [by intros [? _]|]. by intros ?. }
    assert (bool_decide ("calculate" ∈ dom kwargs ∖ {["as"]})
            = bool_decide ("calculate" ∈ dom kwargs)) as ->.
    { apply bool_decide_ext. rewrite elem_of_difference, elem_of_singleton.
      split; [by intros [? _]|]. by intros ?. }
    by rewrite insert_delete_eq.
Qed.

Lemma transforms_accumulate_witness :
  let run := call_transform sample_schema sample_parameters in
  let mean := PyList [PyDict {["op" := PyStr "mean"; "field" := PyStr "x";
                               "as" := PyStr "m"]}] in
  (run plain_chart (CallAggregate [mean; PyList [PyStr "g"]] ∅)
   ≫= λ copy, run copy (CallFilter (PyStr "datum.m > 3") ∅))
  = Ok (setattr plain_chart "transform"
          (PyList [Node "AggregateTransform" []
                     {["aggregate" := mean; "groupby" := PyList [PyStr "g"]]};
                   Node "FilterTransform" []
                     {["filter" := PyStr "datum.m > 3"]}])).
Proof.
  intros run mean.
  destruct (transforms_accumulate sample_schema sample_parameters plain_chart
              (CallAggregate [mean; PyList [PyStr "g"]] ∅)
              (CallFilter (PyStr "datum.m > 3") ∅)) as [Hboth _].
  unfold run.
  rewrite (Hboth eq_refl eq_refl
             (Node "AggregateTransform" []
                {["aggregate" := mean; "groupby" := PyList [PyStr "g"]]})
             (Node "FilterTransform" [] {["filter" := PyStr "datum.m > 3"]})).
  - vm_compute. reflexivity.
  - vm_compute. reflexivity.
  - vm_compute. reflexivity.
Defined.

Lemma construct_keywords schema_accepts parameters (cls : string)
    (kwargs : dict) :
  Mixin.construct schema_accepts parameters cls [] kwargs
  = instantiate schema_accepts cls [] kwargs.
Proof. unfold Mixin.construct. by destruct (parameters cls). Qed.

Lemma set_items_node (cls : string) (args : list value) (kwds kwargs : dict) :
  map_fold (λ key val acc, resolve ← acc; setitem resolve key val)
           (Ok (Node cls args kwds)) kwargs
  = Ok (Node cls args (kwargs ∪ kwds)).
Proof.
  apply (map_fold_weak_ind
           (λ r (m : dict), r = Ok (Node cls args (m ∪ kwds)))).
  - by rewrite (left_id_L ∅ (∪)).
  - intros key val m r _ ->. simpl. by rewrite insert_union_l.
Qed.

Lemma set_resolve_node schema_accepts parameters (cls rcls : string)
    (args rargs : list value) (kwds rkwds kwargs : dict) :
  kwds !! "resolve" = Some (Node rcls rargs rkwds) →
  Mixin._set_resolve schema_accepts parameters (Node cls args kwds) kwargs
  = Ok (Node cls args (<["resolve" := Node rcls rargs (kwargs ∪ rkwds)]> kwds)).
Proof.
  intros Hresolve. unfold Mixin._set_resolve, Mixin.attribute, getattr.
  rewrite Hresolve. simpl. rewrite Hresolve. simpl.
  by rewrite set_items_node.
Qed.

Lemma set_resolve_unset schema_accepts parameters (cls : string)
    (args : list value) (kwds kwargs : dict) :
  Mixin.attribute parameters (Node cls args kwds) "resolve" = Ok Undefined →
  schema_accepts "Resolve" [] ∅ = true →
  Mixin._set_resolve schema_accepts parameters (Node cls args kwds) kwargs
  = Ok (Node cls args (<["resolve" := Node "Resolve" [] kwargs]> kwds)).
Proof.
  intros Hunset Haccepted. unfold Mixin._set_resolve. rewrite Hunset. simpl.
  rewrite construct_keywords, (instantiate_accepted _ _ _ _ Haccepted). simpl.
  unfold getattr. simpl. rewrite lookup_insert_eq. simpl.
  rewrite set_items_node. simpl.
  by rewrite insert_insert_eq, (right_id_L ∅ (∪)).
Qed.

(** X15.  The [resolve_...] methods read [copy.resolve] by plain attribute
    access: on a chart whose class does not declare [resolve] (the unit
    chart) they raise [AttributeError].  On a chart that has [resolve]
    unset, the first call creates the [Resolve] node and later calls store
    into the chart's own node, so calls for different properties accumulate
    and a second call for the same property replaces the first;
    [_set_resolve] with no keyword still creates the empty [Resolve] node,
    and raises [TypeError] when the chart's [resolve] takes no item
    assignment.  A positional argument is the first declared property of
    the map that is built. *)
Theorem resolve_accumulates schema_accepts parameters (cls : string)
    (args : list value) (kwds : dict) :
  let self := Node cls args kwds in
  let construct := Mixin.construct schema_accepts parameters in
  let resolve_axis := Mixin.resolve_axis schema_accepts parameters in
  let resolve_scale := Mixin.resolve_scale schema_accepts parameters in
  let resolved entries := Ok (setattr self "resolve" (Node "Resolve" [] entries)) in
  let undeclared :=
    Raise (AttributeError ("'" +:+ cls +:+ "' object has no attribute 'resolve'")) in
  (kwds !! "resolve" = None → "resolve" ∉ parameters cls →
   (∀ kwargs,
      Mixin._set_resolve schema_accepts parameters self kwargs = undeclared)
   ∧ (∀ aargs akwds axis, construct "AxisResolveMap" aargs akwds = Ok axis →
        resolve_axis self aargs akwds = undeclared))
  ∧ (Mixin.attribute parameters self "resolve" = Ok Undefined →
     schema_accepts "Resolve" [] ∅ = true →
     (∀ aargs akwds sargs skwds axis scale,
        construct "AxisResolveMap" aargs akwds = Ok axis →
        construct "ScaleResolveMap" sargs skwds = Ok scale →
        (resolve_axis self aargs akwds
         ≫= λ copy, resolve_scale copy sargs skwds)
        = resolved {["scale" := scale; "axis" := axis]})
     ∧ (∀ args1 kwds1 args2 kwds2 axis1 axis2,
          construct "AxisResolveMap" args1 kwds1 = Ok axis1 →
          construct "AxisResolveMap" args2 kwds2 = Ok axis2 →
          (resolve_axis self args1 kwds1
           ≫= λ copy, resolve_axis copy args2 kwds2)
          = resolve_axis self args2 kwds2)
     ∧ Mixin._set_resolve schema_accepts parameters self ∅ = resolved ∅)
  ∧ (∀ key val items,
       Mixin._set_resolve schema_accepts parameters
         (setattr self "resolve" (PyList items)) {[key := val]}
       = Raise (TypeError "object does not support item assignment"))
  ∧ (∀ x rest v akwds,
       parameters "AxisResolveMap" = x :: rest → x ∉ dom akwds →
       schema_accepts "AxisResolveMap" [] (<[x := v]> akwds) = true →
       construct "AxisResolveMap" [v] akwds
       = Ok (Node "AxisResolveMap" [] (<[x := v]> akwds))).
Proof.
  intros self construct resolve_axis resolve_scale resolved undeclared.
  split_and!.
  - intros Hnone Hundeclared.
    assert (∀ kwargs,
      Mixin._set_resolve schema_accepts parameters self kwargs = undeclared)
      as Hraise.
    { intros kwargs. unfold Mixin._set_resolve, Mixin.attribute. simpl.
      rewrite Hnone. by rewrite bool_decide_false. }
    split; [done|].
    intros aargs akwds axis Haxis. unfold resolve_axis, Mixin.resolve_axis.
    fold construct. rewrite Haxis. simpl. apply Hraise.
  - intros Hunset Haccepted. split_and!.
    + intros aargs akwds sargs skwds axis scale Haxis Hscale.
      unfold resolve_axis, resolve_scale, Mixin.resolve_axis,
        Mixin.resolve_scale.
      fold construct. rewrite Haxis, Hscale. simpl.
      unfold self. rewrite set_resolve_unset by done. simpl.
      rewrite (set_resolve_node _ _ _ "Resolve" _ [] _ {["axis" := axis]})
        by by rewrite lookup_insert_eq.
      unfold resolved. simpl. rewrite insert_insert_eq.
      by rewrite <- insert_union_singleton_l.
    + intros args1 kwds1 args2 kwds2 axis1 axis2 Hfirst Hsecond.
      unfold resolve_axis, Mixin.resolve_axis.
      fold construct. rewrite Hfirst, Hsecond. simpl.
      unfold self. rewrite !set_resolve_unset by done. simpl.
      rewrite (set_resolve_node _ _ _ "Resolve" _ [] _ {["axis" := axis1]})
        by by rewrite lookup_insert_eq.
      by rewrite insert_insert_eq, <- insert_union_singleton_l,
        insert_singleton_eq.
    + unfold self. by rewrite set_resolve_unset.
  - intros key val items.
    unfold Mixin._set_resolve, Mixin.attribute, getattr. simpl.
    rewrite lookup_insert_eq. simpl. rewrite lookup_insert_eq.
    by rewrite map_fold_singleton.
  - intros x rest v akwds Hparameters Hfree Haccepted.
    unfold construct, Mixin.construct. rewrite Hparameters.
    rewrite (bind_positional_ok (x :: rest) [v] akwds).
    + simpl. rewrite zip_with_nil_r. simpl.
      rewrite insert_empty, <- insert_union_singleton_l.
      by apply instantiate_accepted.
    + simpl. lia.
    + intros name Hname%list_elem_of_singleton. by subst name.
Qed.

Lemma resolve_accumulates_witness :
  let layered :=
    Node "LayerChart" [] {["layer" := PyList [plain_chart; sales_chart]]} in
  let independent := PyStr "independent" in
  (Mixin.resolve_axis sample_schema sample_parameters layered [independent] ∅
   ≫= λ copy, Mixin.resolve_scale sample_schema sample_parameters copy []
                {["y" := independent]})
  = Ok (setattr layered "resolve"
          (Node "Resolve" []
             {["scale" := Node "ScaleResolveMap" [] {["y" := independent]};
               "axis" := Node "AxisResolveMap" [] {["x" := independent]}]}))
  ∧ Mixin.resolve_axis sample_schema sample_parameters plain_chart []
      {["y" := independent]}
    = Raise (AttributeError "'Chart' object has no attribute 'resolve'").
Proof.
  intros layered independent. split.
  - destruct (resolve_accumulates sample_schema sample_parameters "LayerChart"
                [] {["layer" := PyList [plain_chart; sales_chart]]})
      as (_ & Hdeclared & _).
    destruct (Hdeclared eq_refl eq_refl) as [Hboth _].
    apply Hboth; reflexivity.
  - destruct (resolve_accumulates sample_schema sample_parameters "Chart"
                [] {["mark" := PyStr "line"; "config" := Undefined]})
      as (Hundeclared & _).
    destruct Hundeclared as [_ Haxis].
    + reflexivity.
    + by_compute.
    + apply (Haxis [] {["y" := independent]}
               (Node "AxisResolveMap" [] {["y" := independent]})).
      reflexivity.
Defined.

(** ** Saving a chart *)

Lemma split_last_none (sep : ascii) (s : string) :
  ¬ In sep (String.list_ascii_of_string s) → split_last sep s = None.
Proof.
  induction s as [|c rest IH]; [done|]. simpl. intros Hnot.
  rewrite IH by tauto.
  destruct (Ascii.eqb_spec c sep) as [->|_]; [|done]. tauto.
Qed.

Lemma split_last_extension (sep : ascii) (stem ext : string) :
  ¬ In sep (String.list_ascii_of_string ext) →
  split_last sep (stem +:+ String sep ext) = Some (stem, ext).
Proof.
  intros Hnot. induction stem as [|c stem IH]; simpl.
  - by rewrite split_last_none, Ascii.eqb_refl.
  - by rewrite IH.
Qed.

(** X16.  [savechart] takes the format from a file name, whatever [format] says:
    the text after the last dot, or the whole name when it has no dot, so a
    name without extension is refused as an unrecognized format even when a
    format is given.  Without a file name a missing format is refused;
    ['eps'], which the message and the docstring list, is unrecognized;
    ['json'], ['png'] and ['svg'] pass every keyword on. *)
Theorem savechart_picks_format (fp : value) (format : option string)
    (kwargs : dict) :
  let dot_free s := ¬ In "."%char (String.list_ascii_of_string s) in
  (∀ name other, Mixin.savechart (PyStr name) format kwargs
                 = Mixin.savechart (PyStr name) other kwargs)
  ∧ (∀ stem ext, dot_free ext →
                 last_segment "." (stem +:+ "." +:+ ext) = ext)
  ∧ (∀ name, dot_free name → name ∉ ["json"; "html"; "png"; "svg"] →
             Mixin.savechart (PyStr name) format kwargs
             = Raise (ValueError ("unrecognized format: '" +:+ name +:+ "'")))
  ∧ (is_str fp = false →
     Mixin.savechart fp None kwargs
     = Raise (ValueError
                "must specify file format: ['png', 'eps', 'html', 'json']")
     ∧ Mixin.savechart fp (Some "eps") kwargs
       = Raise (ValueError "unrecognized format: 'eps'")
     ∧ Mixin.savechart fp (Some "json") kwargs = Ok (WriteJson fp kwargs)
     ∧ Mixin.savechart fp (Some "png") kwargs = Ok (SaveSpec fp "png" kwargs)
     ∧ Mixin.savechart fp (Some "svg") kwargs = Ok (SaveSpec fp "svg" kwargs)).
Proof.
  intros dot_free. split_and!.
  - done.
  - intros stem ext Hext. unfold last_segment.
    change (stem +:+ "." +:+ ext) with (stem +:+ String "." ext).
    by rewrite split_last_extension.
  - intros name Hname Hformat. unfold Mixin.savechart, last_segment.
    rewrite split_last_none by done.
    rewrite !elem_of_cons, elem_of_nil in Hformat.
    destruct (String.eqb_spec name "json"); [tauto|].
    destruct (String.eqb_spec name "html"); [tauto|].
    destruct (String.eqb_spec name "png"); [tauto|].
    destruct (String.eqb_spec name "svg"); [tauto|]. done.
  - intros Hfp. by destruct fp.
Qed.

Lemma savechart_picks_format_witness :
  Mixin.savechart (PyStr "chart") (Some "png") ∅
  = Raise (ValueError "unrecognized format: 'chart'")
  ∧ last_segment "." "plots/v1.2/chart.json" = "json"
  ∧ Mixin.savechart PyNone (Some "eps") ∅
    = Raise (ValueError "unrecognized format: 'eps'").
Proof.
  split_and!.
  - apply (savechart_picks_format PyNone (Some "png") ∅ : _ ∧ _).
    + simpl. intuition discriminate.
    + by_compute.
  - apply (savechart_picks_format PyNone None ∅ : _ ∧ _ ∧ _)
      with (stem := "plots/v1.2/chart") (ext := "json").
    simpl. intuition discriminate.
  - by apply (savechart_picks_format PyNone None ∅ : _ ∧ _ ∧ _ ∧ _).
Defined.

(** X17.  The ['html'] format of [savechart]: [renderer] and [actions] are taken
    out of the keywords into the options, with ['canvas'] and [False] when
    absent, and every other keyword is passed on; a renderer other than
    ['canvas'] and ['svg'] is refused. *)
Theorem savechart_html_options (fp : value) (kwargs : dict) :
  is_str fp = false →
  let renderer := default (PyStr "canvas") (kwargs !! "renderer") in
  (renderer ∈ [PyStr "canvas"; PyStr "svg"] →
   ∃ opt rest,
     Mixin.savechart fp (Some "html") kwargs = Ok (WriteHtml fp opt rest)
     ∧ opt = {["renderer" := renderer;
               "actions" := default (PyBool false) (kwargs !! "actions")]}
     ∧ rest !! "renderer" = None ∧ rest !! "actions" = None
     ∧ ∀ k, k ≠ "renderer" → k ≠ "actions" → rest !! k = kwargs !! k)
  ∧ (renderer ∉ [PyStr "canvas"; PyStr "svg"] →
     Mixin.savechart fp (Some "html") kwargs
     = Raise (ValueError "renderer must be 'canvas' or 'svg'")).
Proof.
  intros Hfp renderer.
  assert (Mixin.savechart fp (Some "html") kwargs
          = if match renderer with
               | PyStr r => String.eqb r "canvas" || String.eqb r "svg"
               | _ => false
               end
            then Ok (WriteHtml fp
                       {["renderer" := renderer;
                         "actions" := default (PyBool false) (kwargs !! "actions")]}
                       (delete "actions" (delete "renderer" kwargs)))
            else Raise (ValueError "renderer must be 'canvas' or 'svg'"))
    as -> by by destruct fp.
  split.
  - intros Hin. rewrite !elem_of_cons, elem_of_nil in Hin.
    eexists _, _. split_and!; [|reflexivity| | |].
    + by destruct Hin as [->|[->|[]]].
    + rewrite lookup_delete_ne by done. by rewrite lookup_delete_eq.
    + by rewrite lookup_delete_eq.
    + intros k Hr Ha. by rewrite !lookup_delete_ne.
  - intros Hnot. rewrite !elem_of_cons, elem_of_nil in Hnot.
    destruct renderer as [| | | |r| | | |]; try done.
    destruct (String.eqb_spec r "canvas") as [->|_]; [tauto|].
    destruct (String.eqb_spec r "svg") as [->|_]; [tauto|]. done.
Qed.

Lemma savechart_html_options_witness :
  Mixin.savechart PyNone (Some "html") {["renderer" := PyStr "png"]}
  = Raise (ValueError "renderer must be 'canvas' or 'svg'").
Proof.
  apply (savechart_html_options PyNone {["renderer" := PyStr "png"]} eq_refl).
  rewrite !elem_of_cons, elem_of_nil. vm_compute. by intros [?|[?|[]]].
Defined.

(** ** Compound charts *)

Lemma check_no_get (spec : value) (classname : string) :
  is_spec spec = false → is_DataFrame spec = false →
  _check_if_valid_subspec spec classname
  = Raise (AttributeError "object has no attribute 'get'").
Proof. intros Hspec Hframe. by destruct spec. Qed.

Lemma for_each_ok {A : Type} (body : A → result ()) (l : list A) :
  (∀ x, x ∈ l → body x = Ok ()) → for_each body l = Ok ().
Proof.
  induction l as [|x l IH]; [done|]. intros Hbody. simpl.
  rewrite Hbody by by left. simpl. apply IH. intros y Hy. apply Hbody.
  by right.
Qed.

(** X18.  [_check_if_valid_subspec] on a child that is neither a schema node nor a
    mapping: whatever has no [get] raises [AttributeError], so the default
    [spec] of [RepeatChart], [Undefined], makes the constructor raise; a
    frame answers [get] with its columns, so it passes the check unless a
    column has the name of a top-level-only property.  In a list of
    children the first child that fails decides the error. *)
Theorem subspec_check_on_other_values (spec : value) (classname : string) :
  (is_spec spec = false → is_DataFrame spec = false →
   _check_if_valid_subspec spec classname
   = Raise (AttributeError "object has no attribute 'get'")
   ∧ (∀ before after kwargs, Forall acceptable before →
        layer (before ++ spec :: after) kwargs
        = Raise (AttributeError "object has no attribute 'get'")))
  ∧ (∀ data repeat kwargs,
       RepeatChart.__init__ Undefined data repeat kwargs
       = Raise (AttributeError "object has no attribute 'get'"))
  ∧ (∀ columns, spec = DataFrame columns →
       (∀ attr, attr ∈ toplevel_only → attr ∉ columns.*1) →
       _check_if_valid_subspec spec classname = Ok ()
       ∧ ∀ kwargs, hconcat [spec] kwargs
                   = Ok (Node "HConcatChart" []
                           (<["hconcat" := PyList [spec]]> kwargs))).
Proof.
  split_and!.
  - intros Hspec Hframe. split; [by apply check_no_get|].
    intros before after kwargs Hbefore. unfold layer, LayerChart.__init__.
    induction Hbefore as [|child before Hchild _ IH]; simpl.
    + by rewrite check_no_get.
    + rewrite check_acceptable by done. simpl.
      by destruct (for_each _ (before ++ spec :: after)) as [[]|e].
  - done.
  - intros columns -> Hcolumns.
    assert (∀ cls, _check_if_valid_subspec (DataFrame columns) cls = Ok ())
      as Hcheck.
    { intros cls. apply for_each_ok. intros attr Hattr. simpl.
      by rewrite (not_elem_of_list_to_map_1 _ _ (Hcolumns attr Hattr)). }
    split; [done|]. intros kwargs. unfold hconcat, HConcatChart.__init__.
    simpl for_each. by rewrite Hcheck.
Qed.

Lemma subspec_check_on_other_values_witness :
  layer [plain_chart; PyStr "chart.json"] ∅
  = Raise (AttributeError "object has no attribute 'get'")
  ∧ hconcat [sales] ∅
    = Ok (Node "HConcatChart" [] {["hconcat" := PyList [sales]]}).
Proof.
  split.
  - destruct (subspec_check_on_other_values (PyStr "chart.json") "LayerChart")
      as [Hother _].
    destruct (Hother eq_refl eq_refl) as [_ Hlayer].
    apply (Hlayer [plain_chart] [] ∅).
    apply Forall_cons_2; [|by apply Forall_nil].
    split; [done|]. intros attr Hattr.
    unfold toplevel_only in Hattr. rewrite !elem_of_cons, elem_of_nil in Hattr.
    by destruct Hattr as [->|[->|[->|[->|[]]]]].
  - destruct (subspec_check_on_other_values sales "HConcatChart")
      as (_ & _ & Hframe).
    destruct (Hframe [("a", [PyInt 1; PyInt 2])] eq_refl) as [_ Hbuilt].
    + intros attr Hattr.
      unfold toplevel_only in Hattr. rewrite !elem_of_cons, elem_of_nil in Hattr.
      destruct Hattr as [->|[->|[->|[->|[]]]]]; by_compute.
    + by rewrite Hbuilt.
Defined.

Lemma layer_chart_acceptable (children : list value) :
  acceptable (Node "LayerChart" [] {["layer" := PyList children]}).
Proof.
  split; [done|]. intros attr Hattr. unfold declares. simpl.
  rewrite lookup_singleton_ne; [done|]. intros <-. revert Hattr. by_compute.
Qed.

(** X19.  Layering with [+] is not associative in what it builds: [(a + b) + c]
    appends [c] to the layers of [a + b] and is [layer(a, b, c)], whereas
    [a + (b + c)] holds the layer chart [b + c] as its second layer. *)
Theorem layering_flattens_on_the_left (a b c : value) :
  acceptable a → acceptable b → acceptable c →
  isinstance a ["LayerChart"] = false → isinstance b ["LayerChart"] = false →
  (Operators.add a b ≫= λ ab, Operators.add ab c) = layer [a; b; c] ∅
  ∧ layer [a; b; c] ∅ = Ok (Node "LayerChart" [] {["layer" := PyList [a; b; c]]})
  ∧ (Operators.add b c ≫= λ bc, Operators.add a bc)
    = Ok (Node "LayerChart" []
            {["layer" :=
                PyList [a; Node "LayerChart" [] {["layer" := PyList [b; c]]}]]}).
Proof.
  intros Ha Hb Hc Hla Hlb.
  assert (∀ children, Forall acceptable children →
            layer children ∅
            = Ok (Node "LayerChart" [] {["layer" := PyList children]}))
    as Hlayer.
  { intros children Hchildren. unfold layer, LayerChart.__init__.
    by rewrite for_each_acceptable. }
  assert (∀ x y, acceptable x → acceptable y →
            isinstance x ["LayerChart"] = false →
            Operators.add x y
            = Ok (Node "LayerChart" [] {["layer" := PyList [x; y]]})) as Hadd.
  { intros x y Hx Hy Hlx. unfold Operators.add. rewrite Hlx.
    apply (Hlayer [x; y]). by repeat apply Forall_cons_2. }
  split_and!.
  - rewrite (Hadd a b) by done. simpl.
    rewrite Hlayer by by repeat apply Forall_cons_2.
    unfold Operators.add, LayerChart.__add__. simpl.
    rewrite check_acceptable by done. simpl.
    unfold append_child, getattr. simpl. rewrite lookup_singleton_eq. simpl.
    by rewrite insert_singleton_eq.
  - apply Hlayer. by repeat apply Forall_cons_2.
  - rewrite (Hadd b c) by done. simpl.
    apply Hadd; [done|apply layer_chart_acceptable|done].
Qed.

Lemma layering_flattens_on_the_left_witness :
  let a := Node "Chart" [] {["mark" := PyStr "line"]} in
  let b := Node "Chart" [] {["mark" := PyStr "point"]} in
  let c := Node "Chart" [] {["mark" := PyStr "rule"]} in
  (Operators.add a b ≫= λ ab, Operators.add ab c) = layer [a; b; c] ∅.
Proof.
  intros a b c.
  assert (∀ mark, acceptable (Node "Chart" [] {["mark" := PyStr mark]}))
    as Hacceptable.
  { intros mark. split; [done|]. intros attr Hattr. unfold declares. simpl.
    rewrite lookup_singleton_ne; [done|]. intros <-. revert Hattr. by_compute. }
  assert (isinstance a ["LayerChart"] = false) as Ha by reflexivity.
  assert (isinstance b ["LayerChart"] = false) as Hb by reflexivity.
  destruct (layering_flattens_on_the_left a b c (Hacceptable "line")
              (Hacceptable "point") (Hacceptable "rule") Ha Hb) as [Hleft _].
  exact Hleft.
Defined.

(** X20.  [repeat] on a chart builds the [Repeat] node first and then the
    [RepeatChart] around the chart: a chart that may be a sub-specification
    becomes the [spec] of the result, with [data] among the keywords as the
    result's data; a chart that declares a top-level-only property is
    refused as a child of [RepeatChart]; and a [Repeat] node that the schema
    refuses raises the validation error before the chart is looked at. *)
Theorem chart_repeat schema_accepts (self row column : value) (kwargs : dict) :
  let repeat := Node "Repeat" [] {["row" := row; "column" := column]} in
  kwargs !! "spec" = None → kwargs !! "repeat" = None →
  (schema_accepts "Repeat" [] {["row" := row; "column" := column]} = true →
   (acceptable self →
    Mixin.repeat schema_accepts self row column kwargs
    = Ok (Node "RepeatChart" []
            (<["spec" := self]>
               (<["data" := default Undefined (kwargs !! "data")]>
                  (<["repeat" := repeat]> (delete "data" kwargs))))))
   ∧ (offending self →
      rejected (Mixin.repeat schema_accepts self row column kwargs)
        "RepeatChart" self))
  ∧ (schema_accepts "Repeat" [] {["row" := row; "column" := column]} = false →
     Mixin.repeat schema_accepts self row column kwargs = Raise ValidationError).
Proof.
  intros repeat Hspec Hrepeat.
  assert (bool_decide ("spec" ∈ dom kwargs) || bool_decide ("repeat" ∈ dom kwargs)
          = false) as Hfree.
  { rewrite !bool_decide_false; [done|by apply not_elem_of_dom..]. }
  split.
  - intros Haccepted. unfold Mixin.repeat.
    rewrite (instantiate_accepted _ _ _ _ Haccepted). simpl. rewrite Hfree.
    unfold RepeatChart.__init__. split.
    + intros Hself. by rewrite check_acceptable.
    + intros Hself.
      destruct (check_offending self "RepeatChart" Hself)
        as (attr & Hin & Hdecl & ->).
      by exists attr.
  - intros Hrefused. unfold Mixin.repeat, instantiate. by rewrite Hrefused.
Qed.

Lemma chart_repeat_witness :
  Mixin.repeat sample_schema (Node "Chart" [] {["mark" := PyStr "line"]})
    (PyList [PyStr "a"; PyStr "b"]) Undefined ∅
  = Ok (Node "RepeatChart" []
          {["spec" := Node "Chart" [] {["mark" := PyStr "line"]};
            "data" := Undefined;
            "repeat" := Node "Repeat" []
                          {["row" := PyList [PyStr "a"; PyStr "b"];
                            "column" := Undefined]}]}).
Proof.
  assert ((∅ : dict) !! "spec" = None) as Hspec by reflexivity.
  assert ((∅ : dict) !! "repeat" = None) as Hrepeat by reflexivity.
  destruct (chart_repeat sample_schema
              (Node "Chart" [] {["mark" := PyStr "line"]})
              (PyList [PyStr "a"; PyStr "b"]) Undefined ∅ Hspec Hrepeat)
    as [Haccepted _].
  destruct (Haccepted eq_refl) as [Hbuilt _].
  rewrite Hbuilt; [reflexivity|].
  split; [done|]. intros attr Hattr. unfold declares. simpl.
  rewrite lookup_singleton_ne; [done|]. intros <-. revert Hattr. by_compute.
Defined.

(** ** Interactive charts *)

Lemma selection_accepted schema_accepts (kwds : dict) (counter : nat) :
  schema_accepts "SelectionDef" [] kwds = true →
  (∀ kwds, schema_accepts "SelectionMapping" [] kwds = true) →
  selection schema_accepts PyNone kwds counter
  = (Ok (Node "SelectionMapping" []
           {[selector_name counter := Node "SelectionDef" [] kwds]}),
     S counter).
Proof.
  intros Hdef Hmapping. unfold selection.
  rewrite (instantiate_accepted _ _ _ _ Hdef). simpl.
  by rewrite (instantiate_accepted _ _ _ _ (Hmapping _)).
Qed.

(** X21.  [interactive] on a chart: the [name] argument is never used; the
    selection added is an interval bound to the scales, for the encodings
    asked for, under the automatic name of the counter, which advances by
    one; it is added to the selections the chart has (none, a mapping, or a
    [SelectionMapping]), which are kept, and the chart is otherwise
    unchanged. *)
Theorem interactive_adds_scale_binding schema_accepts (cls : string)
    (args : list value) (kwds : dict) (name name' : value) (bind_x bind_y : bool)
    (counter : nat) :
  let self := Node cls args kwds in
  let encodings :=
    (if bind_x then [PyStr "x"] else []) ++ (if bind_y then [PyStr "y"] else []) in
  let def : dict :=
    {["type" := PyStr "interval"; "bind" := PyStr "scales";
      "encodings" := PyList encodings]} in
  UnitChart.interactive schema_accepts self name bind_x bind_y counter
  = UnitChart.interactive schema_accepts self name' bind_x bind_y counter
  ∧ (schema_accepts "SelectionDef" [] def = true →
     (∀ kwds, schema_accepts "SelectionMapping" [] kwds = true) →
     ∀ existing,
       default Undefined (kwds !! "selection") = Undefined ∧ existing = ∅
       ∨ kwds !! "selection" = Some (PyDict existing)
       ∨ kwds !! "selection" = Some (Node "SelectionMapping" [] existing) →
       UnitChart.interactive schema_accepts self name bind_x bind_y counter
       = (Ok (setattr self "selection"
                (Node "SelectionMapping" []
                   (<[selector_name counter := Node "SelectionDef" [] def]>
                      existing))),
          S counter)).
Proof.
  intros self encodings def. split; [done|].
  intros Hdef Hmapping existing Hexisting.
  unfold UnitChart.interactive. fold encodings. fold def.
  rewrite (selection_accepted _ _ _ Hdef Hmapping). unfold getattr. simpl.
  destruct Hexisting as [[Hunset ->]|[Hdict|Hnode]].
  - rewrite Hunset. simpl.
    rewrite (instantiate_accepted _ _ _ _ (Hmapping _)). simpl.
    rewrite lookup_insert_eq. simpl. rewrite lookup_insert_eq. simpl.
    unfold dict_update.
    by rewrite insert_insert_eq, (right_id_L ∅ (∪)), insert_empty.
  - rewrite Hdict. simpl. rewrite Hdict. simpl.
    rewrite (instantiate_accepted _ _ _ _ (Hmapping existing)). simpl.
    rewrite lookup_insert_eq. simpl. unfold dict_update.
    by rewrite insert_insert_eq, <- insert_union_singleton_l.
  - rewrite Hnode. simpl. rewrite Hnode. simpl. rewrite Hnode. simpl.
    unfold dict_update. by rewrite <- insert_union_singleton_l.
Qed.

Lemma interactive_adds_scale_binding_witness :
  UnitChart.interactive sample_schema plain_chart (PyStr "zoom") true false 7
  = (Ok (setattr plain_chart "selection"
           (Node "SelectionMapping" []
              {["selector007" :=
                  Node "SelectionDef" []
                    {["type" := PyStr "interval"; "bind" := PyStr "scales";
                      "encodings" := PyList [PyStr "x"]]}]})),
     8).
Proof.
  destruct (interactive_adds_scale_binding sample_schema "Chart" []
              {["mark" := PyStr "line"; "config" := Undefined]}
              (PyStr "zoom") PyNone true false 7) as [_ Hadded].
  unfold plain_chart. rewrite (Hadded eq_refl (λ _, eq_refl) ∅).
  - vm_compute. reflexivity.
  - left. split; reflexivity.
Defined.

(** ** Serialization *)

Section SerializationDetails.
Variable schema_accepts : string → list value → dict → bool.
Variable data_transformer : value → result value.
Variable SchemaBase_to_dict : value → list value → dict → result dict.

Local Abbreviation prepare :=
  (TopLevelMixin._prepare_data schema_accepts data_transformer).
Local Abbreviation serialize :=
  (TopLevelMixin.to_dict schema_accepts data_transformer SchemaBase_to_dict).
Local Abbreviation after_prepare := (prepared schema_accepts data_transformer).

(** X22.  [to_dict] and the [$schema] entry, when the first conversion succeeds:
    a call whose context says it is not top level returns the converted
    document as it is; a top-level call (in particular one without a
    context) returns a document whose [$schema] is the converted document's
    own when it has one and the Vega-Lite URL otherwise, with every entry
    other than [$schema] and [config] as converted. *)
Theorem to_dict_schema_entry self obj obj' args kwargs context dct w :
  heap w !! self = Some obj →
  after_prepare obj = Ok obj' →
  context_of kwargs = Ok context →
  SchemaBase_to_dict obj' args (conversion_kwargs obj kwargs context) = Ok dct →
  (is_top_level context = false → (serialize self args kwargs w).1 = Ok dct)
  ∧ (is_top_level context = true →
     ∃ out, (serialize self args kwargs w).1 = Ok out
            ∧ out !! "$schema"
              = Some (default (PyStr SCHEMA_URL) (dct !! "$schema"))
            ∧ ∀ k, k ≠ "$schema" → k ≠ "config" → out !! k = dct !! k)
  ∧ (kwargs !! "context" = None → is_top_level context = true).
Proof.
  intros Hself Hprepared Hcontext Hconverted.
  rewrite (to_dict_run _ _ _ self obj) by done. cbv zeta.
  rewrite Hprepared, Hcontext, Hconverted. simpl. split_and!.
  - by intros ->.
  - intros ->. eexists. split; [reflexivity|]. unfold finalize. split.
    + rewrite update_nested_lookup.
      assert (with_schema dct !! "$schema"
              = Some (default (PyStr SCHEMA_URL) (dct !! "$schema"))) as ->.
      { unfold with_schema. case_bool_decide as Hin.
        - apply elem_of_dom in Hin as [v Hv]. by rewrite Hv.
        - apply not_elem_of_dom in Hin. rewrite Hin. apply lookup_insert_eq. }
      by destruct (default _ _).
    + intros k Hschema Hconfig.
      rewrite update_nested_lookup, with_schema_lookup_ne by done.
      unfold TopLevelMixin._default_spec_values.
      rewrite lookup_singleton_ne by done.
      by destruct (dct !! k) as [[]|].
  - intros Hnone. unfold context_of in Hcontext. rewrite Hnone in Hcontext.
    by injection Hcontext as <-.
Qed.

(** X23.  The context [to_dict] hands to the conversion: [top_level] is false in
    it, so no nested chart adds [$schema] or the defaults; [data] is the
    chart's own data as it was before normalization, or what the caller's
    context had when the chart has none, so a nested chart without data
    inherits it; every other entry of the context and every other keyword
    is passed as given; and the object converted is the normalized copy. *)
Theorem to_dict_conversion_context self obj obj' args kwargs context w :
  heap w !! self = Some obj →
  after_prepare obj = Ok obj' →
  context_of kwargs = Ok context →
  ∃ kw passed rest,
    conversions (serialize self args kwargs w).2
    = conversions w ++ Conversion obj' args kw :: rest
    ∧ kw !! "context" = Some (PyDict passed)
    ∧ (∀ k, k ≠ "context" → kw !! k = kwargs !! k)
    ∧ passed !! "top_level" = Some (PyBool false)
    ∧ (getattr obj "data" ≠ Undefined →
       passed !! "data" = Some (getattr obj "data"))
    ∧ (getattr obj "data" = Undefined → passed !! "data" = context !! "data")
    ∧ (∀ k, k ≠ "top_level" → k ≠ "data" → passed !! k = context !! k).
Proof.
  intros Hself Hprepared Hcontext.
  rewrite (to_dict_run _ _ _ self obj) by done. cbv zeta.
  rewrite Hprepared, Hcontext.
  set (kw := conversion_kwargs obj kwargs context).
  exists kw.
  exists (if is_Undefined (getattr obj "data")
          then <["top_level" := PyBool false]> context
          else <["data" := getattr obj "data"]>
                 (<["top_level" := PyBool false]> context)).
  assert (∃ rest, conversions
            (match SchemaBase_to_dict obj' args kw with
             | Ok dct =>
                 (Ok (finalize (is_top_level context) dct),
                  World (<[fresh (dom (heap w)) := obj']> (heap w))
                    (transformed w ++ frames_of obj)
                    (conversions w ++ [Conversion obj' args kw]))
             | Raise ValidationError =>
                 (finalize (is_top_level context)
                  <$> SchemaBase_to_dict obj' args
                        (<["validate" := PyStr "deep"]> kw),
                  World (<[fresh (dom (heap w)) := obj']> (heap w))
                    (transformed w ++ frames_of obj)
                    (conversions w
                     ++ [Conversion obj' args kw;
                         Conversion obj' args
                           (<["validate" := PyStr "deep"]> kw)]))
             | Raise e =>
                 (Raise e,
                  World (<[fresh (dom (heap w)) := obj']> (heap w))
                    (transformed w ++ frames_of obj)
                    (conversions w ++ [Conversion obj' args kw]))
             end).2
          = conversions w ++ Conversion obj' args kw :: rest) as [rest Hrest].
  { destruct (SchemaBase_to_dict obj' args kw) as [dct|e].
    - by exists [].
    - destruct e; by eexists. }
  exists rest. split; [exact Hrest|].
  unfold kw, conversion_kwargs. split_and!.
  - by rewrite lookup_insert_eq.
  - intros k Hk. by rewrite lookup_insert_ne.
  - destruct (is_Undefined _).
    + by rewrite lookup_insert_eq.
    + rewrite lookup_insert_ne by done. by rewrite lookup_insert_eq.
  - intros Hdata. destruct (getattr obj "data"); try done; simpl;
      by rewrite lookup_insert_eq.
  - intros ->. simpl. by rewrite lookup_insert_ne.
  - intros k Htop Hdata. destruct (is_Undefined _).
    + by rewrite lookup_insert_ne.
    + by rewrite !lookup_insert_ne.
Qed.

(** X24.  [_prepare_data] on a chart: a string becomes a [UrlData] node of that
    URL and a frame what the data transformer makes of it, stored in the
    chart; once the data is a mapping or a data node, preparing again
    changes nothing and calls nothing; a failing transformer leaves the
    chart as it was; and data of any other kind is left alone without an
    error. *)
Theorem prepare_data_normalizes l cls args kwds w :
  let obj := Node cls args kwds in
  heap w !! l = Some obj →
  (∀ s, kwds !! "data" = Some (PyStr s) →
        schema_accepts "UrlData" [] {["url" := PyStr s]} = true →
        (prepare l w).1 = Ok ()
        ∧ heap (prepare l w).2 !! l
          = Some (setattr obj "data" (Node "UrlData" [] {["url" := PyStr s]}))
        ∧ transformed (prepare l w).2 = transformed w
        ∧ prepare l (prepare l w).2 = (Ok (), (prepare l w).2))
  ∧ (∀ columns d, kwds !! "data" = Some (DataFrame columns) →
        data_transformer (DataFrame columns) = Ok (PyDict d) →
        (prepare l w).1 = Ok ()
        ∧ heap (prepare l w).2 !! l = Some (setattr obj "data" (PyDict d))
        ∧ transformed (prepare l w).2 = transformed w ++ [DataFrame columns]
        ∧ prepare l (prepare l w).2 = (Ok (), (prepare l w).2))
  ∧ (∀ columns e, kwds !! "data" = Some (DataFrame columns) →
        data_transformer (DataFrame columns) = Raise e →
        (prepare l w).1 = Raise e ∧ heap (prepare l w).2 = heap w)
  ∧ (is_DataFrame (getattr obj "data") = false →
     is_str (getattr obj "data") = false →
     prepare l w = (Ok (), w)).
Proof.
  intros obj Hl.
  assert (∀ w' o, heap w' !! l = Some o →
            is_DataFrame (getattr o "data") = false →
            is_str (getattr o "data") = false →
            prepare l w' = (Ok (), w')) as Hidle.
  { intros w' o Ho Hframe Hstr.
    rewrite (prepare_data_run _ _ l o w' Ho).
    assert (after_prepare o = Ok o) as ->.
    { unfold prepared. rewrite Hframe, Hstr.
      by destruct (is_dict _ || isinstance _ _). }
    unfold frames_of. rewrite Hframe, app_nil_r, (insert_id _ _ _ Ho).
    by destruct w'. }
  rewrite (prepare_data_run _ _ l obj w Hl). split_and!.
  - intros s Hdata Haccepted.
    assert (after_prepare obj
            = Ok (setattr obj "data" (Node "UrlData" [] {["url" := PyStr s]})))
      as ->.
    { unfold prepared, getattr. simpl. rewrite Hdata. simpl.
      by rewrite (instantiate_accepted _ _ _ _ Haccepted). }
    unfold frames_of, getattr. simpl. rewrite Hdata. simpl.
    rewrite app_nil_r. split_and!; [done|apply lookup_insert_eq|done|].
    eapply Hidle; [apply lookup_insert_eq|..];
      unfold getattr; simpl; by rewrite lookup_insert_eq.
  - intros columns d Hdata Htransformed.
    assert (after_prepare obj = Ok (setattr obj "data" (PyDict d))) as ->.
    { unfold prepared, getattr. simpl. rewrite Hdata. simpl.
      by rewrite Htransformed. }
    unfold frames_of, getattr. simpl. rewrite Hdata. simpl.
    split_and!; [done|apply lookup_insert_eq|done|].
    eapply Hidle; [apply lookup_insert_eq|..];
      unfold getattr; simpl; by rewrite lookup_insert_eq.
  - intros columns e Hdata Htransformed.
    assert (after_prepare obj = Raise e) as ->.
    { unfold prepared, getattr. simpl. rewrite Hdata. simpl.
      by rewrite Htransformed. }
    done.
  - intros Hframe Hstr. rewrite <- (prepare_data_run _ _ l obj w Hl).
    by apply (Hidle w obj).
Qed.
End SerializationDetails.

Lemma to_dict_schema_entry_witness :
  ∃ out,
    (TopLevelMixin.to_dict sample_schema sample_transformer sample_to_dict
       1%positive [] ∅ one_chart).1 = Ok out
    ∧ out !! "$schema" = Some (PyStr SCHEMA_URL).
Proof.
  pose (obj' := setattr sales_chart "data"
                  (PyDict {["values" :=
                              PyDict {["a" := PyList [PyInt 1; PyInt 2]]}]})).
  pose (dct := match sample_to_dict obj' [] ∅ with Ok d => d | Raise _ => ∅ end).
  assert (heap one_chart !! 1%positive = Some sales_chart) as Hheap
    by reflexivity.
  assert (prepared sample_schema sample_transformer sales_chart = Ok obj')
    as Hprepared by (vm_compute; reflexivity).
  assert (context_of ∅ = Ok ∅) as Hcontext by reflexivity.
  assert (sample_to_dict obj' [] (conversion_kwargs sales_chart ∅ ∅) = Ok dct)
    as Hconverted by (vm_compute; reflexivity).
  destruct (to_dict_schema_entry sample_schema sample_transformer
              sample_to_dict 1%positive sales_chart obj' [] ∅ ∅ dct one_chart
              Hheap Hprepared Hcontext Hconverted) as (_ & Htop & _).
  destruct (Htop eq_refl) as (out & Hout & Hschema & _).
  exists out. split; [exact Hout|]. rewrite Hschema. reflexivity.
Defined.

Lemma to_dict_conversion_context_witness :
  ∃ kw passed rest,
    conversions
      (TopLevelMixin.to_dict sample_schema sample_transformer sample_to_dict
         1%positive [] ∅ one_chart).2
    = Conversion
        (setattr sales_chart "data"
           (PyDict {["values" := PyDict {["a" := PyList [PyInt 1; PyInt 2]]}]}))
        [] kw :: rest
    ∧ kw !! "context" = Some (PyDict passed)
    ∧ passed !! "data" = Some sales.
Proof.
  assert (heap one_chart !! 1%positive = Some sales_chart) as Hheap
    by reflexivity.
  assert (prepared sample_schema sample_transformer sales_chart
          = Ok (setattr sales_chart "data"
                  (PyDict {["values" :=
                              PyDict {["a" := PyList [PyInt 1; PyInt 2]]}]})))
    as Hprepared by (vm_compute; reflexivity).
  assert (context_of ∅ = Ok ∅) as Hempty by reflexivity.
  destruct (to_dict_conversion_context sample_schema sample_transformer
              sample_to_dict 1%positive sales_chart _ [] ∅ ∅ one_chart
              Hheap Hprepared Hempty)
    as (kw & passed & rest & Hlog & Hcontext & _ & _ & Hdata & _).
  exists kw, passed, rest. split_and!.
  - exact Hlog.
  - exact Hcontext.
  - apply Hdata. discriminate.
Defined.

Lemma prepare_data_normalizes_witness :
  let remote :=
    World {[1%positive := Node "Chart" [] {["data" := PyStr "cars.json"]}]} [] [] in
  heap (TopLevelMixin._prepare_data sample_schema sample_transformer
          1%positive remote).2 !! 1%positive
  = Some (Node "Chart" []
            {["data" := Node "UrlData" [] {["url" := PyStr "cars.json"]}]}).
Proof.
  intros remote.
  assert (heap remote !! 1%positive
          = Some (Node "Chart" [] {["data" := PyStr "cars.json"]})) as Hheap
    by reflexivity.
  destruct (prepare_data_normalizes sample_schema sample_transformer
              1%positive "Chart" [] {["data" := PyStr "cars.json"]} remote Hheap)
    as [Hurl _].
  destruct (Hurl "cars.json" eq_refl eq_refl) as (_ & Hstored & _).
  rewrite Hstored. reflexivity.
Defined.

(** ** Calls in sequence *)

Lemma wrap_item_defined channels parse_shorthand
    (from_dict : string → dict → result value) (prop : string) (field w : value) :
  (∀ cls obj v, from_dict cls obj = Ok v → is_SchemaBase v = true) →
  Chart.wrap_item channels parse_shorthand from_dict prop field = Ok w →
  is_Undefined w = false.
Proof.
  intros Hnodes. unfold Chart.wrap_item.
  match goal with
  | |- (?m ≫= _) = _ → _ => destruct m as [field'|e]; simpl; [|done]
  end.
  unfold Chart._wrap_in_channel_class.
  destruct (is_SchemaBase field') eqn:Hnode.
  { intros [= <-]. by destruct field'. }
  match goal with
  | |- (?m ≫= _) = _ → _ => destruct m as [obj|e]; simpl; [|done]
  end.
  match goal with
  | |- (?m ≫= _) = _ → _ => destruct m as [obj'|e]; simpl; [|done]
  end.
  case_bool_decide; [|done].
  destruct (from_dict _ obj') as [v|e] eqn:Hv; simpl.
  - intros [= <-]. apply Hnodes in Hv. by destruct v.
  - destruct e; try done. by intros [= <-].
Qed.

Lemma previous_encoding_defined (self : value) (prev : dict) (k : string) :
  is_dict (getattr self "encoding") = false →
  previous_encoding self = Ok prev →
  prev !! k ≠ Some Undefined.
Proof.
  unfold previous_encoding. intros Hdict.
  destruct (getattr self "encoding"); try done; intros [= <-].
  - by rewrite lookup_empty.
  - intros [_ Hdefined]%map_lookup_filter_Some. done.
Qed.

Lemma filter_defined_lookup (enc : dict) (k : string) :
  enc !! k ≠ Some Undefined →
  filter (λ kv : string * value, is_Undefined kv.2 = false) enc !! k = enc !! k.
Proof.
  intros Hdefined. destruct (enc !! k) as [v|] eqn:Hk.
  - apply map_lookup_filter_Some. split; [done|]. simpl. by destruct v.
  - apply map_lookup_filter_None. by left.
Qed.

(** X25.  Encoding in two calls: for a chart whose encoding is unset or a node,
    channel classes that build nodes, and keywords that the two calls do not
    share, [encode] with the first keywords followed by [encode] with the
    second returns a chart exactly when one [encode] with all of them does,
    and then the same chart. *)
Theorem encode_in_two_calls schema_accepts channels parse_shorthand from_dict
    (cls : string) (args : list value) (kwds first second : dict) (r : value) :
  let self := Node cls args kwds in
  let encode := Chart.encode schema_accepts channels parse_shorthand from_dict in
  (∀ cls obj v, from_dict cls obj = Ok v → is_SchemaBase v = true) →
  is_dict (getattr self "encoding") = false →
  dom first ## dom second →
  (encode self [] first ≫= λ copy, encode copy [] second) = Ok r
  ↔ encode self [] (second ∪ first) = Ok r.
Proof.
  intros self encode Hnodes Hdict Hdisjoint.
  set (wrap_item := Chart.wrap_item channels parse_shorthand from_dict).
  assert (∀ r, (encode self [] first ≫= λ copy, encode copy [] second) = Ok r →
               encode self [] (second ∪ first) = Ok r) as Hforward.
  { clear r. intros r Hr.
    destruct (encode self [] first) as [r1|e] eqn:Hfirst; simpl in Hr; [|done].
    destruct (encode_ok_inv _ _ _ _ _ _ _ Hfirst)
      as (prev & enc1 & Hprev & -> & Hnone1 & Hsome1).
    destruct (encode_ok_inv _ _ _ _ _ _ _ Hr)
      as (prev2 & enc2 & Hprev2 & -> & Hnone2 & Hsome2).
    assert (prev2 = filter (λ kv : string * value, is_Undefined kv.2 = false) enc1)
      as ->.
    { unfold previous_encoding, getattr in Hprev2. simpl in Hprev2.
      rewrite lookup_insert_eq in Hprev2. simpl in Hprev2. congruence. }
    destruct (encode_ok_intro schema_accepts channels parse_shorthand from_dict
                self (second ∪ first) prev Hprev) as [r' Hr'].
    { intros k field [Hk|[_ Hk]]%lookup_union_Some_raw.
      - destruct (Hsome2 _ _ Hk) as (w & Hw & _). by exists w.
      - destruct (Hsome1 _ _ Hk) as (w & Hw & _). by exists w. }
    fold encode in Hr'. rewrite Hr'. f_equal.
    destruct (encode_ok_inv _ _ _ _ _ _ _ Hr')
      as (prev' & enc' & Hprev' & -> & Hnone' & Hsome').
    assert (prev' = prev) as -> by congruence.
    simpl. rewrite insert_insert_eq. do 3 f_equal.
    apply map_eq. intros k.
    destruct (second !! k) as [field|] eqn:Hsecond.
    - destruct (Hsome2 _ _ Hsecond) as (w & Hw & ->).
      destruct (Hsome' k field) as (w' & Hw' & ->);
        [by apply lookup_union_Some_l|]. congruence.
    - rewrite (Hnone2 _ Hsecond).
      destruct (first !! k) as [field|] eqn:Hfirstk.
      + destruct (Hsome1 _ _ Hfirstk) as (w & Hw & Hlookup).
        destruct (Hsome' k field) as (w' & Hw' & ->).
        { by rewrite lookup_union_r. }
        rewrite filter_defined_lookup, Hlookup; [congruence|].
        rewrite Hlookup. intros [= ->].
        by apply (wrap_item_defined _ _ _ _ _ _ Hnodes) in Hw.
      + rewrite (Hnone' k) by by apply lookup_union_None.
        rewrite filter_defined_lookup, (Hnone1 _ Hfirstk); [done|].
        rewrite (Hnone1 _ Hfirstk).
        by apply (previous_encoding_defined self). }
  split; [apply Hforward|].
  intros Hr.
  destruct (encode_ok_inv _ _ _ _ _ _ _ Hr)
    as (prev & enc & Hprev & _ & _ & Hsome).
  destruct (encode_ok_intro schema_accepts channels parse_shorthand from_dict
              self first prev Hprev) as [r1 Hr1].
  { intros k field Hk. destruct (Hsome k field) as (w & Hw & _); [|by exists w].
    rewrite lookup_union_r; [done|]. apply not_elem_of_dom.
    intros Hin. apply (Hdisjoint k); [|done]. apply elem_of_dom. by eexists. }
  fold encode in Hr1.
  destruct (encode_ok_inv _ _ _ _ _ _ _ Hr1)
    as (prev1 & enc1 & _ & Hshape & _ & _).
  destruct (encode_ok_intro schema_accepts channels parse_shorthand from_dict
              r1 second
              (filter (λ kv : string * value, is_Undefined kv.2 = false) enc1))
    as [r2 Hr2].
  { rewrite Hshape. unfold previous_encoding, getattr. simpl.
    by rewrite lookup_insert_eq. }
  { intros k field Hk. destruct (Hsome k field) as (w & Hw & _); [|by exists w].
    by apply lookup_union_Some_l. }
  fold encode in Hr2.
  assert ((encode self [] first ≫= λ copy, encode copy [] second) = Ok r2)
    as Htwo by by rewrite Hr1.
  rewrite Htwo. f_equal.
  apply Hforward in Htwo. congruence.
Qed.

Lemma encode_in_two_calls_witness :
  let encode :=
    Chart.encode sample_schema sample_channels sample_parse_shorthand
      lenient_from_dict in
  (encode plain_chart [] {["x" := PyStr "a:Q"]}
   ≫= λ copy, encode copy [] {["y" := PyStr "b:N"]})
  = Ok (setattr plain_chart "encoding"
          (Node "EncodingWithFacet" []
             {["x" := Node "X" [] {["field" := PyStr "a";
                                    "type" := PyStr "quantitative"]};
               "y" := Node "Y" [] {["field" := PyStr "b";
                                    "type" := PyStr "nominal"]}]})).
Proof.
  intros encode.
  apply (encode_in_two_calls sample_schema sample_channels
           sample_parse_shorthand lenient_from_dict "Chart" []
           {["mark" := PyStr "line"; "config" := Undefined]}
           {["x" := PyStr "a:Q"]} {["y" := PyStr "b:N"]}).
  - intros c obj v [= <-]. reflexivity.
  - reflexivity.
  - rewrite !dom_singleton_L. apply disjoint_singleton_l.
    by intros ?%elem_of_singleton.
  - vm_compute. reflexivity.
Defined.

Lemma concat_chart_acceptable (cls attr : string) (children : list value) :
  attr ∉ toplevel_only →
  acceptable (Node cls [] {[attr := PyList children]}).
Proof.
  intros Hattr. split; [done|]. intros a Ha. unfold declares. simpl.
  rewrite lookup_singleton_ne; [done|]. by intros <-.
Qed.

(** X26.  Concatenation with [|] and [&] behaves as layering does: on the left, a
    concatenated chart takes the new chart into its own list, so
    [(a | b) | c] is [hconcat(a, b, c)] and [(a & b) & c] is
    [vconcat(a, b, c)]; on the right it is nested, so [a | (b | c)] holds
    the chart [b | c] as its second child, and likewise for [&]. *)
Theorem concatenation_flattens_on_the_left (a b c : value) :
  acceptable a → acceptable b → acceptable c →
  isinstance a ["HConcatChart"] = false → isinstance b ["HConcatChart"] = false →
  isinstance a ["VConcatChart"] = false → isinstance b ["VConcatChart"] = false →
  ((Operators.or_ a b ≫= λ ab, Operators.or_ ab c) = hconcat [a; b; c] ∅
   ∧ hconcat [a; b; c] ∅
     = Ok (Node "HConcatChart" [] {["hconcat" := PyList [a; b; c]]})
   ∧ (Operators.or_ b c ≫= λ bc, Operators.or_ a bc)
     = Ok (Node "HConcatChart" []
             {["hconcat" :=
                 PyList [a; Node "HConcatChart" []
                              {["hconcat" := PyList [b; c]]}]]}))
  ∧ ((Operators.and_ a b ≫= λ ab, Operators.and_ ab c) = vconcat [a; b; c] ∅
     ∧ vconcat [a; b; c] ∅
       = Ok (Node "VConcatChart" [] {["vconcat" := PyList [a; b; c]]})
     ∧ (Operators.and_ b c ≫= λ bc, Operators.and_ a bc)
       = Ok (Node "VConcatChart" []
               {["vconcat" :=
                   PyList [a; Node "VConcatChart" []
                                {["vconcat" := PyList [b; c]]}]]})).
Proof.
  intros Ha Hb Hc Hha Hhb Hva Hvb. split.
  - assert (∀ children, Forall acceptable children →
              hconcat children ∅
              = Ok (Node "HConcatChart" [] {["hconcat" := PyList children]}))
      as Hbuilt.
    { intros children Hchildren. unfold hconcat, HConcatChart.__init__.
      by rewrite for_each_acceptable. }
    assert (∀ x y, acceptable x → acceptable y →
              isinstance x ["HConcatChart"] = false →
              Operators.or_ x y
              = Ok (Node "HConcatChart" [] {["hconcat" := PyList [x; y]]}))
      as Hor.
    { intros x y Hx Hy Hhx. unfold Operators.or_. rewrite Hhx.
      apply (Hbuilt [x; y]). by repeat apply Forall_cons_2. }
    split_and!.
    + rewrite (Hor a b) by done. simpl.
      rewrite Hbuilt by by repeat apply Forall_cons_2.
      unfold Operators.or_, HConcatChart.__or__. simpl.
      rewrite check_acceptable by done. simpl.
      unfold append_child, getattr. simpl. rewrite lookup_singleton_eq. simpl.
      by rewrite insert_singleton_eq.
    + apply Hbuilt. by repeat apply Forall_cons_2.
    + rewrite (Hor b c) by done. simpl.
      apply Hor; [done| |done]. apply concat_chart_acceptable. by_compute.
  - assert (∀ children, Forall acceptable children →
              vconcat children ∅
              = Ok (Node "VConcatChart" [] {["vconcat" := PyList children]}))
      as Hbuilt.
    { intros children Hchildren. unfold vconcat, VConcatChart.__init__.
      by rewrite for_each_acceptable. }
    assert (∀ x y, acceptable x → acceptable y →
              isinstance x ["VConcatChart"] = false →
              Operators.and_ x y
              = Ok (Node "VConcatChart" [] {["vconcat" := PyList [x; y]]}))
      as Hand.
    { intros x y Hx Hy Hvx. unfold Operators.and_. rewrite Hvx.
      apply (Hbuilt [x; y]). by repeat apply Forall_cons_2. }
    split_and!.
    + rewrite (Hand a b) by done. simpl.
      rewrite Hbuilt by by repeat apply Forall_cons_2.
      unfold Operators.and_, VConcatChart.__and__. simpl.
      rewrite check_acceptable by done. simpl.
      unfold append_child, getattr. simpl. rewrite lookup_singleton_eq. simpl.
      by rewrite insert_singleton_eq.
    + apply Hbuilt. by repeat apply Forall_cons_2.
    + rewrite (Hand b c) by done. simpl.
      apply Hand; [done| |done]. apply concat_chart_acceptable. by_compute.
Qed.

Lemma concatenation_flattens_on_the_left_witness :
  let a := Node "Chart" [] {["mark" := PyStr "line"]} in
  let b := Node "Chart" [] {["mark" := PyStr "point"]} in
  let c := Node "Chart" [] {["mark" := PyStr "rule"]} in
  (Operators.or_ a b ≫= λ ab, Operators.or_ ab c) = hconcat [a; b; c] ∅
  ∧ (Operators.and_ a b ≫= λ ab, Operators.and_ ab c) = vconcat [a; b; c] ∅.
Proof.
  intros a b c.
  assert (∀ mark, acceptable (Node "Chart" [] {["mark" := PyStr mark]}))
    as Hacceptable.
  { intros mark. split; [done|]. intros attr Hattr. unfold declares. simpl.
    rewrite lookup_singleton_ne; [done|]. intros <-. revert Hattr. by_compute. }
  assert (isinstance a ["HConcatChart"] = false) as Hha by reflexivity.
  assert (isinstance b ["HConcatChart"] = false) as Hhb by reflexivity.
  assert (isinstance a ["VConcatChart"] = false) as Hva by reflexivity.
  assert (isinstance b ["VConcatChart"] = false) as Hvb by reflexivity.
  destruct (concatenation_flattens_on_the_left a b c (Hacceptable "line")
              (Hacceptable "point") (Hacceptable "rule") Hha Hhb Hva Hvb)
    as [[Hor _] [Hand _]].
  by split.
Defined.

(** X27.  The error of [_check_if_valid_subspec] names the first top-level-only
    property the child declares, in the order autosize, background, config,
    padding, whatever it declares after it. *)
Theorem subspec_error_names_first_declared (spec : value)
    (classname attr : string) (before after : list string) :
  is_spec spec = true →
  toplevel_only = before ++ attr :: after →
  (∀ earlier, earlier ∈ before → declares spec earlier = false) →
  declares spec attr = true →
  _check_if_valid_subspec spec classname
  = Raise (ValueError (subspec_err attr classname)).
Proof.
  intros Hspec Hsplit Hbefore Hattr. rewrite check_subspec_find by done.
  rewrite Hsplit. clear Hsplit.
  induction before as [|earlier before IH]; simpl.
  - by rewrite Hattr.
  - rewrite (Hbefore earlier) by by left.
    apply IH. intros a Ha. apply Hbefore. by right.
Qed.

Lemma subspec_error_names_first_declared_witness :
  _check_if_valid_subspec
    (Node "Chart" [] {["padding" := PyInt 5; "config" := PyDict ∅]}) "LayerChart"
  = Raise (ValueError (subspec_err "config" "LayerChart")).
Proof.
  apply (subspec_error_names_first_declared _ _ "config"
           ["autosize"; "background"] ["padding"]); [done|done| |done].
  intros earlier Hearlier. rewrite !elem_of_cons, elem_of_nil in Hearlier.
  by destruct Hearlier as [->|[->|[]]].
Defined.
